(** * Markdown assembly in [streamlitCloud_app.py]

    A shallow embedding of the four extraction-to-Markdown pipelines of
    [streamlitCloud_app.py] (local PDF, Adobe PDF, scraped page, Diffbot
    page) and of the S3 re-hosting helper they share.

    Conventions of the embedding:
    - Python [str] is [string]; [+=] on a Markdown accumulator is
      [+:+]; the newline escape is written [nl].
    - What the third-party libraries return or raise (PyMuPDF,
      pdfplumber, tabula, pandas, BeautifulSoup, requests, openpyxl, the
      Adobe SDK, boto3) is data of the [World] a run executes in; the
      program's own control flow, guards, [try]/[except] blocks and string
      building are translated line by line.
    - [urllib.parse.urljoin] of the standard library decides which URLs a
      page's links become, and whether the scraper raises: it is
      translated from the library's source.
    - Side effects that the properties talk about (S3 uploads, log lines,
      temp files, the tabula call) are recorded in a trace carried by the
      monad [M], which also carries raised exceptions. *)

From Stdlib Require Import String Ascii List ZArith Bool Lia Floats DecimalString.
From stdpp Require Import gmap strings sorting.
Import ListNotations.
Local Open Scope string_scope.
Local Open Scope list_scope.

(** ** Python string and path primitives used by the program *)

Module Py.

(** The newline character of the string escapes. *)
Definition nl : string := String (ascii_of_nat 10) EmptyString.

(** Truth value of a [str]: only the empty string is falsy. *)
Definition truthy (s : string) : bool :=
  match s with
  | EmptyString => false
  | String _ _ => true
  end.

(** [s.startswith(pre)]. *)
Definition startswith (s pre : string) : bool := String.prefix pre s.

(** [s.endswith(suf)]. *)
Definition endswith (s suf : string) : bool :=
  let n := String.length s in
  let m := String.length suf in
  (m <=? n)%nat && String.eqb (String.substring (n - m) m s) suf.

(** [str(n)] for a non-negative [int]. *)
Definition str_nat (n : nat) : string := NilZero.string_of_uint (Nat.to_uint n).

(** [str(z)] for an [int]. *)
Definition str_int (z : Z) : string := NilZero.string_of_int (Z.to_int z).

(** [str(b)] for a [bool]. *)
Definition str_bool (b : bool) : string := if b then "True" else "False".

(** [sep.join(l)]. *)
Definition join (sep : string) (l : list string) : string := String.concat sep l.

(** [s * n]. *)
Fixpoint repeat_str (s : string) (n : nat) : string :=
  match n with
  | O => EmptyString
  | S k => s +:+ repeat_str s k
  end.

(** [x or d] where [x] is [None] or a [str]. *)
Definition or_str (x : option string) (d : string) : string :=
  match x with
  | Some s => if truthy s then s else d
  | None => d
  end.

(** [d.get(k, default)] on a typed optional field. *)
Definition get {A : Type} (field : option A) (dflt : A) : A :=
  match field with
  | Some v => v
  | None => dflt
  end.

(** [s.replace(old, new)] for a non-empty [old]: leftmost occurrences,
    not overlapping.  [skip] counts the characters of a match still to
    be dropped. *)
Fixpoint replace_from (old new : string) (skip : nat) (s : string) : string :=
  match s with
  | EmptyString => EmptyString
  | String c s' =>
      match skip with
      | S k => replace_from old new k s'
      | O =>
          if String.prefix old s
          then new +:+ replace_from old new (String.length old - 1) s'
          else String c (replace_from old new 0 s')
      end
  end.

Definition replace (s old new : string) : string := replace_from old new 0 s.

(** [os.path.basename] (POSIX): what follows the last slash. *)
Fixpoint after_last_slash (s cur : string) : string :=
  match s with
  | EmptyString => cur
  | String c s' =>
      if Ascii.eqb c "/" then after_last_slash s' s' else after_last_slash s' cur
  end.

Definition basename (p : string) : string := after_last_slash p p.

(** [os.path.join(a, b)] (POSIX, two components). *)
Definition path_join (a b : string) : string :=
  if startswith b "/" then b
  else if negb (truthy a) || endswith a "/" then a +:+ b
  else a +:+ "/" +:+ b.

(** Insertion in a list kept in increasing order of file name. *)
Fixpoint insert_by_name {A : Type} (x : string * A) (l : list (string * A))
  : list (string * A) :=
  match l with
  | [] => [x]
  | y :: l' =>
      if String.leb (fst x) (fst y) then x :: y :: l' else y :: insert_by_name x l'
  end.

(** [sorted(os.listdir(d))], each name carried with what the entry holds. *)
Definition sorted_by_name {A : Type} (l : list (string * A)) : list (string * A) :=
  fold_right insert_by_name [] l.

(** Zero-padded decimal of width [w], as the numeric [strftime] fields. *)
Definition zfill (w n : nat) : string :=
  let s := str_nat n in
  repeat_str "0" (w - String.length s) +:+ s.

(** [c in s] for a one-character [c]. *)
Fixpoint contains (s : string) (c : ascii) : bool :=
  match s with
  | EmptyString => false
  | String x s' => Ascii.eqb x c || contains s' c
  end.

(** Every character of [s] satisfies [p]. *)
Fixpoint str_all (p : ascii -> bool) (s : string) : bool :=
  match s with
  | EmptyString => true
  | String x s' => p x && str_all p s'
  end.

(** [s.partition(c)] for a one-character [c]: what is before the first
    [c], whether there is one, and what is after it. *)
Fixpoint str_partition (s : string) (c : ascii) : string * bool * string :=
  match s with
  | EmptyString => (EmptyString, false, EmptyString)
  | String x s' =>
      if Ascii.eqb x c then (EmptyString, true, s')
      else let '(before, found, after) := str_partition s' c in
           (String x before, found, after)
  end.

(** [s.rpartition(c)] for a one-character [c]: what is before the last
    [c], whether there is one, and what is after it; the whole of [s] is
    the third component when there is none. *)
Fixpoint str_rpartition (s : string) (c : ascii) : string * bool * string :=
  match s with
  | EmptyString => (EmptyString, false, EmptyString)
  | String x s' =>
      let '(before, found, after) := str_rpartition s' c in
      if found then (String x before, true, after)
      else if Ascii.eqb x c then (EmptyString, true, s')
      else (EmptyString, false, String x after)
  end.

(** [s.split(c)] for a one-character [c]. *)
Fixpoint str_split (s : string) (c : ascii) : list string :=
  match s with
  | EmptyString => [EmptyString]
  | String x s' =>
      if Ascii.eqb x c then EmptyString :: str_split s' c
      else match str_split s' c with
           | first :: others => String x first :: others
           | [] => [String x EmptyString]
           end
  end.

(** [s.lstrip(chars)], [s.rstrip(chars)] and [s.strip(chars)], the set
    [chars] given by its membership test. *)
Fixpoint lstrip_chars (p : ascii -> bool) (s : string) : string :=
  match s with
  | EmptyString => EmptyString
  | String x s' => if p x then lstrip_chars p s' else s
  end.

Fixpoint rstrip_chars (p : ascii -> bool) (s : string) : string :=
  match s with
  | EmptyString => EmptyString
  | String x s' =>
      match rstrip_chars p s' with
      | EmptyString => if p x then EmptyString else String x EmptyString
      | String y r => String x (String y r)
      end
  end.

Definition strip_chars (p : ascii -> bool) (s : string) : string :=
  rstrip_chars p (lstrip_chars p s).

(** [s.replace(c, "")] for a one-character [c]. *)
Fixpoint remove_char (s : string) (c : ascii) : string :=
  match s with
  | EmptyString => EmptyString
  | String x s' => if Ascii.eqb x c then remove_char s' c else String x (remove_char s' c)
  end.

(** [s.lower()] on ASCII text. *)
Definition lower_char (c : ascii) : ascii :=
  let n := nat_of_ascii c in
  if (65 <=? n)%nat && (n <=? 90)%nat then ascii_of_nat (n + 32) else c.

Fixpoint lower (s : string) : string :=
  match s with
  | EmptyString => EmptyString
  | String x s' => String (lower_char x) (lower s')
  end.

(** [s[n:]]. *)
Fixpoint str_drop (n : nat) (s : string) : string :=
  match n, s with
  | O, _ => s
  | S k, EmptyString => EmptyString
  | S k, String _ s' => str_drop k s'
  end.

(** [x in l] for a list of strings. *)
Definition str_in (x : string) (l : list string) : bool := existsb (String.eqb x) l.

End Py.

Import Py.

(** ** Exceptions, effects and the world of a run *)

Inductive ExnClass :=
| FileNotFoundError
| NoCredentialsError
| ValueError
| HTTPError
| ServiceApiException
| ServiceUsageException
| SdkException
| OtherException.

(** A raised exception: its class and [str(e)]. *)
Record Exn := mkExn { exn_class : ExnClass; exn_msg : string }.

Inductive Res (A : Type) :=
| Ok (a : A)
| Raise (e : Exn).
Arguments Ok {A} a.
Arguments Raise {A} e.

(** Sequencing of calls that return or raise and have no other effect. *)
#[export] Instance Res_ret : MRet Res := fun A a => Ok a.

#[export] Instance Res_bind : MBind Res := fun A B f r =>
  match r with
  | Ok a => f a
  | Raise e => Raise e
  end.

Inductive LogLevel := LWarning | LError | LException.

Inductive Event :=
| Log (lvl : LogLevel) (msg : string)
| TempFileWritten (path : string)
| OsRemove (path : string)
| OsMakedirs (path : string)
| S3UploadFile (file_path bucket object_key : string)
| ReadPdf (pdf_path : string)
| HttpGet (url : string)
| AdobeJob (pdf_path : string)
| ZipExtractAll (zip_path out_dir : string).

(** Mutable part of a run: what happened so far, and how many temp files
    were created. *)
Record St := mkSt { trace : list Event; tmp_count : nat }.

Definition M (A : Type) : Type := St -> Res A * St.

#[export] Instance M_ret : MRet M := fun A a st => (Ok a, st).

#[export] Instance M_bind : MBind M := fun A B f m st =>
  match m st with
  | (Ok a, st') => f a st'
  | (Raise e, st') => (Raise e, st')
  end.

Definition raise {A : Type} (e : Exn) : M A := fun st => (Raise e, st).

(** [try: m] with the outcome handed to the code after it. *)
Definition try_ {A : Type} (m : M A) : M (Res A) := fun st =>
  match m st with
  | (r, st') => (Ok r, st')
  end.

Definition emit (ev : Event) : M unit := fun st =>
  (Ok tt, {| trace := trace st ++ [ev]; tmp_count := tmp_count st |}).

(** Lifts the outcome of an external call into the monad. *)
Definition of_res {A : Type} (r : Res A) : M A := fun st => (r, st).

(** [for i, x in enumerate(l, start)] over an accumulator. *)
Fixpoint for_enumerate {A B : Type} (body : nat -> A -> B -> M B)
  (i : nat) (l : list A) (acc : B) : M B :=
  match l with
  | [] => mret acc
  | x :: l' => acc' ← body i x acc; for_enumerate body (S i) l' acc'
  end.

(** [for x in l] over an accumulator. *)
Fixpoint for_each {A B : Type} (body : A -> B -> M B) (l : list A) (acc : B) : M B :=
  match l with
  | [] => mret acc
  | x :: l' => acc' ← body x acc; for_each body l' acc'
  end.

(** The same loop when the body has no effect. *)
Fixpoint fold_enumerate {A B : Type} (body : nat -> A -> B -> B)
  (i : nat) (l : list A) (acc : B) : B :=
  match l with
  | [] => acc
  | x :: l' => fold_enumerate body (S i) l' (body i x acc)
  end.

(** *** Values handed over by the libraries *)

(** [doc.extract_image(xref)]: the bytes and the extension. *)
Record FitzImage := mkFitzImage { image : string; ext : string }.

(** A column label of a [DataFrame]: a position of the default
    [RangeIndex], or a cell promoted to a label. *)
Inductive Label :=
| LInt (n : nat)
| LCell (c : option string).

(** A [pandas.DataFrame] of text cells; [None] fills ragged rows. *)
Record DataFrame := mkDataFrame {
  columns : list Label;
  df_rows : list (list (option string))
}.

(** A PDF on disk as the three local libraries see it: PyMuPDF pages with
    their images, pdfplumber pages with their text, and what tabula's
    [read_pdf] does. *)
Record Pdf := mkPdf {
  fitz_pages : list (list FitzImage);
  plumber_pages : list (option string);
  tabula_read_pdf : Res (list DataFrame)
}.

(** An [openpyxl] cell value. *)
Inductive Cell :=
| CNone
| CStr (s : string)
| CInt (z : Z)
| CFloat (f : float)
| CBool (b : bool)
| CDateTime (repr : string).

(** One element of [structuredData.json]. *)
Record TableElt := mkTableElt { Rows : option (list (list string)) }.
Record Element := mkElement { Text : option string; Table : option TableElt }.
Record Manifest := mkManifest { manifest_elements : option (list Element) }.

(** The extracted ZIP of an Adobe job: the manifest if present, the
    [tables] folder (name, rows of the active sheet) and the [figures]
    folder (name, [os.path.isfile]) if present; folders in [os.listdir]
    order. *)
Record Bundle := mkBundle {
  structuredData : option Manifest;
  tables_folder : option (list (string * list (list Cell)));
  figures_folder : option (list (string * bool))
}.

(** A fetched page after [BeautifulSoup]: stripped paragraph texts, the
    [src] of each [img] if it has one, the [href] of each anchor that has
    one, and for each [table] its [tr] rows of stripped [td]/[th] texts. *)
Record Soup := mkSoup {
  paragraphs : list string;
  imgs : list (option string);
  anchors : list string;
  html_tables : list (list (list string))
}.

Record Response := mkResponse { status_code : nat; reason : string; soup : Soup }.

(** The Diffbot article API answer. *)
Record DImage := mkDImage { img_url : option string; caption : option string }.
Record DTable := mkDTable { rows : option (list (list string)) }.
Record DObject := mkDObject {
  title : option string;
  text : option string;
  images : option (list DImage);
  tables : option (list DTable)
}.
Record DiffbotData := mkDiffbotData { objects : option (list DObject) }.
Record ApiResponse := mkApiResponse { api_status_code : nat; json : DiffbotData }.

Record DateTime := mkDateTime {
  year : nat; month : nat; day : nat; hour : nat; minute : nat; second : nat
}.

(** [boto3.client('s3', ...)]: building the client performs no request. *)
Record S3Client := mkS3Client {
  aws_access_key_id : string;
  aws_secret_access_key : string;
  region_name : string
}.

(** Everything a run reads from outside the program. *)
Record World := mkWorld {
  (** [st.secrets] *)
  secrets : gmap string string;
  (** [s3_client.upload_file(file, bucket, key)]: [None] on success, the
      exception otherwise *)
  s3_upload_file : S3Client -> string -> string -> string -> option Exn;
  (** directory and random stem of the [n]-th [NamedTemporaryFile] *)
  tmp_prefix : nat -> string;
  (** [datetime.now()] *)
  datetime_now : DateTime;
  (** the PDF stored at a path *)
  open_pdf : string -> Pdf;
  (** [DataFrame.to_markdown(index=False)]: the rendering, or the exception
      it raises (for one, [ImportError] when [tabulate] is not installed) *)
  to_markdown : DataFrame -> Res string;
  (** [str] of a float *)
  float_repr : float -> string;
  (** [urllib.parse._check_bracketed_host(hostname)], the check of the
      IPvFuture pattern and [ipaddress.ip_address] on a host written in
      brackets: [None] when it accepts the host, the exception otherwise *)
  check_bracketed_host : string -> option Exn;
  (** [requests.get(url)] followed by the parse of its content *)
  requests_get : string -> Response;
  (** [requests.get(api_endpoint)] on the Diffbot endpoint *)
  diffbot_get : string -> ApiResponse;
  (** [os.path.exists] *)
  path_exists : string -> bool;
  (** [json.loads] of the Adobe credentials and the two key lookups *)
  adobe_credentials : string -> Res (string * string);
  (** upload, job submission, result download for one PDF: the bundle the
      downloaded ZIP holds *)
  adobe_extract : string -> string -> string -> Res Bundle
}.

(** [st.secrets.get(key, default)]. *)
Definition secrets_get (w : World) (key dflt : string) : string :=
  default dflt (secrets w !! key).

(** ** [urllib.parse] of the standard library

    [urljoin] and what it calls, after [Lib/urllib/parse.py] of CPython
    3.11 on [str] arguments with [allow_fragments] left at its default.  A
    parsed URL is the tuple the library unpacks. *)

Definition uses_relative : list string :=
  [""; "ftp"; "http"; "gopher"; "nntp"; "imap"; "wais"; "file"; "https"; "shttp"; "mms";
   "prospero"; "rtsp"; "rtspu"; "sftp"; "svn"; "svn+ssh"; "ws"; "wss"].

Definition uses_netloc : list string :=
  [""; "ftp"; "http"; "gopher"; "nntp"; "telnet"; "imap"; "wais"; "file"; "mms"; "https";
   "shttp"; "snews"; "prospero"; "rtsp"; "rtspu"; "rsync"; "svn"; "svn+ssh"; "sftp"; "nfs";
   "git"; "git+ssh"; "ws"; "wss"].

Definition uses_params : list string :=
  [""; "ftp"; "hdl"; "prospero"; "http"; "imap"; "https"; "shttp"; "rtsp"; "rtspu"; "sip";
   "sips"; "mms"; "sftp"; "tel"].

(** [c.isascii() and c.isalpha()]. *)
Definition is_alpha (c : ascii) : bool :=
  let n := nat_of_ascii c in
  ((65 <=? n)%nat && (n <=? 90)%nat) || ((97 <=? n)%nat && (n <=? 122)%nat).

(** [c in scheme_chars]. *)
Definition is_scheme_char (c : ascii) : bool :=
  let n := nat_of_ascii c in
  is_alpha c || ((48 <=? n)%nat && (n <=? 57)%nat)
  || Ascii.eqb c "+" || Ascii.eqb c "-" || Ascii.eqb c ".".

(** [c in _WHATWG_C0_CONTROL_OR_SPACE]. *)
Definition is_c0_control_or_space (c : ascii) : bool := (nat_of_ascii c <=? 32)%nat.

(** [c in '/?#']. *)
Definition is_netloc_delim (c : ascii) : bool :=
  Ascii.eqb c "/" || Ascii.eqb c "?" || Ascii.eqb c "#".

(** [url[:delim], url[delim:]] for the first [delim] holding one of
    [/?#]. *)
Fixpoint until_delim (url : string) : string * string :=
  match url with
  | EmptyString => (EmptyString, EmptyString)
  | String c url' =>
      if is_netloc_delim c then (EmptyString, url)
      else let '(domain, rest) := until_delim url' in (String c domain, rest)
  end.

(** [_splitnetloc(url, start)]. *)
Definition splitnetloc (url : string) (start : nat) : string * string :=
  until_delim (str_drop start url).

(** [_checknetloc(netloc)]: the NFKC form of a character below code point
    256 holds none of [/?#@:], so the check passes on every [str] of the
    embedding. *)
Definition checknetloc (netloc : string) : Res unit := Ok tt.

(** [_check_bracketed_netloc(netloc)]. *)
Definition check_bracketed_netloc (w : World) (netloc : string) : Res unit :=
  let hostname_and_port := snd (str_rpartition netloc "@") in
  let '(before_bracket, have_open_br, bracketed) := str_partition hostname_and_port "[" in
  hostname ←
    (if have_open_br then
       if truthy before_bracket then Raise (mkExn ValueError "Invalid IPv6 URL")
       else
         let '(hostname, _, port) := str_partition bracketed "]" in
         if truthy port && negb (startswith port ":")
         then Raise (mkExn ValueError "Invalid IPv6 URL")
         else Ok hostname
     else
       let '(hostname, _, port) := str_partition hostname_and_port ":" in
       Ok hostname);
  match check_bracketed_host w hostname with
  | None => Ok tt
  | Some e => Raise e
  end.

(** [urlsplit(url, scheme)]. *)
Definition urlsplit (w : World) (url scheme : string)
  : Res (string * string * string * string * string) :=
  let url := lstrip_chars is_c0_control_or_space url in
  let scheme := strip_chars is_c0_control_or_space scheme in
  let url := remove_char (remove_char (remove_char url "009") "013") "010" in
  let scheme := remove_char (remove_char (remove_char scheme "009") "013") "010" in
  let netloc := EmptyString in
  let query := EmptyString in
  let fragment := EmptyString in
  let '(head, found, tail) := str_partition url ":" in
  let '(scheme, url) :=
    if found && truthy head
       && match head with String c _ => is_alpha c | EmptyString => false end
    then if str_all is_scheme_char head then (lower head, tail) else (scheme, url)
    else (scheme, url) in
  '(netloc, url) ←
    (if startswith url "//" then
       let '(netloc, url) := splitnetloc url 2 in
       if (contains netloc "[" && negb (contains netloc "]"))
          || (contains netloc "]" && negb (contains netloc "["))
       then Raise (mkExn ValueError "Invalid IPv6 URL")
       else
         (if contains netloc "[" && contains netloc "]"
          then check_bracketed_netloc w netloc else Ok tt);;
         Ok (netloc, url)
     else Ok (netloc, url));
  let '(url, fragment) :=
    if contains url "#"
    then let '(url, _, fragment) := str_partition url "#" in (url, fragment)
    else (url, fragment) in
  let '(url, query) :=
    if contains url "?"
    then let '(url, _, query) := str_partition url "?" in (url, query)
    else (url, query) in
  checknetloc netloc;;
  Ok (scheme, netloc, url, query, fragment).

(** [_splitparams(url)], called on a [url] that holds a semicolon. *)
Definition splitparams (url : string) : string * string :=
  if contains url "/" then
    let '(head, _, tail) := str_rpartition url "/" in
    let '(before, found, after) := str_partition tail ";" in
    if found then (head +:+ "/" +:+ before, after) else (url, EmptyString)
  else
    let '(before, _, after) := str_partition url ";" in (before, after).

(** [urlparse(url, scheme)]. *)
Definition urlparse (w : World) (url scheme : string)
  : Res (string * string * string * string * string * string) :=
  '(scheme, netloc, url, query, fragment) ← urlsplit w url scheme;
  let '(url, params) :=
    if str_in scheme uses_params && contains url ";" then splitparams url
    else (url, EmptyString) in
  Ok (scheme, netloc, url, params, query, fragment).

(** [urlunsplit(components)]. *)
Definition urlunsplit (components : string * string * string * string * string)
  : string :=
  let '(scheme, netloc, url, query, fragment) := components in
  let url :=
    if truthy netloc
       || (truthy scheme && str_in scheme uses_netloc && negb (startswith url "//"))
    then
      let url := if truthy url && negb (startswith url "/") then "/" +:+ url else url in
      "//" +:+ netloc +:+ url
    else url in
  let url := if truthy scheme then scheme +:+ ":" +:+ url else url in
  let url := if truthy query then url +:+ "?" +:+ query else url in
  let url := if truthy fragment then url +:+ "#" +:+ fragment else url in
  url.

(** [urlunparse(components)]. *)
Definition urlunparse
  (components : string * string * string * string * string * string) : string :=
  let '(scheme, netloc, url, params, query, fragment) := components in
  let url := if truthy params then url +:+ ";" +:+ params else url in
  urlunsplit (scheme, netloc, url, query, fragment).

(** [segments[1:-1] = filter(None, segments[1:-1])]. *)
Definition filter_inner (segments : list string) : list string :=
  match segments with
  | [] => []
  | first :: others =>
      match others with
      | [] => segments
      | _ :: _ =>
          first :: List.filter truthy (removelast others) ++ [List.last others EmptyString]
      end
  end.

(** [urljoin(base, url)]. *)
Definition urljoin (w : World) (base url : string) : Res string :=
  if negb (truthy base) then Ok url
  else if negb (truthy url) then Ok base
  else
    '(bscheme, bnetloc, bpath, bparams, bquery, bfragment) ← urlparse w base EmptyString;
    '(scheme, netloc, path, params, query, fragment) ← urlparse w url bscheme;
    if negb (String.eqb scheme bscheme) || negb (str_in scheme uses_relative) then Ok url
    else if str_in scheme uses_netloc && truthy netloc then
      Ok (urlunparse (scheme, netloc, path, params, query, fragment))
    else
      let netloc := if str_in scheme uses_netloc then bnetloc else netloc in
      if negb (truthy path) && negb (truthy params) then
        let path := bpath in
        let params := bparams in
        let query := if negb (truthy query) then bquery else query in
        Ok (urlunparse (scheme, netloc, path, params, query, fragment))
      else
        let base_parts := str_split bpath "/" in
        let base_parts :=
          if negb (String.eqb (List.last base_parts EmptyString) EmptyString)
          then removelast base_parts else base_parts in
        let segments :=
          if startswith path "/" then str_split path "/"
          else filter_inner (base_parts ++ str_split path "/") in
        let resolved_path :=
          fold_left (fun resolved_path seg =>
                       if String.eqb seg ".." then removelast resolved_path
                       else if String.eqb seg "." then resolved_path
                       else resolved_path ++ [seg]) segments [] in
        let resolved_path :=
          if str_in (List.last segments EmptyString) ["."; ".."]
          then resolved_path ++ [EmptyString] else resolved_path in
        let joined := join "/" resolved_path in
        Ok (urlunparse (scheme, netloc, if truthy joined then joined else "/",
                        params, query, fragment)).

(** ** The program *)

Definition log (lvl : LogLevel) (msg : string) : M unit := emit (Log lvl msg).

(** [tempfile.NamedTemporaryFile(delete=False, suffix=suffix)], the write
    of [content] and the read of [.name]. *)
Definition named_temporary_file (w : World) (suffix content : string) : M string :=
  fun st =>
    let path := tmp_prefix w (tmp_count st) +:+ suffix in
    (Ok path, {| trace := trace st ++ [TempFileWritten path];
                 tmp_count := S (tmp_count st) |}).

Definition os_remove (path : string) : M unit := emit (OsRemove path).

Definition boto3_client (key secret region : string) : S3Client :=
  {| aws_access_key_id := key; aws_secret_access_key := secret; region_name := region |}.

(** [s3_client.upload_file(file_path, bucket, key)]. *)
Definition s3_client_upload_file (w : World) (c : S3Client)
  (file_path bucket object_key : string) : M unit :=
  emit (S3UploadFile file_path bucket object_key);;
  match s3_upload_file w c file_path bucket object_key with
  | None => mret tt
  | Some e => raise e
  end.

(** Lines 251-286. *)
Definition upload_file_to_s3 (w : World) (file_path : string) : M (option string) :=
  let bucket_name := secrets_get w "S3_BUCKET_NAME" "" in
  let aws_key := secrets_get w "AWS_ACCESS_KEY_ID" "" in
  let aws_secret := secrets_get w "AWS_SECRET_ACCESS_KEY" "" in
  let aws_region := secrets_get w "AWS_DEFAULT_REGION" "us-east-1" in
  if negb (truthy bucket_name && truthy aws_key && truthy aws_secret) then
    log LWarning "Skipping S3 upload (missing credentials or bucket).";;
    mret None
  else
    let s3_client := boto3_client aws_key aws_secret aws_region in
    let object_key := basename file_path in
    r ← try_ (s3_client_upload_file w s3_client file_path bucket_name object_key);
    match r with
    | Ok _ =>
        mret (Some ("https://" +:+ bucket_name +:+ ".s3.amazonaws.com/" +:+ object_key))
    | Raise e =>
        match exn_class e with
        | FileNotFoundError => log LError ("File not found: " +:+ file_path)
        | NoCredentialsError => log LError "AWS credentials not available."
        | _ =>
            log LException
              ("Failed to upload " +:+ file_path +:+ " to S3: " +:+ exn_msg e)
        end;;
        mret None
    end.

(** Truth value of what [upload_file_to_s3] returned. *)
Definition url_truthy (s3_url : option string) : bool :=
  match s3_url with
  | Some u => truthy u
  | None => false
  end.

(** Lines 61-85: what the inner loop does for one image of a page. *)
Definition image_to_md (w : World) (page_num img_index : nat) (img : FitzImage)
  (md_images : string) : M string :=
  tmp_path ← named_temporary_file w ("." +:+ ext img) (image img);
  s3_url ← upload_file_to_s3 w tmp_path;
  os_remove tmp_path;;
  if url_truthy s3_url then
    mret (md_images +:+ "![Image page " +:+ str_nat (page_num + 1) +:+ " - "
            +:+ str_nat (img_index + 1) +:+ "](" +:+ get s3_url "" +:+ ")" +:+ nl)
  else
    mret (md_images +:+ nl +:+ "**[Warning: Failed to upload image (page "
            +:+ str_nat (page_num + 1) +:+ ", index " +:+ str_nat (img_index + 1)
            +:+ ") to S3]**" +:+ nl).

(** Lines 42-88. *)
Definition extract_images_to_md (w : World) (pdf_path : string) : M string :=
  let doc := fitz_pages (open_pdf w pdf_path) in
  let md_images := nl +:+ "## Extracted Images" +:+ nl in
  for_enumerate (fun page_num page md_images =>
    let images := page in
    for_enumerate (image_to_md w page_num) 0 images md_images)
    0 doc md_images.

(** Lines 91-98. *)
Definition extract_text_to_md (w : World) (pdf_path : string) : string :=
  let md_text := nl +:+ "## Extracted Text" +:+ nl in
  fold_enumerate (fun page_num page md_text =>
    let page_text := or_str page "" in
    md_text +:+ nl +:+ "### Page " +:+ str_nat (page_num + 1) +:+ nl +:+ "```" +:+ nl
      +:+ page_text +:+ nl +:+ "```" +:+ nl)
    0 (plumber_pages (open_pdf w pdf_path)) md_text.

(** [read_pdf(pdf_path, pages='all', multiple_tables=True)]. *)
Definition read_pdf (w : World) (pdf_path : string) : M (list DataFrame) :=
  emit (ReadPdf pdf_path);;
  of_res (tabula_read_pdf (open_pdf w pdf_path)).

(** Lines 105-108: the loop over the tables.  [md_tables] is assigned to
    as the loop runs, so the outcome carries the value it has when the loop
    ends or when [to_markdown] raises. *)
Definition tables_loop (w : World)
  : nat -> list DataFrame -> string -> Res unit * string :=
  fix tables_loop (i : nat) (tables : list DataFrame) (md_tables : string) :=
  match tables with
  | [] => (Ok tt, md_tables)
  | table :: tables' =>
      let md_tables := md_tables +:+ nl +:+ "### Table " +:+ str_nat (i + 1) +:+ nl in
      match to_markdown w table with
      | Ok rendered =>
          let md_tables := md_tables +:+ rendered in
          let md_tables := md_tables +:+ nl in
          tables_loop (S i) tables' md_tables
      | Raise e => (Raise e, md_tables)
      end
  end.

(** Lines 100-111.  Both [read_pdf] and [to_markdown] are inside the
    [try]; the handler appends its line to [md_tables] as it is when the
    exception is raised. *)
Definition extract_tables_to_md (w : World) (pdf_path : string) : M string :=
  let md_tables := nl +:+ "## Extracted Tables" +:+ nl in
  r ← try_ (read_pdf w pdf_path);
  let '(r, md_tables) :=
    match r with
    | Ok tables => tables_loop w 0 tables md_tables
    | Raise e => (Raise e, md_tables)
    end in
  match r with
  | Ok _ => mret md_tables
  | Raise e => mret (md_tables +:+ nl +:+ "Failed to process tables: " +:+ exn_msg e +:+ nl)
  end.

(** Lines 113-119. *)
Definition open_source_extract_pdf (w : World) (pdf_path : string) : M string :=
  let md := "# Extracted Content from " +:+ basename pdf_path +:+ nl in
  md_images ← extract_images_to_md w pdf_path;
  let md := md +:+ md_images in
  let md := md +:+ extract_text_to_md w pdf_path in
  md_tables ← extract_tables_to_md w pdf_path;
  let md := md +:+ md_tables in
  mret md.

(** [now.strftime("%Y-%m-%dT%H-%M-%S")]. *)
Definition strftime (now : DateTime) : string :=
  zfill 4 (year now) +:+ "-" +:+ zfill 2 (month now) +:+ "-" +:+ zfill 2 (day now)
    +:+ "T" +:+ zfill 2 (hour now) +:+ "-" +:+ zfill 2 (minute now) +:+ "-"
    +:+ zfill 2 (second now).

(** Lines 184-188. *)
Definition create_adobe_zip_path (w : World) : M string :=
  let now_str := strftime (datetime_now w) in
  let out_dir := "temp_adobe_extractions" in
  emit (OsMakedirs out_dir);;
  mret (path_join out_dir ("extraction_" +:+ now_str +:+ ".zip")).

(** One line of a pipe table: ["| " + " | ".join(row) + " |\n"]. *)
Definition pipe_row (row : list string) : string :=
  "| " +:+ join " | " row +:+ " |" +:+ nl.

(** The separator under a header: one dash per character of each cell. *)
Definition pipe_dashes (row : list string) : string :=
  "| " +:+ join " | " (map (fun col => repeat_str "-" (String.length col)) row)
    +:+ " |" +:+ nl.

(** Truth value of a spreadsheet cell. *)
Definition cell_truthy (cell : Cell) : bool :=
  match cell with
  | CNone => false
  | CStr s => truthy s
  | CInt z => negb (z =? 0)%Z
  | CFloat f => negb (PrimFloat.eqb f 0%float)
  | CBool b => b
  | CDateTime _ => true
  end.

(** [str(cell)]. *)
Definition cell_str (w : World) (cell : Cell) : string :=
  match cell with
  | CNone => "None"
  | CStr s => s
  | CInt z => str_int z
  | CFloat f => float_repr w f
  | CBool b => str_bool b
  | CDateTime repr => repr
  end.

(** Lines 208-218: the loop over the manifest elements. *)
Definition manifest_to_md (data : Manifest) (md_content : string) : string :=
  fold_left (fun md_content element =>
    let md_content :=
      match Text element with
      | Some t => md_content +:+ "## Text Element" +:+ nl +:+ t +:+ nl +:+ nl
      | None => md_content
      end in
    match Table element with
    | Some tbl =>
        let md_content := md_content +:+ "## Table Element" +:+ nl in
        let rows := get (Rows tbl) [] in
        let md_content :=
          fold_enumerate (fun i row md_content =>
            let md_content := md_content +:+ pipe_row row in
            if (i =? 0)%nat then md_content +:+ pipe_dashes row else md_content)
            0 rows md_content in
        md_content +:+ nl
    | None => md_content
    end) (get (manifest_elements data) []) md_content.

(** Line 230: the comprehension [str(cell) if cell else (empty) for cell in row]. *)
Definition xlsx_row_data (w : World) (row : list Cell) : list string :=
  map (fun cell => if cell_truthy cell then cell_str w cell else EmptyString) row.

(** Lines 221-234: the spreadsheets of the [tables] folder. *)
Definition xlsx_tables_to_md (w : World)
  (folder : option (list (string * list (list Cell)))) (md_content : string) : string :=
  match folder with
  | None => md_content
  | Some entries =>
      fold_left (fun md_content '(tbl_file, sheet) =>
        if endswith tbl_file ".xlsx" then
          let md_content := md_content +:+ "## Table from " +:+ tbl_file +:+ nl in
          let md_content :=
            fold_enumerate (fun i row md_content =>
              let row_data := xlsx_row_data w row in
              let md_content := md_content +:+ pipe_row row_data in
              if (i =? 0)%nat then md_content +:+ pipe_dashes row_data else md_content)
              0 sheet md_content in
          md_content +:+ nl
        else md_content) (sorted_by_name entries) md_content
  end.

(** Lines 241-247: what the loop does for one entry of [figures]. *)
Definition figure_to_md (w : World) (figures_folder : string)
  (entry : string * bool) (md_content : string) : M string :=
  let '(fig_file, isfile) := entry in
  let fig_path := path_join figures_folder fig_file in
  if isfile then
    s3_url ← upload_file_to_s3 w fig_path;
    if url_truthy s3_url then
      mret (md_content +:+ "![Figure](" +:+ get s3_url "" +:+ ")" +:+ nl +:+ nl)
    else
      mret (md_content +:+ "![Figure](" +:+ fig_path +:+ ")" +:+ nl +:+ nl)
  else mret md_content.

(** Lines 237-247: the images of the [figures] folder. *)
Definition figures_to_md (w : World) (out_dir : string)
  (folder : option (list (string * bool))) (md_content : string) : M string :=
  let figures_folder := path_join out_dir "figures" in
  match folder with
  | None => mret md_content
  | Some entries =>
      let md_content := md_content +:+ "## Images" +:+ nl +:+ nl in
      for_enumerate (fun _ => figure_to_md w figures_folder) 0
        (sorted_by_name entries) md_content
  end.

(** Lines 190-249; [zip] is what the archive at [zip_file_path] holds. *)
Definition adobe_zip_to_markdown (w : World) (zip_file_path : string) (zip : Bundle)
  : M string :=
  let out_dir := replace zip_file_path ".zip" "" in
  emit (OsMakedirs out_dir);;
  emit (ZipExtractAll zip_file_path out_dir);;
  match structuredData zip with
  | None =>
      raise (mkExn FileNotFoundError "structuredData.json not found in ZIP extract.")
  | Some data =>
      let md_content := "# Extracted PDF Data (Enterprise)" +:+ nl +:+ nl in
      let md_content := manifest_to_md data md_content in
      let md_content := xlsx_tables_to_md w (tables_folder zip) md_content in
      figures_to_md w out_dir (figures_folder zip) md_content
  end.

Definition is_adobe_exception (c : ExnClass) : bool :=
  match c with
  | ServiceApiException | ServiceUsageException | SdkException => true
  | _ => false
  end.

(** Lines 125-182. *)
Definition enterprise_extract_pdf (w : World) (pdf_path : string) : M (option string) :=
  r ← try_ (
    match secrets w !! "ADOBE_CREDENTIALS_JSON" with
    | None =>
        raise (mkExn ValueError
                 "Adobe credentials not found in st.secrets['ADOBE_CREDENTIALS_JSON']")
    | Some adobe_json =>
        '(client_id, client_secret) ← of_res (adobe_credentials w adobe_json);
        if negb (path_exists w pdf_path) then
          raise (mkExn FileNotFoundError ("PDF file not found: " +:+ pdf_path))
        else
          emit (AdobeJob pdf_path);;
          zip ← of_res (adobe_extract w client_id client_secret pdf_path);
          zip_path ← create_adobe_zip_path w;
          adobe_zip_to_markdown w zip_path zip
    end);
  match r with
  | Ok md_output => mret (Some md_output)
  | Raise e =>
      (if is_adobe_exception (exn_class e)
       then log LException ("Adobe PDF Services error: " +:+ exn_msg e)
       else log LException ("Unexpected error in enterprise_extract_pdf: " +:+ exn_msg e));;
      mret None
  end.

(** [response.raise_for_status()]: statuses 400-599 raise [HTTPError]. *)
Definition raise_for_status (url : string) (response : Response) : M unit :=
  let code := status_code response in
  if (400 <=? code)%nat && (code <? 500)%nat then
    raise (mkExn HTTPError (str_nat code +:+ " Client Error: " +:+ reason response
                              +:+ " for url: " +:+ url))
  else if (500 <=? code)%nat && (code <? 600)%nat then
    raise (mkExn HTTPError (str_nat code +:+ " Server Error: " +:+ reason response
                              +:+ " for url: " +:+ url))
  else mret tt.

(** Lines 311-315: the URL kept for an [img] whose [src] is [src], or the
    exception of [urljoin]. *)
Definition resolve_src (w : World) (url src : string) : Res string :=
  if startswith src "//" then Ok ("https:" +:+ src)
  else if negb (startswith src "http:" || startswith src "https:") then urljoin w url src
  else Ok src.

(** Lines 322-324: the URL kept for an anchor whose [href] is [href], or
    the exception of [urljoin]. *)
Definition resolve_href (w : World) (url href : string) : Res string :=
  if negb (startswith href "http:" || startswith href "https:") then urljoin w url href
  else Ok href.

(** [pd.DataFrame(table_data)] on a list of rows: default integer labels,
    short rows filled with [None]. *)
Definition pd_DataFrame (table_data : list (list string)) : DataFrame :=
  let width := fold_right (fun row m => Nat.max (List.length row) m) 0 table_data in
  {| columns := map LInt (seq 0 width);
     df_rows := map (fun row => (map Some row
                       ++ List.repeat None (width - List.length row))%list) table_data |}.

(** Lines 339-341: [df.columns = df.iloc[0]; df = df[1:].reset_index(drop=True)]
    when [len(df) > 1]. *)
Definition promote_header (df : DataFrame) : DataFrame :=
  if (1 <? List.length (df_rows df))%nat then
    {| columns := map LCell (hd [] (df_rows df)); df_rows := tl (df_rows df) |}
  else df.

(** Lines 328-342. *)
Definition extract_html_tables (found_tables : list (list (list string)))
  : list DataFrame :=
  fold_left (fun extracted_tables table_data =>
    match table_data with
    | [] => extracted_tables
    | _ :: _ =>
        let df := pd_DataFrame table_data in
        let df := promote_header df in
        (extracted_tables ++ [df])%list
    end) found_tables [].

(** Lines 293-363.  Nothing here catches what [raise_for_status],
    [urljoin] or [to_markdown] raise. *)
Definition open_source_extract_website (w : World) (url : string) : M string :=
  emit (HttpGet url);;
  let response := requests_get w url in
  raise_for_status url response;;
  let soup := soup response in
  let text_content := join nl (paragraphs soup) in
  image_urls ←
    for_each (fun img image_urls =>
      match img with
      | Some src =>
          src ← of_res (resolve_src w url src);
          mret (image_urls ++ [src])%list
      | None => mret image_urls
      end) (imgs soup) [];
  link_urls ←
    for_each (fun href link_urls =>
      href ← of_res (resolve_href w url href);
      mret (link_urls ++ [href])%list) (anchors soup) [];
  let extracted_tables := extract_html_tables (html_tables soup) in
  let md := "# Extracted Content from " +:+ url +:+ nl +:+ nl in
  let md := md +:+ "## Text Content" +:+ nl +:+ nl in
  let md := md +:+ text_content +:+ nl +:+ nl in
  let md := md +:+ "## Images" +:+ nl +:+ nl in
  let md := fold_left (fun md img_url =>
              md +:+ "![Image](" +:+ img_url +:+ ")" +:+ nl +:+ nl) image_urls md in
  let md := md +:+ "## Links" +:+ nl +:+ nl in
  let md := fold_left (fun md lnk =>
              md +:+ "- [" +:+ lnk +:+ "](" +:+ lnk +:+ ")" +:+ nl) link_urls md in
  let md := md +:+ nl in
  let md := md +:+ "## Tables" +:+ nl +:+ nl in
  md ← for_enumerate (fun idx df_table md =>
          let md := md +:+ "### Table " +:+ str_nat idx +:+ nl +:+ nl in
          rendered ← of_res (to_markdown w df_table);
          mret (md +:+ rendered +:+ nl +:+ nl)) 1 extracted_tables md;
  mret md.

(** Lines 408-416: one Diffbot table. *)
Definition diffbot_table_to_md (table : DTable) (markdown : string) : string :=
  match get (rows table) [] with
  | [] => markdown
  | row0 :: rest =>
      let markdown := markdown +:+ pipe_row row0 in
      let markdown := markdown +:+ pipe_dashes row0 in
      let markdown := fold_left (fun markdown row => markdown +:+ pipe_row row)
                        rest markdown in
      markdown +:+ nl
  end.

(** Lines 390-416: one content object. *)
Definition diffbot_object_to_md (obj : DObject) (markdown : string) : string :=
  let title := get (title obj) "Untitled" in
  let text := get (text obj) "" in
  let images := get (images obj) [] in
  let tables := get (tables obj) [] in
  let markdown := markdown +:+ "# " +:+ title +:+ nl +:+ nl in
  let markdown := markdown +:+ text +:+ nl +:+ nl in
  let markdown :=
    match images with
    | [] => markdown
    | _ :: _ =>
        let markdown := markdown +:+ "## Images" +:+ nl +:+ nl in
        fold_left (fun markdown img =>
          let img_url := get (img_url img) "" in
          let caption := get (caption img) "Image" in
          markdown +:+ "![" +:+ caption +:+ "](" +:+ img_url +:+ ")" +:+ nl +:+ nl)
          images markdown
    end in
  match tables with
  | [] => markdown
  | _ :: _ =>
      let markdown := markdown +:+ "## Tables" +:+ nl +:+ nl in
      fold_left (fun markdown table => diffbot_table_to_md table markdown)
        tables markdown
  end.

(** Lines 369-418. *)
Definition enterprise_extract_website (w : World) (url : string) : M (option string) :=
  let diffbot_token := secrets_get w "DIFFBOT_API_TOKEN" "" in
  if negb (truthy diffbot_token) then
    log LWarning "Diffbot token not set in st.secrets['DIFFBOT_API_TOKEN'].";;
    mret None
  else
    let api_endpoint :=
      "https://api.diffbot.com/v3/article?token=" +:+ diffbot_token +:+ "&url=" +:+ url in
    emit (HttpGet api_endpoint);;
    let resp := diffbot_get w api_endpoint in
    if negb (api_status_code resp =? 200)%nat then
      log LError ("Diffbot request failed: " +:+ str_nat (api_status_code resp));;
      mret None
    else
      let data := json resp in
      let objects := get (objects data) [] in
      let markdown :=
        fold_left (fun markdown obj => diffbot_object_to_md obj markdown) objects "" in
      mret (if truthy markdown then Some markdown else None).

(** ** Running the program *)

(** A run starts with an empty trace and no temp file. *)
Definition st0 : St := {| trace := []; tmp_count := 0 |}.

(** What a run returns, and what it did. *)
Definition result {A : Type} (m : M A) (st : St) : Res A := fst (m st).
Definition events {A : Type} (m : M A) (st : St) : list Event := trace (snd (m st)).

(** An upload was attempted in a trace. *)
Definition is_upload (ev : Event) : bool :=
  match ev with
  | S3UploadFile _ _ _ => true
  | _ => false
  end.

Definition uploads (tr : list Event) : list Event := filter is_upload tr.

Definition is_read_pdf (ev : Event) : bool :=
  match ev with
  | ReadPdf _ => true
  | _ => false
  end.

(** The three settings [upload_file_to_s3] requires. *)
Definition s3_configured (w : World) : bool :=
  truthy (secrets_get w "S3_BUCKET_NAME" "")
  && truthy (secrets_get w "AWS_ACCESS_KEY_ID" "")
  && truthy (secrets_get w "AWS_SECRET_ACCESS_KEY" "").

(** A setting is present when [st.secrets] gives it a non-empty value. *)
Definition present (w : World) (key : string) : Prop :=
  exists v, secrets w !! key = Some v /\ v <> EmptyString.

(** The client [upload_file_to_s3] builds from the settings. *)
Definition s3_client_of (w : World) : S3Client :=
  boto3_client (secrets_get w "AWS_ACCESS_KEY_ID" "")
    (secrets_get w "AWS_SECRET_ACCESS_KEY" "")
    (secrets_get w "AWS_DEFAULT_REGION" "us-east-1").

(** The public URL of an uploaded file. *)
Definition s3_url_of (w : World) (file_path : string) : string :=
  "https://" +:+ secrets_get w "S3_BUCKET_NAME" "" +:+ ".s3.amazonaws.com/"
    +:+ basename file_path.

(** What re-hosting a file returns in a world: the value of
    [upload_file_to_s3] on a fresh run. *)
Definition rehost (w : World) (file_path : string) : option string :=
  match result (upload_file_to_s3 w file_path) st0 with
  | Ok r => r
  | Raise _ => None
  end.

(** The same world at another moment: another clock reading and other
    temp-file names, everything else unchanged. *)
Definition at_run (w : World) (now : DateTime) (tmp : nat -> string) : World :=
  {| secrets := secrets w;
     s3_upload_file := s3_upload_file w;
     tmp_prefix := tmp;
     datetime_now := now;
     open_pdf := open_pdf w;
     to_markdown := to_markdown w;
     float_repr := float_repr w;
     check_bracketed_host := check_bracketed_host w;
     requests_get := requests_get w;
     diffbot_get := diffbot_get w;
     path_exists := path_exists w;
     adobe_credentials := adobe_credentials w;
     adobe_extract := adobe_extract w |}.

(** The run of [upload_file_to_s3] written out: its value and the events
    it adds depend on the world and the path only. *)
Definition upload_events (w : World) (file_path : string) : list Event :=
  if s3_configured w then
    S3UploadFile file_path (secrets_get w "S3_BUCKET_NAME" "") (basename file_path)
    :: match s3_upload_file w (s3_client_of w) file_path
               (secrets_get w "S3_BUCKET_NAME" "") (basename file_path) with
       | None => []
       | Some e =>
           match exn_class e with
           | FileNotFoundError => [Log LError ("File not found: " +:+ file_path)]
           | NoCredentialsError => [Log LError "AWS credentials not available."]
           | _ => [Log LException ("Failed to upload " +:+ file_path +:+ " to S3: "
                                     +:+ exn_msg e)]
           end
       end
  else [Log LWarning "Skipping S3 upload (missing credentials or bucket)."].

Definition upload_value (w : World) (file_path : string) : option string :=
  if s3_configured w then
    match s3_upload_file w (s3_client_of w) file_path
            (secrets_get w "S3_BUCKET_NAME" "") (basename file_path) with
    | None => Some (s3_url_of w file_path)
    | Some _ => None
    end
  else None.


(** ** Vocabulary of the statements *)

(** Concatenation of a list of Markdown fragments. *)
Definition cat (l : list string) : string := foldr String.append EmptyString l.

(** The images of the pages [doc], the first of which has 0-based number
    [p0], in the order the loops visit them, each with its 1-based page
    number and its 1-based index in the page. *)
Definition indexed_from (p0 : nat) (doc : list (list FitzImage))
  : list (nat * nat * FitzImage) :=
  concat (imap (fun page_num page =>
                  imap (fun img_index img => (p0 + page_num + 1, img_index + 1, img)) page)
            doc).

Definition indexed_images (doc : list (list FitzImage)) : list (nat * nat * FitzImage) :=
  indexed_from 0 doc.

(** The temp file written for an image when [n] temp files exist already. *)
Definition tmp_path_of (w : World) (n : nat) (img : FitzImage) : string :=
  tmp_prefix w n +:+ "." +:+ ext img.

(** The line the Images section owes to the image of index [i] on page
    [p], given what re-hosting returned. *)
Definition image_line (p i : nat) (s3_url : option string) : string :=
  match s3_url with
  | Some url =>
      "![Image page " +:+ str_nat p +:+ " - " +:+ str_nat i +:+ "](" +:+ url +:+ ")" +:+ nl
  | None =>
      nl +:+ "**[Warning: Failed to upload image (page " +:+ str_nat p +:+ ", index "
        +:+ str_nat i +:+ ") to S3]**" +:+ nl
  end.

(** Body of the Images section of a document when [n0] temp files exist
    at the start. *)
Definition images_body (w : World) (n0 : nat) (doc : list (list FitzImage)) : string :=
  cat (imap (fun k '(p, i, img) => image_line p i (rehost w (tmp_path_of w (n0 + k) img)))
         (indexed_images doc)).

(** Body of the Text section. *)
Definition text_body (pages : list (option string)) : string :=
  cat (imap (fun k page =>
               nl +:+ "### Page " +:+ str_nat (k + 1) +:+ nl +:+ "```" +:+ nl
                 +:+ or_str page "" +:+ nl +:+ "```" +:+ nl) pages).

(** The renderings of the tables that come before the first one
    [to_markdown] fails on, and the exception raised on that one if there
    is one. *)
Definition rendered_prefix (w : World) : list DataFrame -> list string :=
  fix rendered_prefix (tables : list DataFrame) :=
  match tables with
  | [] => []
  | table :: tables' =>
      match to_markdown w table with
      | Ok rendered => rendered :: rendered_prefix tables'
      | Raise _ => []
      end
  end.

Definition first_failure (w : World) : list DataFrame -> option Exn :=
  fix first_failure (tables : list DataFrame) :=
  match tables with
  | [] => None
  | table :: tables' =>
      match to_markdown w table with
      | Ok _ => first_failure tables'
      | Raise e => Some e
      end
  end.

(** The line of the Tables section that reports a failure. *)
Definition failure_line (e : Exn) : string :=
  nl +:+ "Failed to process tables: " +:+ exn_msg e +:+ nl.

(** The numbered blocks of the renderings [rendered]. *)
Definition table_blocks (rendered : list string) : string :=
  cat (imap (fun k table_md =>
               nl +:+ "### Table " +:+ str_nat (k + 1) +:+ nl +:+ table_md +:+ nl)
         rendered).

(** Body of the Tables section when tabula returned [tables]: the blocks
    of the tables rendered and, when [to_markdown] failed on one, the
    heading of that table and the line reporting the failure. *)
Definition tables_body (w : World) (tables : list DataFrame) : string :=
  table_blocks (rendered_prefix w tables)
    +:+ match first_failure w tables with
        | None => EmptyString
        | Some e =>
            nl +:+ "### Table "
              +:+ str_nat (List.length (rendered_prefix w tables) + 1) +:+ nl
              +:+ failure_line e
        end.

(** Body of the Tables section for what [read_pdf] did: the tables, or
    the line reporting the failure. *)
Definition tables_outcome_body (w : World) (r : Res (list DataFrame)) : string :=
  match r with
  | Ok tables => tables_body w tables
  | Raise e => failure_line e
  end.

(** Every call of a list of calls returns: their values, or the first
    exception. *)
Fixpoint all_ok {A B : Type} (f : A -> Res B) (l : list A) : Res (list B) :=
  match l with
  | [] => Ok []
  | x :: l' =>
      y ← f x;
      ys ← all_ok f l';
      Ok (y :: ys)
  end.

(** ** Sample worlds *)

(** A two-page PDF: one PNG on the first page, none on the second. *)
Definition sample_pdf : Pdf :=
  {| fitz_pages := [[{| image := "89504e47"; ext := "png" |}]; []];
     plumber_pages := [Some "Hello"; None];
     tabula_read_pdf := Ok [] |}.

(** The same PDF when tabula cannot run. *)
Definition sample_pdf_no_java : Pdf :=
  {| fitz_pages := fitz_pages sample_pdf;
     plumber_pages := plumber_pages sample_pdf;
     tabula_read_pdf := Raise (mkExn OtherException "java command is not found") |}.

(** A PDF with two pages of text, no image and no table. *)
Definition sample_pdf_text_only : Pdf :=
  {| fitz_pages := [[]; []];
     plumber_pages := [Some "Hello"; None];
     tabula_read_pdf := Ok [] |}.

(** A one-page PDF whose text closes the fence it is put in, writes a
    line that opens a section, and opens a fence again. *)
Definition sample_pdf_injected : Pdf :=
  {| fitz_pages := [[]];
     plumber_pages := [Some ("```" +:+ nl +:+ "# Injected section" +:+ nl +:+ "```")];
     tabula_read_pdf := Ok [] |}.

(** A PDF in which tabula finds two tables. *)
Definition sample_pdf_tables : Pdf :=
  {| fitz_pages := [[]];
     plumber_pages := [Some "Hello"];
     tabula_read_pdf :=
       Ok [{| columns := [LCell (Some "A")]; df_rows := [[Some "1"]] |};
           {| columns := []; df_rows := [] |}] |}.

(** The table of the specification's example. *)
Definition sample_rows : list (list string) := [["A"; "B"]; ["1"; "2"]].

(** An Adobe bundle with one table element and one figure. *)
Definition sample_bundle : Bundle :=
  {| structuredData :=
       Some {| manifest_elements :=
                 Some [{| Text := None; Table := Some {| Rows := Some sample_rows |} |}] |};
     tables_folder := None;
     figures_folder := Some [("fig0.png", true)] |}.

(** A page with a protocol-relative image and a root-relative link. *)
Definition sample_soup : Soup :=
  {| paragraphs := ["First"; "Second"];
     imgs := [Some "//cdn.example.com/a.png"; None; Some "https://x.com/b.png"];
     anchors := ["/about"; "http://y.org/"];
     html_tables := [[["A"; "B"]; ["1"; "2"]]; [["only"]]; []] |}.

(** No secrets at all: no S3, no Diffbot, no Adobe. *)
Definition sample_world : World :=
  {| secrets := ∅;
     s3_upload_file := fun _ _ _ _ => None;
     tmp_prefix := fun n => "/tmp/tmp" +:+ str_nat n;
     datetime_now := {| year := 2025; month := 2; day := 3;
                        hour := 10; minute := 20; second := 30 |};
     open_pdf := fun path =>
       if String.eqb path "/data/broken.pdf" then sample_pdf_no_java
       else if String.eqb path "/data/text.pdf" then sample_pdf_text_only
       else if String.eqb path "/data/injected.pdf" then sample_pdf_injected
       else if String.eqb path "/data/tables.pdf" then sample_pdf_tables
       else sample_pdf;
     to_markdown := fun _ => Ok "<table>";
     float_repr := fun _ => "<float>";
     check_bracketed_host := fun hostname =>
       if String.eqb hostname "::1" then None
       else Some (mkExn ValueError
                    ("'" +:+ hostname
                       +:+ "' does not appear to be an IPv4 or IPv6 address"));
     requests_get := fun _ => {| status_code := 200; reason := "OK"; soup := sample_soup |};
     diffbot_get := fun endpoint =>
       if endswith endpoint "empty"
       then {| api_status_code := 200; json := {| objects := Some [] |} |}
       else {| api_status_code := 200;
               json := {| objects :=
                 Some [{| title := Some "T"; text := Some "body"; images := None;
                          tables := Some [{| rows := Some sample_rows |}] |}] |} |};
     path_exists := fun _ => true;
     adobe_credentials := fun _ => Ok ("id", "secret");
     adobe_extract := fun _ _ _ => Ok sample_bundle |}.

(** The same world with every secret set. *)
Definition sample_world_configured : World :=
  {| secrets :=
       <["S3_BUCKET_NAME" := "bucket"]>
         (<["AWS_ACCESS_KEY_ID" := "AKIA"]>
            (<["AWS_SECRET_ACCESS_KEY" := "shh"]>
               (<["DIFFBOT_API_TOKEN" := "tok"]>
                  (<["ADOBE_CREDENTIALS_JSON" := "{}"]> ∅))));
     s3_upload_file := s3_upload_file sample_world;
     tmp_prefix := tmp_prefix sample_world;
     datetime_now := datetime_now sample_world;
     open_pdf := open_pdf sample_world;
     to_markdown := to_markdown sample_world;
     float_repr := float_repr sample_world;
     check_bracketed_host := check_bracketed_host sample_world;
     requests_get := requests_get sample_world;
     diffbot_get := diffbot_get sample_world;
     path_exists := path_exists sample_world;
     adobe_credentials := adobe_credentials sample_world;
     adobe_extract := adobe_extract sample_world |}.

(** The lines of a text, each without its newline. *)
Fixpoint splitlines_from (cur s : string) : list string :=
  match s with
  | EmptyString => if truthy cur then [cur] else []
  | String c s' =>
      if Ascii.eqb c (ascii_of_nat 10) then cur :: splitlines_from EmptyString s'
      else splitlines_from (cur +:+ String c EmptyString) s'
  end.

Definition splitlines (s : string) : list string := splitlines_from EmptyString s.

(** A line that opens a section of level one or two. *)
Definition is_heading (line : string) : bool :=
  startswith line "# " || startswith line "## ".

(** The lines of a Markdown text that open a section of level one or two. *)
Definition top_level_headings (md : string) : list string :=
  filter (fun line => is_heading line = true) (splitlines md).

(** A text that holds no newline. *)
Fixpoint no_newline (s : string) : bool :=
  match s with
  | EmptyString => true
  | String c s' => negb (Ascii.eqb c (ascii_of_nat 10)) && no_newline s'
  end.

(** A page text none of whose lines looks like a heading of level one or
    two. *)
Definition no_heading_line (page_text : string) : Prop :=
  top_level_headings (page_text +:+ nl) = [].

(** A text made of whole lines: empty, or ended by a newline. *)
Definition whole_lines (s : string) : Prop := s = EmptyString \/ exists a, s = a +:+ nl.

(** A manifest whose only element is a table with the given rows. *)
Definition manifest_of_table (table_rows : list (list string)) : Manifest :=
  {| manifest_elements :=
       Some [{| Text := None; Table := Some {| Rows := Some table_rows |} |}] |}.

(** The fetch did not fail: the status is outside 400-599. *)
Definition fetch_ok (r : Response) : Prop :=
  status_code r < 400 \/ 600 <= status_code r.

(** The [src] attributes of the [img] tags that have one. *)
Definition srcs_of (tags : list (option string)) : list string := omap id tags.




(** The line of the Images section for a URL, and the bullet of the Links
    section. *)
Definition page_image_line (img_url : string) : string :=
  "![Image](" +:+ img_url +:+ ")" +:+ nl +:+ nl.

Definition page_link_line (lnk : string) : string :=
  "- [" +:+ lnk +:+ "](" +:+ lnk +:+ ")" +:+ nl.

(** The numbered blocks of the Tables section of a page. *)
Definition page_table_blocks (rendered : list string) : string :=
  cat (imap (fun k table_md =>
               "### Table " +:+ str_nat (1 + k) +:+ nl +:+ nl +:+ table_md +:+ nl +:+ nl)
         rendered).

(** The Markdown of a fetched page for the URLs and the renderings of its
    tables. *)
Definition page_layout (url : string) (page : Soup)
  (image_urls link_urls rendered : list string) : string :=
  "# Extracted Content from " +:+ url +:+ nl +:+ nl
    +:+ "## Text Content" +:+ nl +:+ nl
    +:+ join nl (paragraphs page) +:+ nl +:+ nl
    +:+ "## Images" +:+ nl +:+ nl
    +:+ cat (map page_image_line image_urls)
    +:+ "## Links" +:+ nl +:+ nl
    +:+ cat (map page_link_line link_urls)
    +:+ nl
    +:+ "## Tables" +:+ nl +:+ nl
    +:+ page_table_blocks rendered.

(** What [open_source_extract_website] makes of a fetched page: its
    Markdown, or the first exception of [urljoin] on a [src], then on an
    [href], then of [to_markdown] on a table. *)
Definition page_markdown (w : World) (url : string) (page : Soup) : Res string :=
  image_urls ← all_ok (resolve_src w url) (srcs_of (imgs page));
  link_urls ← all_ok (resolve_href w url) (anchors page);
  rendered ← all_ok (to_markdown w) (extract_html_tables (html_tables page));
  Ok (page_layout url page image_urls link_urls rendered).

(** Width of a table: the length of its longest row. *)
Definition table_width (table_data : list (list string)) : nat :=
  fold_right (fun row m => Nat.max (List.length row) m) 0 table_data.

(** A row as the [DataFrame] holds it: its cells, then [None] up to the
    width. *)
Definition pad_row (width : nat) (row : list string) : list (option string) :=
  map Some row ++ List.repeat None (width - List.length row).

(** The first row of [table_data] has become the header of [df], and the
    other rows its data. *)
Definition header_promoted (table_data : list (list string)) (df : DataFrame) : Prop :=
  match table_data with
  | [] => False
  | first :: others =>
      columns df = map LCell (pad_row (table_width table_data) first)
      /\ df_rows df = map (pad_row (table_width table_data)) others
  end.

(** A table that has at least one row. *)
Definition has_rows (table_data : list (list string)) : bool :=
  match table_data with
  | [] => false
  | _ :: _ => true
  end.

(** Only the Adobe credentials are set: no object storage. *)
Definition sample_world_adobe_only : World :=
  {| secrets := <["ADOBE_CREDENTIALS_JSON" := "{}"]> ∅;
     s3_upload_file := s3_upload_file sample_world;
     tmp_prefix := tmp_prefix sample_world;
     datetime_now := datetime_now sample_world;
     open_pdf := open_pdf sample_world;
     to_markdown := to_markdown sample_world;
     float_repr := float_repr sample_world;
     check_bracketed_host := check_bracketed_host sample_world;
     requests_get := requests_get sample_world;
     diffbot_get := diffbot_get sample_world;
     path_exists := path_exists sample_world;
     adobe_credentials := adobe_credentials sample_world;
     adobe_extract := adobe_extract sample_world |}.

(** The sample world when [tabulate] is not installed: [to_markdown]
    raises on every table. *)
Definition sample_world_no_tabulate : World :=
  {| secrets := secrets sample_world;
     s3_upload_file := s3_upload_file sample_world;
     tmp_prefix := tmp_prefix sample_world;
     datetime_now := datetime_now sample_world;
     open_pdf := open_pdf sample_world;
     to_markdown := fun _ =>
       Raise (mkExn OtherException "Missing optional dependency 'tabulate'.");
     float_repr := float_repr sample_world;
     check_bracketed_host := check_bracketed_host sample_world;
     requests_get := requests_get sample_world;
     diffbot_get := diffbot_get sample_world;
     path_exists := path_exists sample_world;
     adobe_credentials := adobe_credentials sample_world;
     adobe_extract := adobe_extract sample_world |}.

(** The sample world when the page holds one link, whose [href] opens a
    bracket in the host and never closes it. *)
Definition sample_world_bad_href : World :=
  {| secrets := secrets sample_world;
     s3_upload_file := s3_upload_file sample_world;
     tmp_prefix := tmp_prefix sample_world;
     datetime_now := datetime_now sample_world;
     open_pdf := open_pdf sample_world;
     to_markdown := to_markdown sample_world;
     float_repr := float_repr sample_world;
     check_bracketed_host := check_bracketed_host sample_world;
     requests_get := fun _ =>
       {| status_code := 200; reason := "OK";
          soup := {| paragraphs := ["First"]; imgs := []; anchors := ["//["];
                     html_tables := [] |} |};
     diffbot_get := diffbot_get sample_world;
     path_exists := path_exists sample_world;
     adobe_credentials := adobe_credentials sample_world;
     adobe_extract := adobe_extract sample_world |}.

(** Two clock readings one second apart, and two namings of temp files. *)
Definition sample_now : DateTime :=
  {| year := 2025; month := 2; day := 3; hour := 10; minute := 20; second := 30 |}.
Definition sample_later : DateTime :=
  {| year := 2025; month := 2; day := 3; hour := 10; minute := 20; second := 31 |}.
Definition sample_tmp (n : nat) : string := "/tmp/tmpa" +:+ str_nat n.
Definition sample_tmp' (n : nat) : string := "/tmp/tmpb" +:+ str_nat n.

(** What the figures loop adds for one entry of the [figures] folder. *)
Definition figure_line (w : World) (figures_folder : string) (entry : string * bool)
  : string :=
  let fig_path := path_join figures_folder (fst entry) in
  if snd entry then
    match rehost w fig_path with
    | Some url => "![Figure](" +:+ url +:+ ")" +:+ nl +:+ nl
    | None => "![Figure](" +:+ fig_path +:+ ")" +:+ nl +:+ nl
    end
  else EmptyString.

(** What the [figures] folder adds to the Markdown. *)
Definition figures_part (w : World) (out_dir : string)
  (folder : option (list (string * bool))) : string :=
  match folder with
  | None => EmptyString
  | Some entries =>
      "## Images" +:+ nl +:+ nl
        +:+ cat (map (figure_line w (path_join out_dir "figures")) (sorted_by_name entries))
  end.

(** The value of [adobe_zip_to_markdown] on an archive. *)
Definition adobe_markdown_of (w : World) (zip_file_path : string) (zip : Bundle)
  : Res string :=
  match structuredData zip with
  | None => Raise (mkExn FileNotFoundError "structuredData.json not found in ZIP extract.")
  | Some data =>
      Ok (xlsx_tables_to_md w (tables_folder zip)
            (manifest_to_md data ("# Extracted PDF Data (Enterprise)" +:+ nl +:+ nl))
            +:+ figures_part w (replace zip_file_path ".zip" "") (figures_folder zip))
  end.

(** The archive path [create_adobe_zip_path] builds at a clock reading. *)
Definition zip_path_at (now : DateTime) : string :=
  path_join "temp_adobe_extractions" ("extraction_" +:+ strftime now +:+ ".zip").

(** The value of [enterprise_extract_pdf]. *)
Definition enterprise_pdf_value (w : World) (pdf_path : string) : option string :=
  match secrets w !! "ADOBE_CREDENTIALS_JSON" with
  | None => None
  | Some adobe_json =>
      match adobe_credentials w adobe_json with
      | Raise _ => None
      | Ok (client_id, client_secret) =>
          if negb (path_exists w pdf_path) then None
          else
            match adobe_extract w client_id client_secret pdf_path with
            | Raise _ => None
            | Ok zip =>
                match adobe_markdown_of w (zip_path_at (datetime_now w)) zip with
                | Ok md => Some md
                | Raise _ => None
                end
            end
      end
  end.

(** The bundle has no figure file: no [figures] folder, or no regular
    file in it. *)
Definition no_figure_file (zip : Bundle) : Prop :=
  match figures_folder zip with
  | None => True
  | Some entries => Forall (fun entry => snd entry = false) entries
  end.

(** Object storage is configured and accepts every upload. *)
Definition uploads_always_succeed (w : World) : Prop :=
  s3_configured w = true
  /\ forall c file_path bucket key, s3_upload_file w c file_path bucket key = None.

(** ** The Streamlit page of [streamlitCloud_app.py] *)

(** [c.isspace()] on the characters a [str] of the embedding holds. *)
Definition isspace (c : ascii) : bool :=
  let n := nat_of_ascii c in
  ((9 <=? n)%nat && (n <=? 13)%nat) || ((28 <=? n)%nat && (n <=? 32)%nat)
  || (n =? 133)%nat || (n =? 160)%nat.

(** [s.lstrip()]. *)
Fixpoint lstrip (s : string) : string :=
  match s with
  | EmptyString => EmptyString
  | String c s' => if isspace c then lstrip s' else s
  end.

(** [s.rstrip()]. *)
Fixpoint rstrip (s : string) : string :=
  match s with
  | EmptyString => EmptyString
  | String c s' =>
      match rstrip s' with
      | EmptyString => if isspace c then EmptyString else String c EmptyString
      | String d r => String c (String d r)
      end
  end.

(** [s.strip()]. *)
Definition strip (s : string) : string := rstrip (lstrip s).

(** What the page shows, in order. *)
Inductive UiAction :=
| UiTitle (body : string)
| UiWarning (body : string)
| UiError (body : string)
| UiMarkdown (body : string)
| UiDownloadButton (label data file_name mime : string).

(** What the user set on the page before the script runs: the radio
    choice, the uploaded file if any (its bytes), the text typed in the
    URL box, the extraction method selected, and whether the button was
    pressed. *)
Record Ui := mkUi {
  choice : string;
  uploaded_pdf : option string;
  url_input : string;
  extraction_method : string;
  button : bool
}.

(** Lines 425-497.  An early [return] ends the list of what is shown. *)
Definition main (w : World) (ui : Ui) : M (list UiAction) :=
  let shown := [UiTitle "Markdown Generator"] in
  if String.eqb (choice ui) "PDF to Markdown" then
    if button ui then
      match uploaded_pdf ui with
      | None => mret (shown ++ [UiWarning "Please upload a PDF first."])
      | Some pdf_bytes =>
          temp_pdf_path ← named_temporary_file w ".pdf" pdf_bytes;
          if String.eqb (extraction_method ui) "Extract Using Open-Source Tool" then
            md_result ← open_source_extract_pdf w temp_pdf_path;
            mret (shown ++ [UiMarkdown md_result;
                            UiDownloadButton "Download Markdown" md_result
                              "extracted_markdown.md" "text/markdown"])
          else
            md_result ← enterprise_extract_pdf w temp_pdf_path;
            if negb (url_truthy md_result) then
              mret (shown ++ [UiError "Enterprise PDF extraction failed. Check logs or secrets."])
            else
              mret (shown ++ [UiMarkdown (get md_result "");
                              UiDownloadButton "Download Markdown" (get md_result "")
                                "extracted_markdown.md" "text/markdown"])
      end
    else mret shown
  else
    if button ui then
      if negb (truthy (strip (url_input ui))) then
        mret (shown ++ [UiWarning "Please enter a valid URL."])
      else if String.eqb (extraction_method ui) "Extract Using Open-Source Tool" then
        r ← try_ (open_source_extract_website w (url_input ui));
        match r with
        | Raise e =>
            mret (shown ++ [UiError ("Open-source website extraction failed: "
                                       +:+ exn_msg e)])
        | Ok md_result =>
            mret (shown ++ [UiMarkdown md_result;
                            UiDownloadButton "Download Markdown" md_result
                              "extracted_website.md" "text/markdown"])
        end
      else
        md_result ← enterprise_extract_website w (url_input ui);
        if negb (url_truthy md_result) then
          mret (shown ++ [UiError
            "Enterprise website extraction failed. Check logs or Diffbot token in secrets."])
        else
          mret (shown ++ [UiMarkdown (get md_result "");
                          UiDownloadButton "Download Markdown" (get md_result "")
                            "extracted_website.md" "text/markdown"])
    else mret shown.

(** ** Vocabulary of the further statements *)

(** Kinds of events. *)
Definition is_http_get (ev : Event) : bool :=
  match ev with
  | HttpGet _ => true
  | _ => false
  end.

Definition is_log (ev : Event) : bool :=
  match ev with
  | Log _ _ => true
  | _ => false
  end.

Definition is_adobe_job (ev : Event) : bool :=
  match ev with
  | AdobeJob _ => true
  | _ => false
  end.

(** The temp files written, and the files removed, in a trace. *)
Definition written (tr : list Event) : list string :=
  omap (fun ev => match ev with TempFileWritten p => Some p | _ => None end) tr.

Definition removed (tr : list Event) : list string :=
  omap (fun ev => match ev with OsRemove p => Some p | _ => None end) tr.

(** What the inner loop of [extract_images_to_md] does for the image
    written as the [n]-th temp file. *)
Definition image_events (w : World) (n : nat) (img : FitzImage) : list Event :=
  [TempFileWritten (tmp_path_of w n img)]
  ++ upload_events w (tmp_path_of w n img)
  ++ [OsRemove (tmp_path_of w n img)].

(** What [extract_images_to_md] does for the images [items] when [n0]
    temp files exist at the start. *)
Definition images_events (w : World) (n0 : nat) (items : list (nat * nat * FitzImage))
  : list Event :=
  concat (imap (fun k '(_, _, img) => image_events w (n0 + k) img) items).

(** The Markdown of one Diffbot object, of one manifest element and of
    one entry of the [tables] folder, each rendered on its own. *)
Definition object_block (obj : DObject) : string := diffbot_object_to_md obj EmptyString.

Definition element_block (element : Element) : string :=
  manifest_to_md {| manifest_elements := Some [element] |} EmptyString.

Definition sheet_block (w : World) (entry : string * list (list Cell)) : string :=
  xlsx_tables_to_md w (Some [entry]) EmptyString.

(** The Diffbot call made for a URL. *)
Definition diffbot_endpoint (w : World) (url : string) : string :=
  "https://api.diffbot.com/v3/article?token=" +:+ secrets_get w "DIFFBOT_API_TOKEN" ""
    +:+ "&url=" +:+ url.

(** The objects of the Diffbot answer for a URL. *)
Definition diffbot_objects (w : World) (url : string) : list DObject :=
  get (objects (json (diffbot_get w (diffbot_endpoint w url)))) [].

(** A text in which the character [c] does not occur. *)
Fixpoint lacks (c : ascii) (s : string) : bool :=
  match s with
  | EmptyString => true
  | String x s' => negb (Ascii.eqb x c) && lacks c s'
  end.

(** The names of a directory listing are pairwise distinct. *)
Definition distinct_names {A : Type} (entries : list (string * A)) : Prop :=
  NoDup (map fst entries).

(** Order of two directory entries by name. *)
Definition name_le {A : Type} (x y : string * A) : Prop := String.le (fst x) (fst y).

(** A page with no paragraph, image, link or table. *)
Definition empty_soup : Soup :=
  {| paragraphs := []; imgs := []; anchors := []; html_tables := [] |}.

(** The sample world where every page is empty and answers 204, and the
    one where every fetch answers 404. *)
Definition sample_world_empty_page : World :=
  {| secrets := secrets sample_world;
     s3_upload_file := s3_upload_file sample_world;
     tmp_prefix := tmp_prefix sample_world;
     datetime_now := datetime_now sample_world;
     open_pdf := open_pdf sample_world;
     to_markdown := to_markdown sample_world;
     float_repr := float_repr sample_world;
     check_bracketed_host := check_bracketed_host sample_world;
     requests_get := fun _ => {| status_code := 204; reason := "No Content";
                                 soup := empty_soup |};
     diffbot_get := diffbot_get sample_world;
     path_exists := path_exists sample_world;
     adobe_credentials := adobe_credentials sample_world;
     adobe_extract := adobe_extract sample_world |}.

Definition sample_world_not_found : World :=
  {| secrets := secrets sample_world_configured;
     s3_upload_file := s3_upload_file sample_world;
     tmp_prefix := tmp_prefix sample_world;
     datetime_now := datetime_now sample_world;
     open_pdf := open_pdf sample_world;
     to_markdown := to_markdown sample_world;
     float_repr := float_repr sample_world;
     check_bracketed_host := check_bracketed_host sample_world;
     requests_get := fun _ => {| status_code := 404; reason := "Not Found";
                                 soup := empty_soup |};
     diffbot_get := fun _ => {| api_status_code := 404; json := {| objects := None |} |};
     path_exists := fun _ => false;
     adobe_credentials := adobe_credentials sample_world;
     adobe_extract := fun _ _ _ =>
       Raise (mkExn ServiceApiException "DISQUALIFIED: file is encrypted") |}.

(** The configured sample world when the Adobe service refuses the job,
    and when the archive it returns has no manifest. *)
Definition sample_world_adobe_fails : World :=
  {| secrets := secrets sample_world_configured;
     s3_upload_file := s3_upload_file sample_world;
     tmp_prefix := tmp_prefix sample_world;
     datetime_now := datetime_now sample_world;
     open_pdf := open_pdf sample_world;
     to_markdown := to_markdown sample_world;
     float_repr := float_repr sample_world;
     check_bracketed_host := check_bracketed_host sample_world;
     requests_get := requests_get sample_world;
     diffbot_get := diffbot_get sample_world;
     path_exists := path_exists sample_world;
     adobe_credentials := adobe_credentials sample_world;
     adobe_extract := fun _ _ _ =>
       Raise (mkExn ServiceApiException "DISQUALIFIED: file is encrypted") |}.

Definition sample_world_no_manifest : World :=
  {| secrets := secrets sample_world_configured;
     s3_upload_file := s3_upload_file sample_world;
     tmp_prefix := tmp_prefix sample_world;
     datetime_now := datetime_now sample_world;
     open_pdf := open_pdf sample_world;
     to_markdown := to_markdown sample_world;
     float_repr := float_repr sample_world;
     check_bracketed_host := check_bracketed_host sample_world;
     requests_get := requests_get sample_world;
     diffbot_get := diffbot_get sample_world;
     path_exists := path_exists sample_world;
     adobe_credentials := adobe_credentials sample_world;
     adobe_extract := fun _ _ _ =>
       Ok {| structuredData := None; tables_folder := None; figures_folder := None |} |}.

(** Two listings of the same folder: both absent, or the same entries in
    some order, under pairwise distinct names. *)
Definition same_folder {A : Type} (o o' : option (list (string * A))) : Prop :=
  match o, o' with
  | None, None => True
  | Some entries, Some entries' => entries ≡ₚ entries' /\ distinct_names entries
  | _, _ => False
  end.

(** The last character of a text is a slash. *)
Fixpoint ends_slash (s : string) : bool :=
  match s with
  | EmptyString => false
  | String c s' =>
      match s' with
      | EmptyString => Ascii.eqb c "/"
      | String _ _ => ends_slash s'
      end
  end.

(** Entries of the [tables] folder that are spreadsheets, and entries of
    the [figures] folder that are regular files. *)
Definition is_xlsx {A : Type} (entry : string * A) : Prop :=
  endswith (fst entry) ".xlsx" = true.

Definition is_regular_file (entry : string * bool) : Prop := snd entry = true.


Definition sample_ui_website : Ui :=
  {| choice := "Website URL to Markdown"; uploaded_pdf := None;
     url_input := "https://x.com/blog";
     extraction_method := "Extract Using Open-Source Tool"; button := true |}.

Definition sample_ui_pdf : Ui :=
  {| choice := "PDF to Markdown"; uploaded_pdf := Some "%PDF-1.7";
     url_input := EmptyString;
     extraction_method := "Extract Using Open-Source Tool"; button := true |}.

Definition sample_ui_pdf_enterprise : Ui :=
  {| choice := "PDF to Markdown"; uploaded_pdf := Some "%PDF-1.7";
     url_input := EmptyString;
     extraction_method := "Extract Using Enterprise Tool"; button := true |}.
(** ** Basic facts about the monad and the string primitives *)

Ltac munfold :=
  unfold mbind, mret, M_bind, M_ret, try_, emit, log, raise, of_res,
    result, events in *.

Lemma truthy_true_iff (s : string) : truthy s = true <-> s <> EmptyString.
Proof. destruct s; simpl; split; congruence. Qed.

Lemma truthy_secret_present (w : World) (key : string) :
  truthy (secrets_get w key "") = true <-> present w key.
Proof.
  unfold secrets_get, present. rewrite truthy_true_iff.
  destruct (secrets w !! key) as [v|]; simpl; split.
  - intros Hv. exists v. split; [reflexivity | exact Hv].
  - intros (v' & Heq & Hne). congruence.
  - intros Hne. congruence.
  - intros (v' & Heq & _). discriminate.
Qed.

Lemma s3_configured_present (w : World) :
  s3_configured w = true <->
  present w "S3_BUCKET_NAME" /\ present w "AWS_ACCESS_KEY_ID"
  /\ present w "AWS_SECRET_ACCESS_KEY".
Proof.
  unfold s3_configured. rewrite !andb_true_iff, !truthy_secret_present. tauto.
Qed.

Lemma upload_file_to_s3_run (w : World) (file_path : string) (st : St) :
  upload_file_to_s3 w file_path st =
  (Ok (upload_value w file_path),
   {| trace := trace st ++ upload_events w file_path; tmp_count := tmp_count st |}).
Proof.
  unfold upload_file_to_s3, upload_value, upload_events, s3_url_of, s3_client_of,
    s3_client_upload_file.
  fold (s3_configured w).
  destruct (s3_configured w); simpl; munfold; simpl.
  - destruct (s3_upload_file w _ file_path _ _) as [e|]; simpl.
    + destruct (exn_class e); simpl; rewrite <- app_assoc; reflexivity.
    + reflexivity.
  - reflexivity.
Qed.

Lemma rehost_value (w : World) (file_path : string) :
  rehost w file_path = upload_value w file_path.
Proof. unfold rehost, result. rewrite upload_file_to_s3_run. reflexivity. Qed.

Lemma uploads_app (l1 l2 : list Event) : uploads (l1 ++ l2) = uploads l1 ++ uploads l2.
Proof. unfold uploads. apply filter_app. Qed.

Lemma upload_events_uploads (w : World) (file_path : string) :
  uploads (upload_events w file_path) =
  if s3_configured w
  then [S3UploadFile file_path (secrets_get w "S3_BUCKET_NAME" "") (basename file_path)]
  else [].
Proof.
  unfold upload_events. destruct (s3_configured w); [| reflexivity].
  destruct (s3_upload_file w _ file_path _ _) as [e|]; [| reflexivity].
  destruct (exn_class e); reflexivity.
Qed.

Lemma upload_events_no_read_pdf (w : World) (file_path : string) :
  filter is_read_pdf (upload_events w file_path) = [].
Proof.
  unfold upload_events. destruct (s3_configured w); [| reflexivity].
  destruct (s3_upload_file w _ file_path _ _) as [e|]; [| reflexivity].
  destruct (exn_class e); reflexivity.
Qed.

(** ** Asset re-hosting *)

(** C3.  [upload_file_to_s3] always returns to its caller.  It calls
    [upload_file] if and only if the bucket name, the access key and the
    secret key are all present; when one is missing it only logs the skip
    and returns [None]; when the upload succeeds it returns exactly
    [https://<bucket>.s3.amazonaws.com/<basename of the file>]; when the
    upload raises, whatever the exception, it returns [None]. *)
Theorem upload_file_to_s3_contract (w : World) (file_path : string) (st : St) :
  exists (r : option string) (new : list Event),
    upload_file_to_s3 w file_path st
    = (Ok r, {| trace := trace st ++ new; tmp_count := tmp_count st |})
    /\ (uploads new <> [] <->
        present w "S3_BUCKET_NAME" /\ present w "AWS_ACCESS_KEY_ID"
        /\ present w "AWS_SECRET_ACCESS_KEY")
    /\ (s3_configured w = false ->
        r = None
        /\ new = [Log LWarning "Skipping S3 upload (missing credentials or bucket)."])
    /\ (s3_configured w = true ->
        uploads new
        = [S3UploadFile file_path (secrets_get w "S3_BUCKET_NAME" "") (basename file_path)]
        /\ (s3_upload_file w (s3_client_of w) file_path
              (secrets_get w "S3_BUCKET_NAME" "") (basename file_path) = None ->
            r = Some ("https://" +:+ secrets_get w "S3_BUCKET_NAME" ""
                        +:+ ".s3.amazonaws.com/" +:+ basename file_path))
        /\ (forall e : Exn,
              s3_upload_file w (s3_client_of w) file_path
                (secrets_get w "S3_BUCKET_NAME" "") (basename file_path) = Some e ->
              r = None)).
Proof.
  exists (upload_value w file_path), (upload_events w file_path).
  split; [apply upload_file_to_s3_run |].
  rewrite <- s3_configured_present, upload_events_uploads.
  unfold upload_value, upload_events, s3_url_of.
  destruct (s3_configured w) eqn:Hcfg.
  - split; [split; [reflexivity | discriminate] |].
    split; [discriminate |].
    intros _. split; [reflexivity |].
    split.
    + intros ->. reflexivity.
    + intros e ->. reflexivity.
  - split; [split; [congruence | discriminate] |].
    split; [| discriminate].
    intros _. split; reflexivity.
Qed.

(** ** Loops that append to an accumulator *)

Lemma append_cons (x : ascii) (a b : string) : String x a +:+ b = String x (a +:+ b).
Proof. reflexivity. Qed.

Lemma append_assoc (a b c : string) : (a +:+ b) +:+ c = a +:+ b +:+ c.
Proof.
  induction a as [|x a IH]; [reflexivity |].
  rewrite !append_cons, IH. reflexivity.
Qed.

Lemma append_empty_r (a : string) : a +:+ EmptyString = a.
Proof.
  induction a as [|x a IH]; [reflexivity |].
  rewrite append_cons, IH. reflexivity.
Qed.

Lemma cat_app (l1 l2 : list string) : cat (l1 ++ l2) = cat l1 +:+ cat l2.
Proof.
  induction l1 as [|x l1 IH]; simpl; [reflexivity |].
  rewrite IH, append_assoc. reflexivity.
Qed.

Lemma fold_left_append {A : Type} (f : A -> string) (l : list A) (acc : string) :
  fold_left (fun acc x => acc +:+ f x) l acc = acc +:+ cat (map f l).
Proof.
  revert acc. induction l as [|x l IH]; intros acc; simpl.
  - rewrite append_empty_r. reflexivity.
  - rewrite IH, append_assoc. reflexivity.
Qed.

Lemma fold_enumerate_append {A : Type} (f : nat -> A -> string) (i0 : nat)
  (l : list A) (acc : string) :
  fold_enumerate (fun i x acc => acc +:+ f i x) i0 l acc
  = acc +:+ cat (imap (fun k x => f (i0 + k) x) l).
Proof.
  revert i0 acc. induction l as [|x l IH]; intros i0 acc; simpl.
  - rewrite append_empty_r. reflexivity.
  - rewrite IH, append_assoc, Nat.add_0_r. f_equal. f_equal. f_equal.
    apply imap_ext. intros k y _. simpl. f_equal. lia.
Qed.

(** ** The local PDF pipeline *)

Lemma upload_value_truthy (w : World) (file_path u : string) :
  upload_value w file_path = Some u -> truthy u = true.
Proof.
  unfold upload_value, s3_url_of.
  destruct (s3_configured w); [| discriminate].
  destruct (s3_upload_file w _ _ _ _); [discriminate |].
  intros [= <-]. reflexivity.
Qed.

(** One turn of the inner loop: the line added, one more temp file, and
    the uploads of the trace grown by those of this image only. *)
Lemma image_to_md_run (w : World) (page_num img_index : nat) (img : FitzImage)
  (md_images : string) (st : St) :
  let tmp_path := tmp_path_of w (tmp_count st) img in
  image_to_md w page_num img_index img md_images st
  = (Ok (md_images +:+ image_line (page_num + 1) (img_index + 1) (rehost w tmp_path)),
     {| trace := ((trace st ++ [TempFileWritten tmp_path]) ++ upload_events w tmp_path)
                 ++ [OsRemove tmp_path];
        tmp_count := S (tmp_count st) |}).
Proof.
  intros tmp_path. unfold image_to_md, named_temporary_file, os_remove.
  munfold. simpl. fold (tmp_path_of w (tmp_count st) img). fold tmp_path.
  rewrite upload_file_to_s3_run. simpl.
  rewrite rehost_value.
  destruct (upload_value w tmp_path) as [u|] eqn:Hu; simpl.
  - rewrite (upload_value_truthy _ _ _ Hu). reflexivity.
  - reflexivity.
Qed.

Lemma imap_imap {A B C : Type} (f : nat -> B -> C) (g : nat -> A -> B) (l : list A) :
  imap f (imap g l) = imap (fun k x => f k (g k x)) l.
Proof.
  revert f g. induction l as [|x l IH]; intros f g; [reflexivity |].
  rewrite !imap_cons. f_equal. apply IH.
Qed.

(** The inner loop over the images of one page. *)
Lemma page_images_run (w : World) (page_num : nat) (imgs : list FitzImage) :
  forall (i0 : nat) (acc : string) (st : St),
  exists st',
    for_enumerate (image_to_md w page_num) i0 imgs acc st
    = (Ok (acc +:+ cat (imap (fun k img =>
                                image_line (page_num + 1) (i0 + k + 1)
                                  (rehost w (tmp_path_of w (tmp_count st + k) img)))
                          imgs)), st')
    /\ tmp_count st' = tmp_count st + List.length imgs
    /\ (s3_configured w = false -> uploads (trace st') = uploads (trace st))
    /\ filter is_read_pdf (trace st') = filter is_read_pdf (trace st).
Proof.
  induction imgs as [|img imgs IH]; intros i0 acc st.
  - exists st. simpl. rewrite append_empty_r, Nat.add_0_r. auto.
  - cbn [for_enumerate]. unfold mbind at 1, M_bind at 1.
    rewrite image_to_md_run.
    match goal with |- context [for_enumerate _ _ imgs ?a ?s] =>
      destruct (IH (S i0) a s) as (st' & Hrun & Hcount & Hup & Hrd) end.
    exists st'. rewrite Hrun. cbn [tmp_count trace] in *.
    split; [| split; [| split]].
    + rewrite imap_cons. cbn [cat foldr]. rewrite append_assoc, !Nat.add_0_r.
      do 4 f_equal. unfold cat. f_equal. apply imap_ext. intros k y _. cbn.
      replace (i0 + S k) with (S (i0 + k)) by lia.
      replace (tmp_count st + S k) with (S (tmp_count st + k)) by lia.
      reflexivity.
    + rewrite Hcount. cbn [List.length]. lia.
    + intros Hcfg. rewrite (Hup Hcfg), !uploads_app, upload_events_uploads, Hcfg.
      cbn. rewrite !app_nil_r. reflexivity.
    + rewrite Hrd, !filter_app, upload_events_no_read_pdf.
      cbn. rewrite !app_nil_r. reflexivity.
Qed.

(** The outer loop over the pages. *)
Lemma doc_images_run (w : World) (doc : list (list FitzImage)) :
  forall (p0 : nat) (acc : string) (st : St),
  exists st',
    for_enumerate (fun page_num page md_images =>
                     for_enumerate (image_to_md w page_num) 0 page md_images)
      p0 doc acc st
    = (Ok (acc +:+ cat (imap (fun k '(p, i, img) =>
                                image_line p i
                                  (rehost w (tmp_path_of w (tmp_count st + k) img)))
                          (indexed_from p0 doc))), st')
    /\ tmp_count st' = tmp_count st + List.length (indexed_from p0 doc)
    /\ (s3_configured w = false -> uploads (trace st') = uploads (trace st))
    /\ filter is_read_pdf (trace st') = filter is_read_pdf (trace st).
Proof.
  induction doc as [|page doc IH]; intros p0 acc st.
  - exists st. cbn. rewrite append_empty_r, Nat.add_0_r. auto.
  - cbn [for_enumerate]. unfold mbind at 1, M_bind at 1.
    destruct (page_images_run w p0 page 0 acc st)
      as (st1 & Hrun1 & Hcount1 & Hup1 & Hrd1).
    rewrite Hrun1.
    match goal with |- context [for_enumerate _ _ doc ?a ?s] =>
      destruct (IH (S p0) a s) as (st' & Hrun & Hcount & Hup & Hrd) end.
    exists st'. rewrite Hrun.
    assert (Hshape : indexed_from p0 (page :: doc)
                     = imap (fun img_index img => (p0 + 1, img_index + 1, img)) page
                       ++ indexed_from (S p0) doc).
    { unfold indexed_from. rewrite imap_cons. cbn [concat]. rewrite Nat.add_0_r.
      f_equal. f_equal. apply imap_ext. intros k y _. cbn.
      replace (p0 + S k) with (S (p0 + k)) by lia. reflexivity. }
    rewrite Hshape. split; [| split; [| split]].
    + rewrite append_assoc, imap_app, cat_app, imap_imap, length_imap.
      rewrite Hcount1. do 5 f_equal.
      apply imap_ext. intros k [[p i] img] _.
      replace (tmp_count st + List.length page + k)
        with (tmp_count st + (List.length page + k)) by lia.
      reflexivity.
    + rewrite Hcount, Hcount1, length_app, length_imap. lia.
    + intros Hcfg. rewrite (Hup Hcfg), (Hup1 Hcfg). reflexivity.
    + rewrite Hrd, Hrd1. reflexivity.
Qed.

Lemma extract_images_to_md_run (w : World) (pdf_path : string) (st : St) :
  exists st',
    extract_images_to_md w pdf_path st
    = (Ok (nl +:+ "## Extracted Images" +:+ nl
             +:+ images_body w (tmp_count st) (fitz_pages (open_pdf w pdf_path))), st')
    /\ (s3_configured w = false -> uploads (trace st') = uploads (trace st))
    /\ filter is_read_pdf (trace st') = filter is_read_pdf (trace st).
Proof.
  unfold extract_images_to_md, images_body, indexed_images.
  destruct (doc_images_run w (fitz_pages (open_pdf w pdf_path)) 0
              (nl +:+ "## Extracted Images" +:+ nl) st)
    as (st' & Hrun & _ & Hup & Hrd).
  exists st'. rewrite Hrun, !append_assoc. auto.
Qed.

Lemma extract_text_to_md_eq (w : World) (pdf_path : string) :
  extract_text_to_md w pdf_path
  = nl +:+ "## Extracted Text" +:+ nl +:+ text_body (plumber_pages (open_pdf w pdf_path)).
Proof.
  unfold extract_text_to_md, text_body.
  rewrite (fold_enumerate_append
             (fun page_num page =>
                nl +:+ "### Page " +:+ str_nat (page_num + 1) +:+ nl +:+ "```" +:+ nl
                  +:+ or_str page "" +:+ nl +:+ "```" +:+ nl)).
  rewrite !append_assoc. reflexivity.
Qed.

Lemma tables_loop_eq (w : World) (tables : list DataFrame) :
  forall (i : nat) (md_tables : string),
  tables_loop w i tables md_tables
  = (match first_failure w tables with
     | None => Ok tt
     | Some e => Raise e
     end,
     md_tables
       +:+ cat (imap (fun k table_md =>
                        nl +:+ "### Table " +:+ str_nat (i + k + 1) +:+ nl
                          +:+ table_md +:+ nl)
                  (rendered_prefix w tables))
       +:+ match first_failure w tables with
           | None => EmptyString
           | Some _ =>
               nl +:+ "### Table "
                 +:+ str_nat (i + List.length (rendered_prefix w tables) + 1) +:+ nl
           end).
Proof.
  induction tables as [|table tables IH]; intros i md_tables;
    cbn [tables_loop rendered_prefix first_failure].
  - cbn. rewrite !append_empty_r. reflexivity.
  - destruct (to_markdown w table) as [rendered|e].
    + rewrite IH, imap_cons. cbn [cat foldr List.length].
      rewrite Nat.add_0_r.
      replace (i + S (List.length (rendered_prefix w tables)) + 1)
        with (S i + List.length (rendered_prefix w tables) + 1) by lia.
      replace (imap ((fun k table_md =>
                        nl +:+ "### Table " +:+ str_nat (i + k + 1) +:+ nl
                          +:+ table_md +:+ nl) ∘ S) (rendered_prefix w tables))
        with (imap (fun k table_md =>
                      nl +:+ "### Table " +:+ str_nat (S i + k + 1) +:+ nl
                        +:+ table_md +:+ nl) (rendered_prefix w tables)).
      * rewrite !append_assoc. reflexivity.
      * apply imap_ext. intros k y _. cbn.
        replace (i + S k + 1) with (S (i + k + 1)) by lia. reflexivity.
    + cbn [imap cat foldr List.length]. rewrite Nat.add_0_r, ?append_assoc. reflexivity.
Qed.

Lemma extract_tables_to_md_run (w : World) (pdf_path : string) (st : St) :
  extract_tables_to_md w pdf_path st
  = (Ok (nl +:+ "## Extracted Tables" +:+ nl
           +:+ tables_outcome_body w (tabula_read_pdf (open_pdf w pdf_path))),
     {| trace := trace st ++ [ReadPdf pdf_path]; tmp_count := tmp_count st |}).
Proof.
  unfold extract_tables_to_md, read_pdf, tables_outcome_body, tables_body, table_blocks,
    failure_line.
  munfold. cbn [trace tmp_count].
  destruct (tabula_read_pdf (open_pdf w pdf_path)) as [tbls|e].
  - rewrite tables_loop_eq. cbn [Nat.add].
    destruct (first_failure w tbls) as [e|]; rewrite ?append_assoc, ?append_empty_r;
      reflexivity.
  - rewrite !append_assoc. reflexivity.
Qed.

(** The whole local assembler: the title line and the three sections. *)
Lemma open_source_extract_pdf_run (w : World) (pdf_path : string) (st : St) :
  exists st',
    open_source_extract_pdf w pdf_path st
    = (Ok ("# Extracted Content from " +:+ basename pdf_path +:+ nl
             +:+ nl +:+ "## Extracted Images" +:+ nl
             +:+ images_body w (tmp_count st) (fitz_pages (open_pdf w pdf_path))
             +:+ nl +:+ "## Extracted Text" +:+ nl
             +:+ text_body (plumber_pages (open_pdf w pdf_path))
             +:+ nl +:+ "## Extracted Tables" +:+ nl
             +:+ tables_outcome_body w (tabula_read_pdf (open_pdf w pdf_path))), st')
    /\ (s3_configured w = false -> uploads (trace st') = uploads (trace st))
    /\ filter is_read_pdf (trace st')
       = filter is_read_pdf (trace st) ++ [ReadPdf pdf_path].
Proof.
  unfold open_source_extract_pdf.
  destruct (extract_images_to_md_run w pdf_path st) as (st1 & Hrun1 & Hup1 & Hrd1).
  unfold mbind at 1, M_bind at 1. rewrite Hrun1.
  unfold mbind, M_bind. rewrite extract_tables_to_md_run, extract_text_to_md_eq.
  eexists. split; [| split].
  - unfold mret, M_ret. rewrite !append_assoc. reflexivity.
  - intros Hcfg. cbn [trace]. rewrite uploads_app, (Hup1 Hcfg). cbn.
    rewrite app_nil_r. reflexivity.
  - cbn [trace]. rewrite filter_app, Hrd1. reflexivity.
Qed.

Lemma indexed_from_no_image (doc : list (list FitzImage)) (p0 : nat) :
  Forall (fun page => page = []) doc -> indexed_from p0 doc = [].
Proof.
  intros Hdoc. revert p0. induction Hdoc as [|page doc -> _ IH]; intros p0.
  - reflexivity.
  - unfold indexed_from. rewrite imap_cons. cbn [concat imap app].
    specialize (IH (S p0)). unfold indexed_from in IH.
    rewrite <- IH. f_equal. apply imap_ext. intros k y _. cbn.
    replace (p0 + S k) with (S (p0 + k)) by lia. reflexivity.
Qed.

Lemma rehost_not_configured (w : World) (file_path : string) :
  s3_configured w = false -> rehost w file_path = None.
Proof. intros Hcfg. rewrite rehost_value. unfold upload_value. rewrite Hcfg. reflexivity. Qed.

(** *** Lines and headings of a concatenation *)

Lemma splitlines_from_line (a b cur : string) :
  splitlines_from cur (a +:+ nl +:+ b) = splitlines_from cur (a +:+ nl) ++ splitlines b.
Proof.
  revert cur. induction a as [|c a IH]; intros cur.
  - reflexivity.
  - rewrite !append_cons. cbn [splitlines_from].
    destruct (Ascii.eqb c (ascii_of_nat 10)).
    + rewrite IH. reflexivity.
    + apply IH.
Qed.

Lemma splitlines_from_no_newline (a b cur : string) :
  no_newline a = true ->
  splitlines_from cur (a +:+ b) = splitlines_from (cur +:+ a) b.
Proof.
  revert cur. induction a as [|c a IH]; intros cur Ha.
  - rewrite append_empty_r. reflexivity.
  - cbn [no_newline] in Ha. apply andb_true_iff in Ha as [Hc Ha].
    rewrite append_cons. cbn [splitlines_from].
    destruct (Ascii.eqb c (ascii_of_nat 10)); [discriminate |].
    rewrite (IH _ Ha), append_assoc. reflexivity.
Qed.

Lemma headings_line (a b : string) :
  top_level_headings (a +:+ nl +:+ b)
  = top_level_headings (a +:+ nl) ++ top_level_headings b.
Proof.
  unfold top_level_headings, splitlines.
  rewrite splitlines_from_line. apply filter_app.
Qed.

Lemma headings_blank_line (b : string) :
  top_level_headings (nl +:+ b) = top_level_headings b.
Proof. exact (headings_line EmptyString b). Qed.

Lemma headings_one_line (a : string) :
  no_newline a = true ->
  top_level_headings (a +:+ nl) = if is_heading a then [a] else [].
Proof.
  intros Ha. unfold top_level_headings, splitlines.
  rewrite (splitlines_from_no_newline a nl EmptyString Ha).
  change (splitlines_from (EmptyString +:+ a) nl) with [a].
  rewrite filter_cons, filter_nil.
  destruct (is_heading a) eqn:Hh.
  - rewrite decide_True by reflexivity. reflexivity.
  - rewrite decide_False by discriminate. reflexivity.
Qed.

Lemma no_newline_app (a b : string) :
  no_newline a = true -> no_newline b = true -> no_newline (a +:+ b) = true.
Proof.
  intros Ha Hb. induction a as [|c a IH]; [exact Hb |].
  rewrite append_cons. cbn [no_newline] in *.
  apply andb_true_iff in Ha as [Hc Ha]. rewrite Hc, (IH Ha). reflexivity.
Qed.

Lemma no_newline_uint (d : Decimal.uint) :
  no_newline (NilEmpty.string_of_uint d) = true.
Proof. induction d; cbn; assumption || reflexivity. Qed.

Lemma no_newline_str_nat (n : nat) : no_newline (str_nat n) = true.
Proof.
  unfold str_nat, NilZero.string_of_uint.
  destruct (Nat.to_uint n); try reflexivity; apply no_newline_uint.
Qed.

(** The text of the pages adds no heading when its lines do not look like
    one: the [### Page n] lines and the fences never do. *)
Lemma headings_text_body (pages : list (option string)) (i0 : nat) (rest : string) :
  Forall (fun page => no_heading_line (or_str page "")) pages ->
  top_level_headings
    (cat (imap (fun k page =>
                  nl +:+ "### Page " +:+ str_nat (i0 + k + 1) +:+ nl +:+ "```" +:+ nl
                    +:+ or_str page "" +:+ nl +:+ "```" +:+ nl) pages) +:+ rest)
  = top_level_headings rest.
Proof.
  intros Hpages. revert i0. induction Hpages as [|page pages Hpage _ IH]; intros i0.
  - reflexivity.
  - rewrite imap_cons. cbn [cat foldr]. rewrite !append_assoc.
    rewrite headings_blank_line.
    rewrite <- (append_assoc "### Page " (str_nat (i0 + 0 + 1))).
    rewrite (headings_line ("### Page " +:+ str_nat (i0 + 0 + 1))).
    rewrite (headings_line "```").
    rewrite (headings_line (or_str page "")).
    rewrite (headings_line "```").
    rewrite headings_one_line
      by (apply no_newline_app; [reflexivity | apply no_newline_str_nat]).
    rewrite Hpage.
    replace (cat (imap _ pages))
      with (cat (imap (fun k page0 =>
                         nl +:+ "### Page " +:+ str_nat (S i0 + k + 1) +:+ nl
                           +:+ "```" +:+ nl +:+ or_str page0 "" +:+ nl +:+ "```" +:+ nl)
                   pages)).
    + rewrite IH. reflexivity.
    + f_equal. apply imap_ext. intros k y _. cbn.
      replace (i0 + S k + 1) with (S (i0 + k + 1)) by lia. reflexivity.
Qed.

Lemma headings_app (a b : string) :
  whole_lines a -> top_level_headings (a +:+ b) = top_level_headings a ++ top_level_headings b.
Proof.
  intros [-> | (a' & ->)]; [reflexivity |].
  rewrite append_assoc. apply headings_line.
Qed.

Lemma whole_lines_app (a b : string) :
  whole_lines a -> whole_lines b -> whole_lines (a +:+ b).
Proof.
  intros Ha [-> | (b' & ->)].
  - rewrite append_empty_r. exact Ha.
  - right. exists (a +:+ b'). rewrite append_assoc. reflexivity.
Qed.

Lemma whole_lines_cat (l : list string) : Forall whole_lines l -> whole_lines (cat l).
Proof.
  induction 1 as [|x l Hx _ IH]; [left; reflexivity |].
  cbn [cat foldr]. apply whole_lines_app; assumption.
Qed.

Lemma whole_lines_imap {A : Type} (f : nat -> A -> string) (l : list A) :
  (forall k x, whole_lines (f k x)) -> whole_lines (cat (imap f l)).
Proof.
  intros Hf. apply whole_lines_cat. revert f Hf.
  induction l as [|x l IH]; intros f Hf; [constructor |].
  rewrite imap_cons. constructor; [apply Hf | apply IH; intros k y; apply Hf].
Qed.

Lemma whole_lines_images_body (w : World) (n0 : nat) (doc : list (list FitzImage)) :
  whole_lines (images_body w n0 doc).
Proof.
  unfold images_body. apply whole_lines_imap. intros k [[p i] img].
  unfold image_line. right. destruct (rehost w _) as [u|].
  - exists ("![Image page " +:+ str_nat p +:+ " - " +:+ str_nat i +:+ "](" +:+ u +:+ ")").
    rewrite !append_assoc. reflexivity.
  - exists (nl +:+ "**[Warning: Failed to upload image (page " +:+ str_nat p +:+ ", index "
              +:+ str_nat i +:+ ") to S3]**").
    rewrite !append_assoc. reflexivity.
Qed.

Lemma whole_lines_text_body (pages : list (option string)) : whole_lines (text_body pages).
Proof.
  unfold text_body. apply whole_lines_imap. intros k page. right.
  exists (nl +:+ "### Page " +:+ str_nat (k + 1) +:+ nl +:+ "```" +:+ nl
            +:+ or_str page "" +:+ nl +:+ "```").
  rewrite !append_assoc. reflexivity.
Qed.

(** C1.  For every local document, [open_source_extract_pdf] returns one
    string made of the title line [# Extracted Content from <filename>]
    followed by the sections [## Extracted Images], [## Extracted Text] and
    [## Extracted Tables], in this order, each heading followed by the body
    of its section.  When the file name holds no newline, the lines of the
    result that open a section of level one or two are these four, in this
    order, and between them those that the bodies of the three sections
    hold: the four are the only ones exactly when no body brings one of its
    own.  When no page has an image and tabula finds no table, the bodies
    of the Images and Tables sections are empty, and the four headings are
    the only ones as soon as no line of the page texts looks like a
    heading. *)
Theorem open_source_extract_pdf_sections (w : World) (pdf_path : string) (st : St) :
  result (open_source_extract_pdf w pdf_path) st
  = Ok ("# Extracted Content from " +:+ basename pdf_path +:+ nl
          +:+ nl +:+ "## Extracted Images" +:+ nl
          +:+ images_body w (tmp_count st) (fitz_pages (open_pdf w pdf_path))
          +:+ nl +:+ "## Extracted Text" +:+ nl
          +:+ text_body (plumber_pages (open_pdf w pdf_path))
          +:+ nl +:+ "## Extracted Tables" +:+ nl
          +:+ tables_outcome_body w (tabula_read_pdf (open_pdf w pdf_path)))
  /\ (no_newline (basename pdf_path) = true ->
      exists md,
        result (open_source_extract_pdf w pdf_path) st = Ok md
        /\ top_level_headings md
           = ["# Extracted Content from " +:+ basename pdf_path; "## Extracted Images"]
             ++ top_level_headings
                  (images_body w (tmp_count st) (fitz_pages (open_pdf w pdf_path)))
             ++ ["## Extracted Text"]
             ++ top_level_headings (text_body (plumber_pages (open_pdf w pdf_path)))
             ++ ["## Extracted Tables"]
             ++ top_level_headings
                  (tables_outcome_body w (tabula_read_pdf (open_pdf w pdf_path))))
  /\ (Forall (fun page => page = []) (fitz_pages (open_pdf w pdf_path)) ->
      tabula_read_pdf (open_pdf w pdf_path) = Ok [] ->
      images_body w (tmp_count st) (fitz_pages (open_pdf w pdf_path)) = EmptyString
      /\ tables_outcome_body w (tabula_read_pdf (open_pdf w pdf_path)) = EmptyString
      /\ result (open_source_extract_pdf w pdf_path) st
         = Ok ("# Extracted Content from " +:+ basename pdf_path +:+ nl
                 +:+ nl +:+ "## Extracted Images" +:+ nl
                 +:+ nl +:+ "## Extracted Text" +:+ nl
                 +:+ text_body (plumber_pages (open_pdf w pdf_path))
                 +:+ nl +:+ "## Extracted Tables" +:+ nl)
      /\ (no_newline (basename pdf_path) = true ->
          Forall (fun page => no_heading_line (or_str page ""))
            (plumber_pages (open_pdf w pdf_path)) ->
          exists md,
            result (open_source_extract_pdf w pdf_path) st = Ok md
            /\ top_level_headings md
               = ["# Extracted Content from " +:+ basename pdf_path;
                  "## Extracted Images"; "## Extracted Text"; "## Extracted Tables"])).
Proof.
  destruct (open_source_extract_pdf_run w pdf_path st) as (st' & Hrun & _).
  unfold result. rewrite Hrun. cbn [fst].
  split; [reflexivity |].
  assert (Hheadings :
            no_newline (basename pdf_path) = true ->
            top_level_headings
              ("# Extracted Content from " +:+ basename pdf_path +:+ nl
                 +:+ nl +:+ "## Extracted Images" +:+ nl
                 +:+ images_body w (tmp_count st) (fitz_pages (open_pdf w pdf_path))
                 +:+ nl +:+ "## Extracted Text" +:+ nl
                 +:+ text_body (plumber_pages (open_pdf w pdf_path))
                 +:+ nl +:+ "## Extracted Tables" +:+ nl
                 +:+ tables_outcome_body w (tabula_read_pdf (open_pdf w pdf_path)))
            = ["# Extracted Content from " +:+ basename pdf_path; "## Extracted Images"]
              ++ top_level_headings
                   (images_body w (tmp_count st) (fitz_pages (open_pdf w pdf_path)))
              ++ ["## Extracted Text"]
              ++ top_level_headings (text_body (plumber_pages (open_pdf w pdf_path)))
              ++ ["## Extracted Tables"]
              ++ top_level_headings
                   (tables_outcome_body w (tabula_read_pdf (open_pdf w pdf_path)))).
  { intros Hname.
    rewrite <- (append_assoc "# Extracted Content from " (basename pdf_path)).
    rewrite (headings_line ("# Extracted Content from " +:+ basename pdf_path)).
    rewrite headings_one_line by (apply no_newline_app; [reflexivity | exact Hname]).
    rewrite headings_blank_line.
    rewrite (headings_line "## Extracted Images").
    rewrite (headings_app (images_body _ _ _)) by apply whole_lines_images_body.
    rewrite headings_blank_line.
    rewrite (headings_line "## Extracted Text").
    rewrite (headings_app (text_body _)) by apply whole_lines_text_body.
    rewrite headings_blank_line.
    rewrite (headings_line "## Extracted Tables").
    reflexivity. }
  split.
  { intros Hname. eexists. split; [reflexivity | exact (Hheadings Hname)]. }
  intros Himg Htab.
  assert (Hi : images_body w (tmp_count st) (fitz_pages (open_pdf w pdf_path))
               = EmptyString).
  { unfold images_body, indexed_images.
    rewrite (indexed_from_no_image _ 0 Himg). reflexivity. }
  assert (Ht : tables_outcome_body w (tabula_read_pdf (open_pdf w pdf_path))
               = EmptyString).
  { rewrite Htab. reflexivity. }
  rewrite Hi, Ht in *. split; [reflexivity |]. split; [reflexivity |].
  split; [reflexivity |].
  intros Hname Hpages. eexists. split; [reflexivity |].
  rewrite (Hheadings Hname).
  unfold text_body.
  pose proof (headings_text_body (plumber_pages (open_pdf w pdf_path)) 0 EmptyString Hpages)
    as Htext.
  rewrite append_empty_r in Htext. cbn [Nat.add] in Htext. rewrite Htext.
  reflexivity.
Qed.

Lemma open_source_extract_pdf_sections_witness :
  (exists md,
     result (open_source_extract_pdf sample_world "/data/text.pdf") st0 = Ok md
     /\ top_level_headings md
        = ["# Extracted Content from text.pdf";
           "## Extracted Images"; "## Extracted Text"; "## Extracted Tables"])
  /\ (exists md,
        result (open_source_extract_pdf sample_world "/data/doc.pdf") st0 = Ok md
        /\ top_level_headings md
           = ["# Extracted Content from doc.pdf"; "## Extracted Images"]
             ++ top_level_headings
                  (images_body sample_world 0 (fitz_pages sample_pdf))
             ++ ["## Extracted Text"]
             ++ top_level_headings (text_body (plumber_pages sample_pdf))
             ++ ["## Extracted Tables"]
             ++ top_level_headings (tables_outcome_body sample_world (Ok []))).
Proof.
  split.
  - destruct (open_source_extract_pdf_sections sample_world "/data/text.pdf" st0)
      as (_ & _ & Hempty).
    destruct Hempty as (_ & _ & _ & Hfour).
    + repeat constructor.
    + reflexivity.
    + apply Hfour; [reflexivity | repeat constructor].
  - destruct (open_source_extract_pdf_sections sample_world "/data/doc.pdf" st0)
      as (_ & Hheadings & _).
    apply Hheadings. reflexivity.
Defined.

(** C1, as the specification states it, fails on a PDF whose page text
    closes the code fence it is put in and writes a heading line: the
    result then holds five lines that open a section of level one or
    two. *)
Lemma injected_heading_is_a_fifth_section :
  plumber_pages (open_pdf sample_world "/data/injected.pdf")
  = [Some ("```" +:+ nl +:+ "# Injected section" +:+ nl +:+ "```")]
  /\ exists md,
       result (open_source_extract_pdf sample_world "/data/injected.pdf") st0 = Ok md
       /\ top_level_headings md
          = ["# Extracted Content from injected.pdf"; "## Extracted Images";
             "## Extracted Text"; "# Injected section"; "## Extracted Tables"].
Proof.
  split; [reflexivity |].
  eexists. split; vm_compute; reflexivity.
Qed.

(** C2.  The Images section is its heading followed by exactly one line
    per image, pages in order and images in their order within the page:
    [![Image page p - i](url)] with 1-based [p] and [i] when re-hosting the
    image returned [url], the bold warning naming [p] and [i] when it
    returned none; [extract_images_to_md] never raises.  With the storage
    settings absent every line is the warning and no upload is attempted. *)
Theorem extract_images_to_md_lines (w : World) (pdf_path : string) (st : St) :
  result (extract_images_to_md w pdf_path) st
  = Ok (nl +:+ "## Extracted Images" +:+ nl
          +:+ cat (imap (fun k '(p, i, img) =>
                           match rehost w (tmp_path_of w (tmp_count st + k) img) with
                           | Some url =>
                               "![Image page " +:+ str_nat p +:+ " - " +:+ str_nat i
                                 +:+ "](" +:+ url +:+ ")" +:+ nl
                           | None =>
                               nl +:+ "**[Warning: Failed to upload image (page "
                                 +:+ str_nat p +:+ ", index " +:+ str_nat i
                                 +:+ ") to S3]**" +:+ nl
                           end)
                     (indexed_images (fitz_pages (open_pdf w pdf_path)))))
  /\ (s3_configured w = false ->
      uploads (events (extract_images_to_md w pdf_path) st) = uploads (trace st)
      /\ result (extract_images_to_md w pdf_path) st
         = Ok (nl +:+ "## Extracted Images" +:+ nl
                 +:+ cat (map (fun '(p, i, _) =>
                                 nl +:+ "**[Warning: Failed to upload image (page "
                                   +:+ str_nat p +:+ ", index " +:+ str_nat i
                                   +:+ ") to S3]**" +:+ nl)
                            (indexed_images (fitz_pages (open_pdf w pdf_path)))))).
Proof.
  destruct (extract_images_to_md_run w pdf_path st) as (st' & Hrun & Hup & _).
  unfold result, events. rewrite Hrun. cbn [fst snd].
  split; [reflexivity |].
  intros Hcfg. split; [exact (Hup Hcfg) |].
  unfold images_body. rewrite <- imap_const. do 5 f_equal. apply imap_ext. intros k [[p i] img] _.
  rewrite (rehost_not_configured _ _ Hcfg). reflexivity.
Qed.

Lemma rendered_before_failure (w : World) (before after : list DataFrame)
  (table : DataFrame) (rendered : list string) (e : Exn) :
  Forall2 (fun df table_md => to_markdown w df = Ok table_md) before rendered ->
  to_markdown w table = Raise e ->
  rendered_prefix w (before ++ table :: after) = rendered
  /\ first_failure w (before ++ table :: after) = Some e.
Proof.
  intros Hbefore Htable. induction Hbefore as [|df table_md before rendered Hdf _ IH];
    cbn [app rendered_prefix first_failure].
  - rewrite Htable. split; reflexivity.
  - rewrite Hdf. destruct IH as [-> ->]. split; reflexivity.
Qed.

(** C8.  When table extraction raises, the assembler still returns its
    Markdown, the title and the Images and Text sections being what they
    are for any other outcome, and [read_pdf] has been called once only.
    When it is tabula's [read_pdf] that raises, the Tables section is its
    heading followed by the single line [Failed to process tables:
    <message>].  When it is [to_markdown] that raises on one of the tables,
    that line comes after what the section already holds: the blocks of the
    tables before that one, and the [### Table n] heading of that one. *)
Theorem table_extraction_failure_is_reported (w : World) (pdf_path : string)
  (e : Exn) (st : St) :
  (tabula_read_pdf (open_pdf w pdf_path) = Raise e ->
   result (extract_tables_to_md w pdf_path) st
   = Ok (nl +:+ "## Extracted Tables" +:+ nl
           +:+ nl +:+ "Failed to process tables: " +:+ exn_msg e +:+ nl))
  /\ (forall (before after : list DataFrame) (table : DataFrame) (rendered : list string),
        tabula_read_pdf (open_pdf w pdf_path) = Ok (before ++ table :: after) ->
        Forall2 (fun df table_md => to_markdown w df = Ok table_md) before rendered ->
        to_markdown w table = Raise e ->
        result (extract_tables_to_md w pdf_path) st
        = Ok (nl +:+ "## Extracted Tables" +:+ nl
                +:+ cat (imap (fun k table_md =>
                                 nl +:+ "### Table " +:+ str_nat (k + 1) +:+ nl
                                   +:+ table_md +:+ nl) rendered)
                +:+ nl +:+ "### Table " +:+ str_nat (List.length before + 1) +:+ nl
                +:+ nl +:+ "Failed to process tables: " +:+ exn_msg e +:+ nl))
  /\ (exists md_tables : string,
        result (extract_tables_to_md w pdf_path) st = Ok md_tables
        /\ result (open_source_extract_pdf w pdf_path) st
           = Ok ("# Extracted Content from " +:+ basename pdf_path +:+ nl
                   +:+ nl +:+ "## Extracted Images" +:+ nl
                   +:+ images_body w (tmp_count st) (fitz_pages (open_pdf w pdf_path))
                   +:+ nl +:+ "## Extracted Text" +:+ nl
                   +:+ text_body (plumber_pages (open_pdf w pdf_path))
                   +:+ md_tables))
  /\ filter is_read_pdf (events (open_source_extract_pdf w pdf_path) st)
     = filter is_read_pdf (trace st) ++ [ReadPdf pdf_path].
Proof.
  destruct (open_source_extract_pdf_run w pdf_path st) as (st' & Hrun & _ & Hrd).
  unfold result, events.
  rewrite extract_tables_to_md_run, Hrun. cbn [fst snd].
  split; [| split; [| split]].
  - intros ->. reflexivity.
  - intros before after table rendered -> Hbefore Htable.
    destruct (rendered_before_failure w before after table rendered e Hbefore Htable)
      as [Hprefix Hfailure].
    unfold tables_outcome_body, tables_body, table_blocks, failure_line.
    rewrite Hprefix, Hfailure, (Forall2_length _ _ _ Hbefore), ?append_assoc.
    reflexivity.
  - eexists. split; reflexivity.
  - exact Hrd.
Qed.

Lemma table_extraction_failure_is_reported_witness :
  result (extract_tables_to_md sample_world "/data/broken.pdf") st0
  = Ok (nl +:+ "## Extracted Tables" +:+ nl
          +:+ nl +:+ "Failed to process tables: java command is not found" +:+ nl)
  /\ result (extract_tables_to_md sample_world_no_tabulate "/data/tables.pdf") st0
     = Ok (nl +:+ "## Extracted Tables" +:+ nl
             +:+ nl +:+ "### Table 1" +:+ nl
             +:+ nl +:+ "Failed to process tables: Missing optional dependency 'tabulate'."
             +:+ nl).
Proof.
  split.
  - apply (table_extraction_failure_is_reported sample_world "/data/broken.pdf"
             (mkExn OtherException "java command is not found") st0).
    reflexivity.
  - destruct (table_extraction_failure_is_reported sample_world_no_tabulate
                "/data/tables.pdf"
                (mkExn OtherException "Missing optional dependency 'tabulate'.") st0)
      as (_ & Hrender & _).
    apply (Hrender [] [{| columns := []; df_rows := [] |}]
             {| columns := [LCell (Some "A")]; df_rows := [[Some "1"]] |} []).
    + reflexivity.
    + constructor.
    + reflexivity.
Defined.

(** C8, as the specification states it, fails when it is the rendering of
    a table that raises, as [to_markdown] does without [tabulate]: the
    Tables section then holds the heading of the first table before the
    line reporting the failure, not that line alone. *)
Lemma failure_line_follows_table_heading :
  tabula_read_pdf (open_pdf sample_world_no_tabulate "/data/tables.pdf")
  = Ok [{| columns := [LCell (Some "A")]; df_rows := [[Some "1"]] |};
        {| columns := []; df_rows := [] |}]
  /\ result (extract_tables_to_md sample_world_no_tabulate "/data/tables.pdf") st0
     = Ok (nl +:+ "## Extracted Tables" +:+ nl
             +:+ nl +:+ "### Table 1" +:+ nl
             +:+ nl +:+ "Failed to process tables: Missing optional dependency 'tabulate'."
             +:+ nl)
  /\ result (extract_tables_to_md sample_world_no_tabulate "/data/tables.pdf") st0
     <> Ok (nl +:+ "## Extracted Tables" +:+ nl
              +:+ nl +:+ "Failed to process tables: Missing optional dependency 'tabulate'."
              +:+ nl).
Proof.
  split; [reflexivity |].
  split; [vm_compute; reflexivity |].
  intros Heq. vm_compute in Heq. discriminate Heq.
Qed.

(** ** Pipe tables of the Adobe and Diffbot pipelines *)

Lemma table_rows_after_header (rest : list (list string)) :
  forall (i0 : nat) (md : string),
  fold_enumerate (fun i row md_content =>
                    let md_content := md_content +:+ pipe_row row in
                    if (i =? 0)%nat then md_content +:+ pipe_dashes row else md_content)
    (S i0) rest md
  = md +:+ cat (map pipe_row rest).
Proof.
  induction rest as [|row rest IH]; intros i0 md; cbn [fold_enumerate map cat foldr].
  - rewrite append_empty_r. reflexivity.
  - cbn [Nat.eqb]. rewrite IH, append_assoc. reflexivity.
Qed.

Lemma manifest_table_to_md (header : list string) (rest : list (list string))
  (md : string) :
  manifest_to_md (manifest_of_table (header :: rest)) md
  = md +:+ "## Table Element" +:+ nl +:+ pipe_row header +:+ pipe_dashes header
      +:+ cat (map pipe_row rest) +:+ nl.
Proof.
  unfold manifest_to_md, manifest_of_table. cbn [manifest_elements get fold_left Text Table Rows].
  cbn [fold_enumerate Nat.eqb]. rewrite table_rows_after_header.
  rewrite !append_assoc. reflexivity.
Qed.

Lemma diffbot_table_rows_to_md (header : list string) (rest : list (list string))
  (md : string) :
  diffbot_table_to_md {| rows := Some (header :: rest) |} md
  = md +:+ pipe_row header +:+ pipe_dashes header +:+ cat (map pipe_row rest) +:+ nl.
Proof.
  unfold diffbot_table_to_md. cbn [rows get].
  rewrite (fold_left_append pipe_row), !append_assoc. reflexivity.
Qed.

Lemma length_repeat_dash (n : nat) : String.length (repeat_str "-" n) = n.
Proof.
  induction n as [|n IH]; [reflexivity |].
  change (S (String.length (repeat_str "-" n)) = S n).
  rewrite IH. reflexivity.
Qed.

(** C6.  The table with rows [[A, B], [1, 2]] is rendered by the
    table loop of the Adobe manifest and by the Diffbot table loop as exactly
    three lines: the first row as header, a separator whose run of dashes
    under each column is as long as the header cell, and one data row (the
    Adobe loop writes its [## Table Element] heading before them, and both
    close the table with an empty line); so does the loop over the rows of
    a spreadsheet of the Adobe bundle.  For any table with at least one
    row, both loops put the first row first, the separator built from it
    second, and the other rows after. *)
Theorem pipe_table_first_row_is_header :
  splitlines (manifest_to_md (manifest_of_table sample_rows) EmptyString)
  = ["## Table Element"; "| A | B |"; "| - | - |"; "| 1 | 2 |"; EmptyString]
  /\ splitlines (diffbot_table_to_md {| rows := Some sample_rows |} EmptyString)
     = ["| A | B |"; "| - | - |"; "| 1 | 2 |"; EmptyString]
  /\ (forall w : World,
        splitlines (xlsx_tables_to_md w
                      (Some [("t.xlsx", [[CStr "A"; CStr "B"]; [CStr "1"; CStr "2"]])])
                      EmptyString)
        = ["## Table from t.xlsx"; "| A | B |"; "| - | - |"; "| 1 | 2 |"; EmptyString])
  /\ (forall (header : list string) (rest : list (list string)) (md : string),
        manifest_to_md (manifest_of_table (header :: rest)) md
        = md +:+ "## Table Element" +:+ nl +:+ pipe_row header +:+ pipe_dashes header
            +:+ cat (map pipe_row rest) +:+ nl
        /\ diffbot_table_to_md {| rows := Some (header :: rest) |} md
           = md +:+ pipe_row header +:+ pipe_dashes header
               +:+ cat (map pipe_row rest) +:+ nl)
  /\ (forall header : list string,
        exists dashes : list string,
          pipe_dashes header = "| " +:+ join " | " dashes +:+ " |" +:+ nl
          /\ Forall2 (fun cell dash =>
                        String.length dash = String.length cell
                        /\ dash = repeat_str "-" (String.length cell))
               header dashes).
Proof.
  split; [vm_compute; reflexivity |].
  split; [vm_compute; reflexivity |].
  split; [intros w; vm_compute; reflexivity |].
  split.
  - intros header rest md. split.
    + apply manifest_table_to_md.
    + apply diffbot_table_rows_to_md.
  - intros header.
    exists (map (fun col => repeat_str "-" (String.length col)) header).
    split; [reflexivity |].
    induction header as [|cell header IH]; constructor.
    + split; [apply length_repeat_dash | reflexivity].
    + exact IH.
Qed.

(** ** The Diffbot pipeline *)

(** C7.  When the Diffbot call does not answer with status 200, or its
    answer holds an empty list of objects (or none), [enterprise_extract_website]
    returns [None]: no Markdown at all. *)
Theorem enterprise_extract_website_failure (w : World) (url : string) (st : St) :
  api_status_code
    (diffbot_get w ("https://api.diffbot.com/v3/article?token="
                      +:+ secrets_get w "DIFFBOT_API_TOKEN" "" +:+ "&url=" +:+ url)) <> 200
  \/ objects (json (diffbot_get w ("https://api.diffbot.com/v3/article?token="
                      +:+ secrets_get w "DIFFBOT_API_TOKEN" "" +:+ "&url=" +:+ url)))
     = Some []
  \/ objects (json (diffbot_get w ("https://api.diffbot.com/v3/article?token="
                      +:+ secrets_get w "DIFFBOT_API_TOKEN" "" +:+ "&url=" +:+ url)))
     = None ->
  result (enterprise_extract_website w url) st = Ok None.
Proof.
  intros Hfail. unfold enterprise_extract_website, result.
  destruct (truthy (secrets_get w "DIFFBOT_API_TOKEN" "")); cbn [negb]; [| reflexivity].
  munfold. cbn [fst].
  destruct (Nat.eqb_spec
              (api_status_code
                 (diffbot_get w ("https://api.diffbot.com/v3/article?token="
                                   +:+ secrets_get w "DIFFBOT_API_TOKEN" ""
                                   +:+ "&url=" +:+ url))) 200) as [Hok|Hko];
    cbn [negb]; [| reflexivity].
  destruct Hfail as [Hstatus | [Hempty | Hnone]].
  - contradiction.
  - rewrite Hempty. reflexivity.
  - rewrite Hnone. reflexivity.
Qed.

Lemma enterprise_extract_website_failure_witness :
  objects (json (diffbot_get sample_world_configured
                   ("https://api.diffbot.com/v3/article?token="
                      +:+ secrets_get sample_world_configured "DIFFBOT_API_TOKEN" ""
                      +:+ "&url=" +:+ "https://x.com/empty"))) = Some []
  /\ result (enterprise_extract_website sample_world_configured "https://x.com/empty") st0
     = Ok None.
Proof.
  split; [vm_compute; reflexivity |].
  apply (enterprise_extract_website_failure sample_world_configured
           "https://x.com/empty" st0).
  right. left. vm_compute. reflexivity.
Defined.

(** ** Spreadsheet cells of the Adobe pipeline *)

(** C10.  In the rows rendered from a spreadsheet of the Adobe bundle,
    every falsy cell is the empty string: an absent cell and an empty
    string, and also the integer 0, the float 0.0 and [False]; a sheet
    with the cells [n] and [0] renders the second one empty. *)
Theorem falsy_cells_render_empty (w : World) :
  (forall (row : list Cell) (i : nat) (cell : Cell),
     row !! i = Some cell -> cell_truthy cell = false ->
     xlsx_row_data w row !! i = Some EmptyString)
  /\ cell_truthy CNone = false
  /\ cell_truthy (CStr EmptyString) = false
  /\ cell_truthy (CInt 0) = false
  /\ cell_truthy (CFloat 0%float) = false
  /\ cell_truthy (CBool false) = false
  /\ xlsx_tables_to_md w (Some [("t.xlsx", [[CStr "n"; CInt 0]; [CInt 7; CFloat 0%float]])])
       EmptyString
     = "## Table from t.xlsx" +:+ nl
         +:+ "| n |  |" +:+ nl +:+ "| - |  |" +:+ nl +:+ "| 7 |  |" +:+ nl +:+ nl.
Proof.
  split.
  - intros row i cell Hrow Hfalsy. unfold xlsx_row_data.
    rewrite list_lookup_fmap, Hrow. cbn. rewrite Hfalsy. reflexivity.
  - repeat split; vm_compute; reflexivity.
Qed.

(** ** The scraped-page pipeline *)

Lemma for_each_all_ok {A : Type} (f : A -> Res string) (l : list A) :
  forall (acc : list string) (st : St),
  for_each (fun x acc => y ← of_res (f x); mret (acc ++ [y])) l acc st
  = (ys ← all_ok f l; Ok (acc ++ ys), st).
Proof.
  induction l as [|x l IH]; intros acc st; cbn [for_each all_ok].
  - unfold mret, M_ret, mbind, Res_bind. rewrite app_nil_r. reflexivity.
  - unfold mbind at 1, M_bind at 1. unfold mbind at 1, M_bind at 1, of_res at 1.
    destruct (f x) as [y|e]; [| reflexivity].
    unfold mret at 1, M_ret at 1. rewrite IH.
    unfold mbind, Res_bind. destruct (all_ok f l) as [ys|e]; [| reflexivity].
    rewrite <- app_assoc. reflexivity.
Qed.

Lemma image_urls_run (w : World) (url : string) (tags : list (option string)) :
  forall (acc : list string) (st : St),
  for_each (fun img image_urls =>
              match img with
              | Some src =>
                  src ← of_res (resolve_src w url src);
                  mret (image_urls ++ [src])
              | None => mret image_urls
              end) tags acc st
  = (ys ← all_ok (resolve_src w url) (srcs_of tags); Ok (acc ++ ys), st).
Proof.
  induction tags as [|[src|] tags IH]; intros acc st; cbn [for_each].
  - unfold mret, M_ret, mbind, Res_bind. cbn. rewrite app_nil_r. reflexivity.
  - unfold mbind at 1, M_bind at 1. unfold mbind at 1, M_bind at 1, of_res at 1.
    change (srcs_of (Some src :: tags)) with (src :: srcs_of tags). cbn [all_ok].
    destruct (resolve_src w url src) as [y|e]; [| reflexivity].
    unfold mret at 1, M_ret at 1. rewrite IH.
    unfold mbind, Res_bind. destruct (all_ok _ (srcs_of tags)) as [ys|e]; [| reflexivity].
    rewrite <- app_assoc. reflexivity.
  - unfold mbind at 1, M_bind at 1, mret at 1, M_ret at 1. apply IH.
Qed.

Lemma page_tables_run (w : World) (dfs : list DataFrame) :
  forall (i : nat) (md : string) (st : St),
  for_enumerate (fun idx df_table md =>
                   let md := md +:+ "### Table " +:+ str_nat idx +:+ nl +:+ nl in
                   rendered ← of_res (to_markdown w df_table);
                   mret (md +:+ rendered +:+ nl +:+ nl)) i dfs md st
  = (rendered ← all_ok (to_markdown w) dfs;
     Ok (md +:+ cat (imap (fun k table_md =>
                             "### Table " +:+ str_nat (i + k) +:+ nl +:+ nl
                               +:+ table_md +:+ nl +:+ nl) rendered)), st).
Proof.
  induction dfs as [|df dfs IH]; intros i md st; cbn [for_enumerate all_ok].
  - unfold mret, M_ret, mbind, Res_bind. cbn. rewrite append_empty_r. reflexivity.
  - unfold mbind at 1, M_bind at 1. cbv zeta.
    unfold mbind at 1, M_bind at 1, of_res at 1.
    destruct (to_markdown w df) as [table_md|e]; [| reflexivity].
    unfold mret at 1, M_ret at 1. rewrite IH.
    unfold mbind, Res_bind. destruct (all_ok (to_markdown w) dfs) as [rendered|e];
      [| reflexivity].
    rewrite imap_cons. cbn [cat foldr]. rewrite Nat.add_0_r.
    replace (imap ((fun k table_md0 =>
                      "### Table " +:+ str_nat (i + k) +:+ nl +:+ nl
                        +:+ table_md0 +:+ nl +:+ nl) ∘ S) rendered)
      with (imap (fun k table_md0 =>
                    "### Table " +:+ str_nat (S i + k) +:+ nl +:+ nl
                      +:+ table_md0 +:+ nl +:+ nl) rendered).
    + rewrite !append_assoc. reflexivity.
    + apply imap_ext. intros k y _. cbn.
      replace (i + S k) with (S (i + k)) by lia. reflexivity.
Qed.

Lemma extract_html_tables_from (found_tables : list (list (list string)))
  (acc : list DataFrame) :
  fold_left (fun extracted_tables table_data =>
               match table_data with
               | [] => extracted_tables
               | _ :: _ =>
                   let df := pd_DataFrame table_data in
                   let df := promote_header df in
                   extracted_tables ++ [df]
               end) found_tables acc
  = acc ++ map (fun table_data => promote_header (pd_DataFrame table_data))
             (filter (fun table_data => has_rows table_data = true) found_tables).
Proof.
  revert acc. induction found_tables as [|[|row table] found IH]; intros acc;
    cbn [fold_left].
  - rewrite app_nil_r. reflexivity.
  - apply IH.
  - rewrite IH, <- app_assoc. reflexivity.
Qed.

Lemma extract_html_tables_eq (found_tables : list (list (list string))) :
  extract_html_tables found_tables
  = map (fun table_data => promote_header (pd_DataFrame table_data))
      (filter (fun table_data => has_rows table_data = true) found_tables).
Proof. unfold extract_html_tables. apply extract_html_tables_from. Qed.

Lemma raise_for_status_ok (url : string) (response : Response) (st : St) :
  fetch_ok response -> raise_for_status url response st = (Ok tt, st).
Proof.
  intros [Hlt | Hge]; unfold raise_for_status.
  - destruct (Nat.leb_spec 400 (status_code response)); [lia |]. cbn [andb].
    destruct (Nat.leb_spec 500 (status_code response)); [lia |]. reflexivity.
  - destruct (Nat.ltb_spec (status_code response) 500); [lia |].
    rewrite andb_false_r.
    destruct (Nat.ltb_spec (status_code response) 600); [lia |].
    rewrite andb_false_r. reflexivity.
Qed.

(** The outcome of a page whose fetch did not fail. *)
Lemma open_source_extract_website_run (w : World) (url : string) (st : St) :
  fetch_ok (requests_get w url) ->
  open_source_extract_website w url st
  = (page_markdown w url (soup (requests_get w url)),
     {| trace := trace st ++ [HttpGet url]; tmp_count := tmp_count st |}).
Proof.
  intros Hok. unfold open_source_extract_website, page_markdown.
  unfold mbind at 1, M_bind at 1, emit at 1.
  unfold mbind at 1, M_bind at 1.
  rewrite (raise_for_status_ok _ _ _ Hok).
  unfold mbind at 1, M_bind at 1. rewrite image_urls_run.
  unfold mbind at 1, Res_bind at 1. unfold mbind at 2, Res_bind at 2.
  destruct (all_ok (resolve_src w url) _) as [image_urls|e]; [| reflexivity].
  cbn [app].
  unfold mbind at 1, M_bind at 1.
  rewrite (for_each_all_ok (resolve_href w url)).
  unfold mbind at 1, Res_bind at 1. unfold mbind at 2, Res_bind at 2.
  destruct (all_ok (resolve_href w url) _) as [link_urls|e]; [| reflexivity].
  cbn [app].
  unfold mbind at 1, M_bind at 1. rewrite page_tables_run.
  unfold mbind, Res_bind.
  destruct (all_ok (to_markdown w) _) as [rendered|e]; [| reflexivity].
  unfold mret, M_ret, page_layout, page_table_blocks, page_image_line, page_link_line.
  rewrite (fold_left_append (fun img_url => "![Image](" +:+ img_url +:+ ")" +:+ nl +:+ nl)).
  rewrite (fold_left_append (fun lnk => "- [" +:+ lnk +:+ "](" +:+ lnk +:+ ")" +:+ nl)).
  rewrite !append_assoc. reflexivity.
Qed.

Lemma open_source_extract_website_result (w : World) (url : string) (st : St) :
  fetch_ok (requests_get w url) ->
  result (open_source_extract_website w url) st
  = page_markdown w url (soup (requests_get w url)).
Proof.
  intros Hok. unfold result. rewrite (open_source_extract_website_run w url st Hok).
  reflexivity.
Qed.





(** *** [urljoin] on a relative reference *)







Lemma all_ok_Forall2 {A B : Type} (f : A -> Res B) (l : list A) (ys : list B) :
  all_ok f l = Ok ys -> Forall2 (fun x y => f x = Ok y) l ys.
Proof.
  revert ys. induction l as [|x l IH]; intros ys; cbn [all_ok].
  - intros [= <-]. constructor.
  - unfold mbind, Res_bind. destruct (f x) as [y|e] eqn:Hx; [| discriminate].
    destruct (all_ok f l) as [ys'|e]; [| discriminate].
    intros [= <-]. constructor; [exact Hx | apply IH; reflexivity].
Qed.






Lemma pad_row_full (row : list string) :
  pad_row (List.length row) row = map Some row.
Proof. unfold pad_row. rewrite Nat.sub_diag. cbn. apply app_nil_r. Qed.

Lemma pd_DataFrame_eq (table_data : list (list string)) :
  pd_DataFrame table_data
  = {| columns := map LInt (seq 0 (table_width table_data));
       df_rows := map (pad_row (table_width table_data)) table_data |}.
Proof. reflexivity. Qed.

(** C9.  The Tables section of a scraped page renders, in order, the
    tables that have at least one row.  For such a table the first row is
    the header of the rendered [DataFrame], the other rows being its data,
    if and only if the table has more than one row; the [DataFrame] of a
    single-row table keeps the default integer labels as header and the
    row as its only data row. *)
Theorem html_table_header_rule (w : World) (url : string) (st : St) :
  fetch_ok (requests_get w url) ->
  (forall md : string,
     result (open_source_extract_website w url) st = Ok md ->
     exists (before : string) (rendered : list string),
       Forall2 (fun df_table table_md => to_markdown w df_table = Ok table_md)
         (map (fun table_data => promote_header (pd_DataFrame table_data))
            (filter (fun table_data => has_rows table_data = true)
               (html_tables (soup (requests_get w url)))))
         rendered
       /\ md = before +:+ "## Tables" +:+ nl +:+ nl
                 +:+ cat (imap (fun k table_md =>
                                  "### Table " +:+ str_nat (1 + k) +:+ nl +:+ nl
                                    +:+ table_md +:+ nl +:+ nl)
                            rendered))
  /\ (forall table_data : list (list string),
        has_rows table_data = true ->
        (header_promoted table_data (promote_header (pd_DataFrame table_data))
         <-> 1 < List.length table_data))
  /\ (forall row : list string,
        promote_header (pd_DataFrame [row])
        = {| columns := map LInt (seq 0 (List.length row));
             df_rows := [map Some row] |}).
Proof.
  intros Hok. split.
  { intros md. unfold result.
    rewrite (open_source_extract_website_run w url st Hok). cbn [fst].
    unfold page_markdown, mbind, Res_bind.
    destruct (all_ok (resolve_src w url) _) as [image_urls|e]; [| discriminate].
    destruct (all_ok (resolve_href w url) _) as [link_urls|e]; [| discriminate].
    destruct (all_ok (to_markdown w) _) as [rendered|e] eqn:Hrendered; [| discriminate].
    intros [= <-].
    exists ("# Extracted Content from " +:+ url +:+ nl +:+ nl
              +:+ "## Text Content" +:+ nl +:+ nl
              +:+ join nl (paragraphs (soup (requests_get w url))) +:+ nl +:+ nl
              +:+ "## Images" +:+ nl +:+ nl
              +:+ cat (map page_image_line image_urls)
              +:+ "## Links" +:+ nl +:+ nl
              +:+ cat (map page_link_line link_urls)
              +:+ nl), rendered.
    split.
    - rewrite <- extract_html_tables_eq. exact (all_ok_Forall2 _ _ _ Hrendered).
    - unfold page_layout, page_table_blocks. rewrite !append_assoc. reflexivity. }
  split.
  - intros [|first [|second others]] Hrows; [discriminate | |].
    + split.
      * intros [_ Hdata]. discriminate Hdata.
      * cbn. lia.
    + split; [cbn; lia |]. intros _.
      rewrite pd_DataFrame_eq. unfold promote_header, header_promoted.
      cbn [df_rows columns map List.length Nat.ltb Nat.leb hd tl].
      split; reflexivity.
  - intros row. rewrite pd_DataFrame_eq. unfold promote_header.
    cbn [df_rows map List.length Nat.ltb Nat.leb table_width fold_right].
    rewrite Nat.max_0_r, pad_row_full. reflexivity.
Qed.

Lemma html_table_header_rule_witness :
  fetch_ok (requests_get sample_world "https://x.com/blog")
  /\ (exists (before : string) (rendered : list string),
        Forall2 (fun df_table table_md => to_markdown sample_world df_table = Ok table_md)
          [{| columns := [LCell (Some "A"); LCell (Some "B")];
              df_rows := [[Some "1"; Some "2"]] |};
           {| columns := [LInt 0]; df_rows := [[Some "only"]] |}]
          rendered
        /\ page_layout "https://x.com/blog" sample_soup
             ["https://cdn.example.com/a.png"; "https://x.com/b.png"]
             ["https://x.com/about"; "http://y.org/"] ["<table>"; "<table>"]
           = before +:+ "## Tables" +:+ nl +:+ nl
               +:+ cat (imap (fun k table_md =>
                                "### Table " +:+ str_nat (1 + k) +:+ nl +:+ nl
                                  +:+ table_md +:+ nl +:+ nl)
                          rendered))
  /\ (header_promoted sample_rows (promote_header (pd_DataFrame sample_rows))
      <-> 1 < List.length sample_rows)
  /\ promote_header (pd_DataFrame sample_rows)
     = {| columns := [LCell (Some "A"); LCell (Some "B")];
          df_rows := [[Some "1"; Some "2"]] |}.
Proof.
  assert (Hok : fetch_ok (requests_get sample_world "https://x.com/blog"))
    by (left; cbn; lia).
  destruct (html_table_header_rule sample_world "https://x.com/blog" st0 Hok)
    as (Hmd & Hrule & _).
  split; [exact Hok |].
  split; [apply Hmd; vm_compute; reflexivity |].
  split; [apply Hrule; reflexivity | reflexivity].
Defined.

(** ** The Adobe pipeline *)

Lemma figure_to_md_run (w : World) (figures_folder : string) (entry : string * bool)
  (md : string) (st : St) :
  exists st',
    figure_to_md w figures_folder entry md st
    = (Ok (md +:+ figure_line w figures_folder entry), st').
Proof.
  destruct entry as [fig_file isfile]. unfold figure_to_md, figure_line. cbn [fst snd].
  destruct isfile.
  - munfold. rewrite upload_file_to_s3_run, rehost_value.
    destruct (upload_value w (path_join figures_folder fig_file)) as [u|] eqn:Hu;
      cbn [url_truthy get].
    + rewrite (upload_value_truthy _ _ _ Hu). eexists. reflexivity.
    + eexists. reflexivity.
  - exists st. munfold. rewrite append_empty_r. reflexivity.
Qed.

Lemma figures_loop_run (w : World) (figures_folder : string)
  (entries : list (string * bool)) :
  forall (i0 : nat) (acc : string) (st : St),
  exists st',
    for_enumerate (fun _ => figure_to_md w figures_folder) i0 entries acc st
    = (Ok (acc +:+ cat (map (figure_line w figures_folder) entries)), st').
Proof.
  induction entries as [|entry entries IH]; intros i0 acc st.
  - exists st. cbn. rewrite append_empty_r. reflexivity.
  - cbn [for_enumerate]. unfold mbind at 1, M_bind at 1.
    destruct (figure_to_md_run w figures_folder entry acc st) as (st1 & ->).
    destruct (IH (S i0) (acc +:+ figure_line w figures_folder entry) st1)
      as (st' & ->).
    exists st'. cbn [map cat foldr]. rewrite append_assoc. reflexivity.
Qed.

Lemma adobe_zip_to_markdown_result (w : World) (zip_file_path : string) (zip : Bundle)
  (st : St) :
  result (adobe_zip_to_markdown w zip_file_path zip) st
  = adobe_markdown_of w zip_file_path zip.
Proof.
  unfold adobe_zip_to_markdown, adobe_markdown_of, result, figures_to_md, figures_part.
  munfold. cbn [trace tmp_count].
  destruct (structuredData zip) as [data|]; [| reflexivity].
  destruct (figures_folder zip) as [entries|].
  - match goal with |- context [for_enumerate _ ?i (sorted_by_name entries) ?a ?s] =>
      destruct (figures_loop_run w (path_join (replace zip_file_path ".zip" "") "figures")
                  (sorted_by_name entries) i a s) as (st' & ->) end.
    cbn [fst]. rewrite !append_assoc. reflexivity.
  - cbn [fst]. rewrite append_empty_r. reflexivity.
Qed.

Lemma enterprise_extract_pdf_result (w : World) (pdf_path : string) (st : St) :
  result (enterprise_extract_pdf w pdf_path) st = Ok (enterprise_pdf_value w pdf_path).
Proof.
  unfold enterprise_extract_pdf, enterprise_pdf_value, create_adobe_zip_path.
  unfold result at 1. unfold mbind at 1, M_bind at 1, try_ at 1.
  destruct (secrets w !! "ADOBE_CREDENTIALS_JSON") as [adobe_json|].
  2: { munfold. destruct (is_adobe_exception _); reflexivity. }
  unfold mbind at 1, M_bind at 1, of_res at 1.
  destruct (adobe_credentials w adobe_json) as [[client_id client_secret]|e].
  2: { munfold. destruct (is_adobe_exception _); reflexivity. }
  destruct (path_exists w pdf_path); cbn [negb].
  2: { munfold. reflexivity. }
  unfold mbind at 1, M_bind at 1, emit at 1.
  unfold mbind at 1, M_bind at 1, of_res at 1.
  destruct (adobe_extract w client_id client_secret pdf_path) as [zip|e].
  2: { munfold. destruct (is_adobe_exception _); reflexivity. }
  unfold mbind at 1, M_bind at 1.
  unfold mbind at 1, M_bind at 1, emit at 1, mret at 1, M_ret at 1.
  fold (zip_path_at (datetime_now w)).
  match goal with |- context [adobe_zip_to_markdown w ?p zip ?s] =>
    pose proof (adobe_zip_to_markdown_result w p zip s) as Hres;
    unfold result in Hres;
    destruct (adobe_zip_to_markdown w p zip s) as [r st'] end.
  cbn [fst] in Hres. subst r.
  destruct (adobe_markdown_of w (zip_path_at (datetime_now w)) zip) as [md|e].
  - reflexivity.
  - munfold. destruct (is_adobe_exception _); reflexivity.
Qed.

(** ** What a run adds of its own: the clock and the temp-file names *)

Lemma after_last_slash_join (x b cur : string) :
  after_last_slash (x +:+ "/" +:+ b) cur = basename b.
Proof.
  revert cur. induction x as [|c x IH]; intros cur.
  - reflexivity.
  - rewrite append_cons. cbn [after_last_slash].
    destruct (Ascii.eqb c "/"); apply IH.
Qed.

Lemma endswith_slash_split (a : string) :
  endswith a "/" = true -> exists a', a = a' +:+ "/".
Proof.
  induction a as [|c a IH]; [discriminate |].
  destruct a as [|d a].
  - unfold endswith. cbn. intros H.
    destruct (Ascii.eqb_spec c "/") as [->|]; [| discriminate].
    exists EmptyString. reflexivity.
  - intros H. destruct IH as (a' & Ha').
    + unfold endswith in *. cbn [String.length] in *.
      cbn [Nat.leb Nat.sub] in *. rewrite Nat.sub_0_r in *.
      cbn [String.substring] in H. exact H.
    + exists (String c a'). rewrite Ha'. reflexivity.
Qed.

Lemma basename_path_join (a b : string) : basename (path_join a b) = basename b.
Proof.
  unfold path_join. destruct (startswith b "/"); [reflexivity |].
  destruct a as [|c a]; [reflexivity |]. cbn [truthy negb orb].
  destruct (endswith (String c a) "/") eqn:Hend.
  - apply endswith_slash_split in Hend as (a' & ->).
    rewrite append_assoc. apply after_last_slash_join.
  - apply after_last_slash_join.
Qed.

Lemma insert_by_name_Forall {A : Type} (P : string * A -> Prop)
  (x : string * A) (l : list (string * A)) :
  P x -> Forall P l -> Forall P (insert_by_name x l).
Proof.
  intros Hx Hl. induction Hl as [|y l Hy Hl IH]; cbn [insert_by_name].
  - constructor; [exact Hx | constructor].
  - destruct (String.leb (fst x) (fst y)).
    + constructor; [exact Hx |]. constructor; assumption.
    + constructor; assumption.
Qed.

Lemma sorted_by_name_Forall {A : Type} (P : string * A -> Prop)
  (l : list (string * A)) :
  Forall P l -> Forall P (sorted_by_name l).
Proof.
  induction 1 as [|x l Hx _ IH]; [constructor |].
  apply insert_by_name_Forall; assumption.
Qed.

(** Each figure line is the same under two extraction directories when
    the entry is not a file, or when every upload succeeds. *)
Lemma figure_line_same_dir (w : World) (dir dir' : string) (entry : string * bool) :
  snd entry = false \/ uploads_always_succeed w ->
  figure_line w dir entry = figure_line w dir' entry.
Proof.
  unfold figure_line. intros [Hnot | [Hcfg Hok]].
  - rewrite Hnot. reflexivity.
  - destruct (snd entry); [| reflexivity].
    rewrite !rehost_value. unfold upload_value. rewrite Hcfg, !Hok.
    unfold s3_url_of. rewrite !basename_path_join. reflexivity.
Qed.

Lemma figures_part_same_dir (w : World) (dir dir' : string) (zip : Bundle) :
  no_figure_file zip \/ uploads_always_succeed w ->
  figures_part w dir (figures_folder zip) = figures_part w dir' (figures_folder zip).
Proof.
  unfold no_figure_file, figures_part. intros Hcond.
  destruct (figures_folder zip) as [entries|]; [| reflexivity].
  do 4 f_equal. apply map_ext_Forall.
  destruct Hcond as [Hnone | Hok].
  - apply sorted_by_name_Forall in Hnone.
    eapply Forall_impl; [exact Hnone |]. intros entry Hentry.
    apply figure_line_same_dir. left. exact Hentry.
  - apply Forall_forall. intros entry _. apply figure_line_same_dir. right. exact Hok.
Qed.

Lemma images_body_no_url (w : World) (n0 : nat) (doc : list (list FitzImage)) :
  (forall path, rehost w path = None) ->
  images_body w n0 doc
  = cat (map (fun '(p, i, _) => image_line p i None) (indexed_images doc)).
Proof.
  intros Hnone. unfold images_body. rewrite <- imap_const. f_equal.
  apply imap_ext. intros k [[p i] img] _. rewrite Hnone. reflexivity.
Qed.

(** The same bundle converted twice, one second apart, without object
    storage: the figure reference is the local path under the extraction
    directory, which carries the time of the run, so the two Markdown
    texts differ.  Likewise the same PDF converted twice with object
    storage: the image URL ends with the name of the temp file of the run. *)
Lemma markdown_differs_between_runs :
  adobe_extract (at_run sample_world_adobe_only sample_now sample_tmp)
    "id" "secret" "/data/doc.pdf"
  = adobe_extract (at_run sample_world_adobe_only sample_later sample_tmp)
      "id" "secret" "/data/doc.pdf"
  /\ result (enterprise_extract_pdf
               (at_run sample_world_adobe_only sample_now sample_tmp) "/data/doc.pdf") st0
     = Ok (Some ("# Extracted PDF Data (Enterprise)" +:+ nl +:+ nl
                   +:+ "## Table Element" +:+ nl
                   +:+ "| A | B |" +:+ nl +:+ "| - | - |" +:+ nl +:+ "| 1 | 2 |" +:+ nl +:+ nl
                   +:+ "## Images" +:+ nl +:+ nl
                   +:+ "![Figure](temp_adobe_extractions/extraction_2025-02-03T10-20-30/figures/fig0.png)"
                   +:+ nl +:+ nl))
  /\ result (enterprise_extract_pdf
               (at_run sample_world_adobe_only sample_later sample_tmp) "/data/doc.pdf") st0
     = Ok (Some ("# Extracted PDF Data (Enterprise)" +:+ nl +:+ nl
                   +:+ "## Table Element" +:+ nl
                   +:+ "| A | B |" +:+ nl +:+ "| - | - |" +:+ nl +:+ "| 1 | 2 |" +:+ nl +:+ nl
                   +:+ "## Images" +:+ nl +:+ nl
                   +:+ "![Figure](temp_adobe_extractions/extraction_2025-02-03T10-20-31/figures/fig0.png)"
                   +:+ nl +:+ nl))
  /\ result (enterprise_extract_pdf
               (at_run sample_world_adobe_only sample_now sample_tmp) "/data/doc.pdf") st0
     <> result (enterprise_extract_pdf
                  (at_run sample_world_adobe_only sample_later sample_tmp) "/data/doc.pdf") st0
  /\ result (open_source_extract_pdf
               (at_run sample_world_configured sample_now sample_tmp) "/data/doc.pdf") st0
     <> result (open_source_extract_pdf
                  (at_run sample_world_configured sample_now sample_tmp') "/data/doc.pdf") st0.
Proof.
  split; [reflexivity |].
  split; [vm_compute; reflexivity |].
  split; [vm_compute; reflexivity |].
  split; intros Heq; vm_compute in Heq; discriminate Heq.
Qed.

(** C5, as the program has it.  The Markdown of the two page assemblers
    depends neither on the clock nor on the temp-file names of the run.
    That of the local PDF assembler does not depend on the clock, and does
    not depend on the temp-file names when re-hosting returns no URL (as
    when object storage is not configured) or no page has an image.  That
    of the Adobe assembler does not depend on the temp-file names, and
    does not depend on the clock when the bundle has no figure file or
    object storage accepts every upload. *)
Theorem markdown_run_independence (w : World) (now now' : DateTime)
  (tmp tmp' : nat -> string) (st : St) :
  (forall url,
     result (open_source_extract_website (at_run w now tmp) url) st
     = result (open_source_extract_website (at_run w now' tmp') url) st)
  /\ (forall url,
        result (enterprise_extract_website (at_run w now tmp) url) st
        = result (enterprise_extract_website (at_run w now' tmp') url) st)
  /\ (forall pdf_path,
        result (open_source_extract_pdf (at_run w now tmp) pdf_path) st
        = result (open_source_extract_pdf (at_run w now' tmp) pdf_path) st)
  /\ (forall pdf_path,
        (forall path, rehost w path = None)
        \/ Forall (fun page => page = []) (fitz_pages (open_pdf w pdf_path)) ->
        result (open_source_extract_pdf (at_run w now tmp) pdf_path) st
        = result (open_source_extract_pdf (at_run w now' tmp') pdf_path) st)
  /\ (forall pdf_path,
        result (enterprise_extract_pdf (at_run w now tmp) pdf_path) st
        = result (enterprise_extract_pdf (at_run w now tmp') pdf_path) st)
  /\ (forall pdf_path,
        (forall client_id client_secret zip,
           adobe_extract w client_id client_secret pdf_path = Ok zip ->
           no_figure_file zip)
        \/ uploads_always_succeed w ->
        result (enterprise_extract_pdf (at_run w now tmp) pdf_path) st
        = result (enterprise_extract_pdf (at_run w now' tmp') pdf_path) st).
Proof.
  split; [reflexivity |].
  split; [reflexivity |].
  split; [reflexivity |].
  split.
  { intros pdf_path Hcond.
    destruct (open_source_extract_pdf_run (at_run w now tmp) pdf_path st)
      as (st1 & Hrun1 & _).
    destruct (open_source_extract_pdf_run (at_run w now' tmp') pdf_path st)
      as (st2 & Hrun2 & _).
    unfold result. rewrite Hrun1, Hrun2. cbn [fst open_pdf at_run].
    assert (Himg : images_body (at_run w now tmp) (tmp_count st)
                     (fitz_pages (open_pdf w pdf_path))
                   = images_body (at_run w now' tmp') (tmp_count st)
                       (fitz_pages (open_pdf w pdf_path))).
    { destruct Hcond as [Hnone | Hempty].
      - rewrite !images_body_no_url by exact Hnone. reflexivity.
      - unfold images_body, indexed_images.
        rewrite (indexed_from_no_image _ 0 Hempty). reflexivity. }
    rewrite Himg. reflexivity. }
  split; [reflexivity |].
  intros pdf_path Hcond.
  rewrite !enterprise_extract_pdf_result. apply (f_equal (@Ok (option string))).
  unfold enterprise_pdf_value. cbn [secrets adobe_credentials path_exists
                                     adobe_extract datetime_now at_run].
  destruct (secrets w !! "ADOBE_CREDENTIALS_JSON") as [adobe_json|]; [| reflexivity].
  destruct (adobe_credentials w adobe_json) as [[client_id client_secret]|e];
    [| reflexivity].
  destruct (path_exists w pdf_path); cbn [negb]; [| reflexivity].
  destruct (adobe_extract w client_id client_secret pdf_path) as [zip|e] eqn:Hzip;
    [| reflexivity].
  unfold adobe_markdown_of.
  destruct (structuredData zip) as [data|]; [| reflexivity].
  assert (Hfig : figures_part (at_run w now tmp)
                   (replace (zip_path_at now) ".zip" "") (figures_folder zip)
                 = figures_part (at_run w now' tmp')
                     (replace (zip_path_at now') ".zip" "") (figures_folder zip)).
  { change (figures_part w (replace (zip_path_at now) ".zip" "") (figures_folder zip)
            = figures_part w (replace (zip_path_at now') ".zip" "") (figures_folder zip)).
    apply figures_part_same_dir.
    destruct Hcond as [Hnone | Hok]; [left | right; exact Hok].
    exact (Hnone _ _ _ Hzip). }
  rewrite Hfig. reflexivity.
Qed.

Lemma markdown_run_independence_witness :
  result (open_source_extract_pdf (at_run sample_world sample_now sample_tmp)
            "/data/doc.pdf") st0
  = result (open_source_extract_pdf (at_run sample_world sample_later sample_tmp')
              "/data/doc.pdf") st0.
Proof.
  apply (markdown_run_independence sample_world sample_now sample_later
           sample_tmp sample_tmp' st0).
  left. intros path. apply rehost_not_configured. reflexivity.
Defined.

(** ** Sample runs *)

(** The local PDF assembler without object storage: one warning for the
    image of page 1, and the trace of the run. *)
Example open_source_extract_pdf_sample :
  open_source_extract_pdf sample_world "/data/doc.pdf" st0
  = (Ok ("# Extracted Content from doc.pdf" +:+ nl
           +:+ nl +:+ "## Extracted Images" +:+ nl
           +:+ nl +:+ "**[Warning: Failed to upload image (page 1, index 1) to S3]**" +:+ nl
           +:+ nl +:+ "## Extracted Text" +:+ nl
           +:+ nl +:+ "### Page 1" +:+ nl +:+ "```" +:+ nl +:+ "Hello" +:+ nl +:+ "```" +:+ nl
           +:+ nl +:+ "### Page 2" +:+ nl +:+ "```" +:+ nl +:+ nl +:+ "```" +:+ nl
           +:+ nl +:+ "## Extracted Tables" +:+ nl),
     {| trace := [TempFileWritten "/tmp/tmp0.png";
                  Log LWarning "Skipping S3 upload (missing credentials or bucket).";
                  OsRemove "/tmp/tmp0.png";
                  ReadPdf "/data/doc.pdf"];
        tmp_count := 1 |}).
Proof. vm_compute. reflexivity. Qed.

(** The same with object storage: the image is uploaded once and
    referenced by its URL. *)
Example open_source_extract_pdf_sample_s3 :
  result (extract_images_to_md sample_world_configured "/data/doc.pdf") st0
  = Ok (nl +:+ "## Extracted Images" +:+ nl
          +:+ "![Image page 1 - 1](https://bucket.s3.amazonaws.com/tmp0.png)" +:+ nl)
  /\ uploads (events (extract_images_to_md sample_world_configured "/data/doc.pdf") st0)
     = [S3UploadFile "/tmp/tmp0.png" "bucket" "tmp0.png"].
Proof. split; vm_compute; reflexivity. Qed.

(** The Adobe assembler with object storage: the table element, then the
    figure by its URL. *)
Example enterprise_extract_pdf_sample :
  result (enterprise_extract_pdf sample_world_configured "/data/doc.pdf") st0
  = Ok (Some ("# Extracted PDF Data (Enterprise)" +:+ nl +:+ nl
                +:+ "## Table Element" +:+ nl
                +:+ "| A | B |" +:+ nl +:+ "| - | - |" +:+ nl +:+ "| 1 | 2 |" +:+ nl +:+ nl
                +:+ "## Images" +:+ nl +:+ nl
                +:+ "![Figure](https://bucket.s3.amazonaws.com/fig0.png)" +:+ nl +:+ nl)).
Proof. vm_compute. reflexivity. Qed.

(** The Diffbot assembler on an answer with one object. *)
Example enterprise_extract_website_sample :
  result (enterprise_extract_website sample_world_configured "https://x.com/blog") st0
  = Ok (Some ("# T" +:+ nl +:+ nl +:+ "body" +:+ nl +:+ nl
                +:+ "## Tables" +:+ nl +:+ nl
                +:+ "| A | B |" +:+ nl +:+ "| - | - |" +:+ nl +:+ "| 1 | 2 |" +:+ nl +:+ nl)).
Proof. vm_compute. reflexivity. Qed.

(** Without its secrets the Adobe assembler gives nothing. *)
Example enterprise_extract_pdf_no_credentials :
  result (enterprise_extract_pdf sample_world "/data/doc.pdf") st0 = Ok None.
Proof. vm_compute. reflexivity. Qed.

(** * Further properties of the program *)

(** ** Blocks appended one after the other *)

Lemma fold_left_blocks {A : Type} (f : A -> string -> string) (l : list A)
  (md : string) :
  (forall x md', f x md' = md' +:+ f x EmptyString) ->
  fold_left (fun md' x => f x md') l md = md +:+ cat (map (fun x => f x EmptyString) l).
Proof.
  intros Hf. revert md. induction l as [|x l IH]; intros md; cbn [fold_left map cat foldr].
  - rewrite append_empty_r. reflexivity.
  - rewrite IH, (Hf x md), append_assoc. reflexivity.
Qed.

Lemma truthy_app_l (a b : string) : truthy a = true -> truthy (a +:+ b) = true.
Proof. destruct a; [discriminate | reflexivity]. Qed.

Lemma truthy_app_r (a b : string) : truthy b = true -> truthy (a +:+ b) = true.
Proof. destruct a; [intros H; exact H | reflexivity]. Qed.

(** ** The Diffbot pipeline, further *)

Lemma diffbot_table_to_md_app (table : DTable) (md : string) :
  diffbot_table_to_md table md = md +:+ diffbot_table_to_md table EmptyString.
Proof.
  unfold diffbot_table_to_md.
  destruct (get (rows table) []) as [|row0 rest].
  - rewrite append_empty_r. reflexivity.
  - rewrite !(fold_left_append pipe_row), !append_assoc. reflexivity.
Qed.

Lemma diffbot_object_to_md_app (obj : DObject) (md : string) :
  diffbot_object_to_md obj md = md +:+ object_block obj.
Proof.
  unfold object_block, diffbot_object_to_md.
  destruct (get (images obj) []) as [|img imgs'];
    destruct (get (tables obj) []) as [|table tables'].
  - rewrite !append_assoc. reflexivity.
  - rewrite !(fold_left_blocks diffbot_table_to_md) by apply diffbot_table_to_md_app.
    rewrite !append_assoc. reflexivity.
  - rewrite !(fold_left_append
                (fun img => "![" +:+ get (caption img) "Image" +:+ "]("
                              +:+ get (img_url img) "" +:+ ")" +:+ nl +:+ nl)).
    rewrite !append_assoc. reflexivity.
  - rewrite !(fold_left_blocks diffbot_table_to_md) by apply diffbot_table_to_md_app.
    rewrite !(fold_left_append
                (fun img => "![" +:+ get (caption img) "Image" +:+ "]("
                              +:+ get (img_url img) "" +:+ ")" +:+ nl +:+ nl)).
    rewrite !append_assoc. reflexivity.
Qed.

Lemma object_block_truthy (obj : DObject) : truthy (object_block obj) = true.
Proof.
  unfold object_block, diffbot_object_to_md.
  destruct (get (images obj) []) as [|img imgs'];
    destruct (get (tables obj) []) as [|table tables'].
  - reflexivity.
  - rewrite (fold_left_blocks diffbot_table_to_md) by apply diffbot_table_to_md_app.
    apply truthy_app_l. reflexivity.
  - rewrite (fold_left_append
               (fun img => "![" +:+ get (caption img) "Image" +:+ "]("
                             +:+ get (img_url img) "" +:+ ")" +:+ nl +:+ nl)).
    apply truthy_app_l. reflexivity.
  - rewrite (fold_left_blocks diffbot_table_to_md) by apply diffbot_table_to_md_app.
    apply truthy_app_l.
    rewrite (fold_left_append
               (fun img => "![" +:+ get (caption img) "Image" +:+ "]("
                             +:+ get (img_url img) "" +:+ ")" +:+ nl +:+ nl)).
    apply truthy_app_l. reflexivity.
Qed.

(** The run of [enterprise_extract_website], in its three cases. *)
Lemma enterprise_extract_website_run (w : World) (url : string) (st : St) :
  enterprise_extract_website w url st
  = if negb (truthy (secrets_get w "DIFFBOT_API_TOKEN" "")) then
      (Ok None,
       {| trace := trace st
                   ++ [Log LWarning
                         "Diffbot token not set in st.secrets['DIFFBOT_API_TOKEN']."];
          tmp_count := tmp_count st |})
    else if negb (api_status_code (diffbot_get w (diffbot_endpoint w url)) =? 200)%nat then
      (Ok None,
       {| trace := (trace st ++ [HttpGet (diffbot_endpoint w url)])
                   ++ [Log LError
                         ("Diffbot request failed: "
                            +:+ str_nat (api_status_code
                                           (diffbot_get w (diffbot_endpoint w url))))];
          tmp_count := tmp_count st |})
    else
      (Ok (match diffbot_objects w url with
           | [] => None
           | _ :: _ => Some (cat (map object_block (diffbot_objects w url)))
           end),
       {| trace := trace st ++ [HttpGet (diffbot_endpoint w url)];
          tmp_count := tmp_count st |}).
Proof.
  unfold enterprise_extract_website. fold (diffbot_endpoint w url).
  destruct (truthy (secrets_get w "DIFFBOT_API_TOKEN" "")); cbn [negb]; [| reflexivity].
  munfold. cbn [trace tmp_count].
  destruct (api_status_code (diffbot_get w (diffbot_endpoint w url)) =? 200)%nat;
    cbn [negb]; [| reflexivity].
  fold (diffbot_objects w url).
  rewrite (fold_left_blocks diffbot_object_to_md) by apply diffbot_object_to_md_app.
  change (map (fun x => diffbot_object_to_md x EmptyString)) with (map object_block).
  destruct (diffbot_objects w url) as [|obj objs]; [reflexivity |].
  cbn [map cat foldr]. change (EmptyString +:+ ?x) with x.
  rewrite (truthy_app_l _ _ (object_block_truthy obj)). reflexivity.
Qed.

(** X1.  Once Diffbot has answered, [enterprise_extract_website] returns,
    and it returns [None] exactly when the Diffbot token is missing or
    empty, or the answer's status is not 200, or the answer holds no
    object. *)
Theorem enterprise_extract_website_none_iff (w : World) (url : string) (st : St) :
  (exists r, result (enterprise_extract_website w url) st = Ok r)
  /\ (result (enterprise_extract_website w url) st = Ok None
      <-> secrets_get w "DIFFBOT_API_TOKEN" "" = EmptyString
          \/ api_status_code (diffbot_get w (diffbot_endpoint w url)) <> 200
          \/ diffbot_objects w url = []).
Proof.
  unfold result. rewrite enterprise_extract_website_run.
  destruct (secrets_get w "DIFFBOT_API_TOKEN" "") as [|c token] eqn:Htoken; cbn [truthy negb fst].
  { split; [eexists; reflexivity |]. split; [intros _; left; reflexivity | reflexivity]. }
  destruct (Nat.eqb_spec (api_status_code (diffbot_get w (diffbot_endpoint w url))) 200)
    as [Hok | Hko]; cbn [negb fst].
  2: { split; [eexists; reflexivity |].
       split; [intros _; right; left; exact Hko | reflexivity]. }
  split; [eexists; reflexivity |].
  destruct (diffbot_objects w url) as [|obj objs].
  - split; [intros _; right; right; reflexivity | reflexivity].
  - split; [discriminate |].
    intros [Hempty | [Hstatus | Hnil]]; [discriminate | contradiction | discriminate].
Qed.

(** X2.  When the token is set, the status is 200 and the answer holds
    objects, the Markdown returned is the concatenation, in the order of
    the answer, of what each object gives on its own: no object's text
    depends on the objects before it. *)
Theorem enterprise_extract_website_blocks (w : World) (url : string) (st : St) :
  secrets_get w "DIFFBOT_API_TOKEN" "" <> EmptyString ->
  api_status_code (diffbot_get w (diffbot_endpoint w url)) = 200 ->
  diffbot_objects w url <> [] ->
  result (enterprise_extract_website w url) st
  = Ok (Some (cat (map (fun obj => diffbot_object_to_md obj EmptyString)
                     (diffbot_objects w url)))).
Proof.
  intros Htoken Hstatus Hobjs. unfold result.
  rewrite enterprise_extract_website_run.
  apply truthy_true_iff in Htoken. rewrite Htoken, Hstatus. cbn [negb Nat.eqb fst].
  destruct (diffbot_objects w url) as [|obj objs]; [contradiction | reflexivity].
Qed.

Lemma enterprise_extract_website_blocks_witness :
  result (enterprise_extract_website sample_world_configured "https://x.com/blog") st0
  = Ok (Some (cat (map (fun obj => diffbot_object_to_md obj EmptyString)
                     (diffbot_objects sample_world_configured "https://x.com/blog")))).
Proof.
  apply (enterprise_extract_website_blocks sample_world_configured
           "https://x.com/blog" st0).
  - vm_compute. discriminate.
  - vm_compute. reflexivity.
  - vm_compute. discriminate.
Defined.

(** X3.  [enterprise_extract_website] sends no request when the Diffbot
    token is missing or empty, and exactly one, to the article endpoint
    with the token and the URL as given, otherwise. *)
Theorem enterprise_extract_website_requests (w : World) (url : string) (st : St) :
  filter (fun ev => is_http_get ev = true)
    (events (enterprise_extract_website w url) st)
  = filter (fun ev => is_http_get ev = true) (trace st)
    ++ (if truthy (secrets_get w "DIFFBOT_API_TOKEN" "")
        then [HttpGet ("https://api.diffbot.com/v3/article?token="
                         +:+ secrets_get w "DIFFBOT_API_TOKEN" "" +:+ "&url=" +:+ url)]
        else []).
Proof.
  unfold events. rewrite enterprise_extract_website_run.
  fold (diffbot_endpoint w url).
  destruct (truthy (secrets_get w "DIFFBOT_API_TOKEN" "")); cbn [negb].
  - destruct (negb (api_status_code (diffbot_get w (diffbot_endpoint w url)) =? 200)%nat);
      cbn [snd trace]; rewrite !filter_app; cbn; rewrite ?app_nil_r; reflexivity.
  - cbn [snd trace]. rewrite filter_app. reflexivity.
Qed.

(** ** The scraped-page pipeline, further *)

Lemma raise_for_status_error (url : string) (response : Response) (st : St) :
  400 <= status_code response < 600 ->
  exists msg, raise_for_status url response st = (Raise (mkExn HTTPError msg), st).
Proof.
  intros [Hlo Hhi]. unfold raise_for_status.
  destruct (Nat.leb_spec 400 (status_code response)); [| lia]. cbn [andb].
  destruct (Nat.ltb_spec (status_code response) 500).
  - eexists. reflexivity.
  - destruct (Nat.leb_spec 500 (status_code response)); [| lia]. cbn [andb].
    destruct (Nat.ltb_spec (status_code response) 600); [| lia].
    eexists. reflexivity.
Qed.

Lemma all_ok_returns {A B : Type} (f : A -> Res B) (l : list A) :
  (exists ys, all_ok f l = Ok ys) <-> Forall (fun x => exists y, f x = Ok y) l.
Proof.
  induction l as [|x l IH]; cbn [all_ok].
  - split; [constructor | intros _; eexists; reflexivity].
  - unfold mbind, Res_bind. split.
    + intros (ys & H). destruct (f x) as [y|e] eqn:Hx; [| discriminate].
      destruct (all_ok f l) as [ys'|e]; [| discriminate].
      constructor; [exists y; exact Hx | apply IH; eexists; reflexivity].
    + intros H. apply Forall_cons in H as [(y & ->) Hl].
      apply IH in Hl as (ys & ->). eexists. reflexivity.
Qed.

Lemma all_ok_raises {A B : Type} (f : A -> Res B) (l : list A) (e : Exn) :
  all_ok f l = Raise e -> exists x, In x l /\ f x = Raise e.
Proof.
  induction l as [|x l IH]; cbn [all_ok]; [discriminate |].
  unfold mbind, Res_bind. destruct (f x) as [y|e1] eqn:Hx.
  - destruct (all_ok f l) as [ys|e2]; [discriminate |].
    intros [= ->]. destruct (IH eq_refl) as (x' & Hin & Hx').
    exists x'. split; [right; exact Hin | exact Hx'].
  - intros [= ->]. exists x. split; [left; reflexivity | exact Hx].
Qed.

(** X4.  [open_source_extract_website] sends exactly one request, to the
    URL as given, whatever happens next.  Once it is answered, a status in
    400-599 makes the function raise an [HTTPError].  For any other status
    it returns its Markdown exactly when [urljoin] accepts every [src] and
    [href] handed to it and [to_markdown] renders every table; when it
    raises, the exception is that of one of these calls. *)
Theorem open_source_extract_website_status (w : World) (url : string) (st : St) :
  events (open_source_extract_website w url) st = trace st ++ [HttpGet url]
  /\ (400 <= status_code (requests_get w url) < 600 ->
      exists msg,
        result (open_source_extract_website w url) st = Raise (mkExn HTTPError msg))
  /\ (fetch_ok (requests_get w url) ->
      ((exists md, result (open_source_extract_website w url) st = Ok md)
       <-> Forall (fun src => exists u, resolve_src w url src = Ok u)
             (srcs_of (imgs (soup (requests_get w url))))
           /\ Forall (fun href => exists u, resolve_href w url href = Ok u)
                (anchors (soup (requests_get w url)))
           /\ Forall (fun df_table => exists table_md, to_markdown w df_table = Ok table_md)
                (extract_html_tables (html_tables (soup (requests_get w url)))))
      /\ (forall e,
            result (open_source_extract_website w url) st = Raise e ->
            (exists src, In src (srcs_of (imgs (soup (requests_get w url))))
                         /\ resolve_src w url src = Raise e)
            \/ (exists href, In href (anchors (soup (requests_get w url)))
                             /\ resolve_href w url href = Raise e)
            \/ (exists df_table,
                  In df_table (extract_html_tables (html_tables (soup (requests_get w url))))
                  /\ to_markdown w df_table = Raise e))).
Proof.
  split; [| split].
  - destruct (Nat.lt_ge_cases (status_code (requests_get w url)) 400) as [Hlt | Hge].
    + unfold events. rewrite open_source_extract_website_run by (left; exact Hlt).
      reflexivity.
    + destruct (Nat.lt_ge_cases (status_code (requests_get w url)) 600) as [Hlt | Hge'].
      * unfold events, open_source_extract_website.
        unfold mbind at 1, M_bind at 1, emit at 1. unfold mbind at 1, M_bind at 1.
        destruct (raise_for_status_error url (requests_get w url)
                    {| trace := trace st ++ [HttpGet url]; tmp_count := tmp_count st |}
                    (conj Hge Hlt)) as (msg & ->).
        reflexivity.
      * unfold events. rewrite open_source_extract_website_run by (right; exact Hge').
        reflexivity.
  - intros Herr. unfold result, open_source_extract_website.
    unfold mbind at 1, M_bind at 1, emit at 1. unfold mbind at 1, M_bind at 1.
    destruct (raise_for_status_error url (requests_get w url)
                {| trace := trace st ++ [HttpGet url]; tmp_count := tmp_count st |} Herr)
      as (msg & ->).
    exists msg. reflexivity.
  - intros Hok. unfold result. rewrite (open_source_extract_website_run w url st Hok).
    cbn [fst]. unfold page_markdown, mbind, Res_bind.
    rewrite <- !all_ok_returns. split; [split |].
    + intros (md & Hmd).
      destruct (all_ok (resolve_src w url) _) as [image_urls|e]; [| discriminate].
      destruct (all_ok (resolve_href w url) _) as [link_urls|e]; [| discriminate].
      destruct (all_ok (to_markdown w) _) as [rendered|e]; [| discriminate].
      repeat split; eexists; reflexivity.
    + intros ((image_urls & ->) & (link_urls & ->) & (rendered & ->)).
      eexists. reflexivity.
    + intros e.
      destruct (all_ok (resolve_src w url) _) as [image_urls|e1] eqn:Hsrc.
      2: { intros [= ->]. left. apply all_ok_raises, Hsrc. }
      destruct (all_ok (resolve_href w url) _) as [link_urls|e1] eqn:Hhref.
      2: { intros [= ->]. right. left. apply all_ok_raises, Hhref. }
      destruct (all_ok (to_markdown w) _) as [rendered|e1] eqn:Hrendered.
      * discriminate.
      * intros [= ->]. right. right. apply all_ok_raises, Hrendered.
Qed.

Lemma open_source_extract_website_status_witness :
  (exists msg,
     result (open_source_extract_website sample_world_not_found "https://x.com/gone") st0
     = Raise (mkExn HTTPError msg))
  /\ (exists md,
        result (open_source_extract_website sample_world "https://x.com/blog") st0 = Ok md)
  /\ ((exists src,
         In src (srcs_of (imgs (soup (requests_get sample_world_bad_href
                                        "https://x.com/blog"))))
         /\ resolve_src sample_world_bad_href "https://x.com/blog" src
            = Raise (mkExn ValueError "Invalid IPv6 URL"))
      \/ (exists href,
            In href (anchors (soup (requests_get sample_world_bad_href
                                      "https://x.com/blog")))
            /\ resolve_href sample_world_bad_href "https://x.com/blog" href
               = Raise (mkExn ValueError "Invalid IPv6 URL"))
      \/ (exists df_table,
            In df_table
              (extract_html_tables
                 (html_tables (soup (requests_get sample_world_bad_href
                                       "https://x.com/blog"))))
            /\ to_markdown sample_world_bad_href df_table
               = Raise (mkExn ValueError "Invalid IPv6 URL"))).
Proof.
  split; [| split].
  - apply (open_source_extract_website_status sample_world_not_found "https://x.com/gone"
             st0).
    cbn. lia.
  - apply (open_source_extract_website_status sample_world "https://x.com/blog" st0).
    + left. cbn. lia.
    + repeat split; repeat constructor; eexists; vm_compute; reflexivity.
  - apply (open_source_extract_website_status sample_world_bad_href "https://x.com/blog"
             st0).
    + left. cbn. lia.
    + vm_compute. reflexivity.
Defined.

Lemma length_pad_row (width : nat) (row : list string) :
  List.length row <= width -> List.length (pad_row width row) = width.
Proof.
  intros Hle. unfold pad_row. rewrite length_app, length_map, repeat_length. lia.
Qed.

Lemma row_le_table_width (table_data : list (list string)) (row : list string) :
  In row table_data -> List.length row <= table_width table_data.
Proof.
  induction table_data as [|r table_data IH]; [intros [] |].
  intros [-> | Hin]; cbn [table_width fold_right].
  - apply Nat.le_max_l.
  - specialize (IH Hin). unfold table_width in IH. lia.
Qed.

Lemma pd_DataFrame_rows_width (table_data : list (list string)) :
  Forall (fun row => List.length row = table_width table_data)
    (df_rows (pd_DataFrame table_data)).
Proof.
  rewrite pd_DataFrame_eq. cbn [df_rows].
  apply Forall_forall. intros padded Hin.
  apply list_elem_of_In, in_map_iff in Hin as (row & <- & Hrow).
  apply length_pad_row, row_le_table_width, Hrow.
Qed.

Lemma promote_header_rectangular (table_data : list (list string)) :
  Forall (fun row => List.length row
                     = List.length (columns (promote_header (pd_DataFrame table_data))))
    (df_rows (promote_header (pd_DataFrame table_data))).
Proof.
  pose proof (pd_DataFrame_rows_width table_data) as Hrows.
  unfold promote_header.
  destruct (1 <? List.length (df_rows (pd_DataFrame table_data)))%nat eqn:Hlen;
    cbn [columns df_rows].
  - destruct (df_rows (pd_DataFrame table_data)) as [|first others]; [discriminate |].
    cbn [hd tl]. apply Forall_cons in Hrows as [Hfirst Hothers].
    rewrite length_map, Hfirst. exact Hothers.
  - rewrite pd_DataFrame_eq in *. cbn [columns df_rows] in *.
    rewrite length_map, length_seq. exact Hrows.
Qed.

(** X5.  Every [DataFrame] the page pipeline hands to [to_markdown] is
    rectangular, however ragged the HTML table was: each of its rows has
    exactly as many cells as the [DataFrame] has columns. *)
Theorem html_dataframes_are_rectangular (found_tables : list (list (list string))) :
  Forall (fun df =>
            Forall (fun row => List.length row = List.length (columns df)) (df_rows df))
    (extract_html_tables found_tables).
Proof.
  rewrite extract_html_tables_eq. apply Forall_forall. intros df Hdf.
  apply list_elem_of_In, in_map_iff in Hdf as (table_data & <- & _).
  apply promote_header_rectangular.
Qed.

Lemma srcs_of_none (tags : list (option string)) :
  Forall (fun tag => tag = None) tags -> srcs_of tags = [].
Proof. induction 1 as [|tag tags -> _ IH]; [reflexivity | exact IH]. Qed.

Lemma extract_html_tables_no_rows (found_tables : list (list (list string))) :
  Forall (fun table_data => table_data = []) found_tables ->
  extract_html_tables found_tables = [].
Proof.
  intros Hempty. rewrite extract_html_tables_eq.
  induction Hempty as [|table_data found -> _ IH]; [reflexivity |].
  rewrite filter_cons. cbn [has_rows]. rewrite decide_False by discriminate. exact IH.
Qed.

(** X6.  A page that is fetched but holds no paragraph, no image with a
    [src], no link and no table with a row still gives the whole
    skeleton: the title and the four section headings, nothing under
    them. *)
Theorem empty_page_gives_the_skeleton (w : World) (url : string) (st : St) :
  fetch_ok (requests_get w url) ->
  paragraphs (soup (requests_get w url)) = [] ->
  Forall (fun tag => tag = None) (imgs (soup (requests_get w url))) ->
  anchors (soup (requests_get w url)) = [] ->
  Forall (fun table_data => table_data = []) (html_tables (soup (requests_get w url))) ->
  result (open_source_extract_website w url) st
  = Ok ("# Extracted Content from " +:+ url +:+ nl +:+ nl
          +:+ "## Text Content" +:+ nl +:+ nl +:+ nl +:+ nl
          +:+ "## Images" +:+ nl +:+ nl
          +:+ "## Links" +:+ nl +:+ nl +:+ nl
          +:+ "## Tables" +:+ nl +:+ nl).
Proof.
  intros Hok Hpar Himgs Hlinks Htables.
  rewrite (open_source_extract_website_result w url st Hok).
  unfold page_markdown, page_layout.
  rewrite Hpar, (srcs_of_none _ Himgs), Hlinks, (extract_html_tables_no_rows _ Htables).
  reflexivity.
Qed.

Lemma empty_page_gives_the_skeleton_witness :
  result (open_source_extract_website sample_world_empty_page "https://x.com/") st0
  = Ok ("# Extracted Content from https://x.com/" +:+ nl +:+ nl
          +:+ "## Text Content" +:+ nl +:+ nl +:+ nl +:+ nl
          +:+ "## Images" +:+ nl +:+ nl
          +:+ "## Links" +:+ nl +:+ nl +:+ nl
          +:+ "## Tables" +:+ nl +:+ nl).
Proof.
  apply (empty_page_gives_the_skeleton sample_world_empty_page "https://x.com/" st0).
  - left. cbn. lia.
  - reflexivity.
  - constructor.
  - reflexivity.
  - constructor.
Defined.

(** ** The local PDF pipeline, further *)

Lemma St_eta (st : St) : {| trace := trace st; tmp_count := tmp_count st |} = st.
Proof. destruct st. reflexivity. Qed.

(** The state after the inner loop. *)
Lemma page_images_state (w : World) (page_num : nat) (imgs : list FitzImage) :
  forall (i0 : nat) (acc : string) (st : St),
  snd (for_enumerate (image_to_md w page_num) i0 imgs acc st)
  = {| trace := trace st
                ++ concat (imap (fun k img => image_events w (tmp_count st + k) img) imgs);
       tmp_count := tmp_count st + List.length imgs |}.
Proof.
  induction imgs as [|img imgs IH]; intros i0 acc st.
  - cbn. rewrite app_nil_r, Nat.add_0_r. symmetry. apply St_eta.
  - cbn [for_enumerate]. unfold mbind at 1, M_bind at 1.
    rewrite image_to_md_run, IH. cbn [trace tmp_count].
    rewrite imap_cons. cbn [concat List.length].
    replace (imap ((fun k img0 => image_events w (tmp_count st + k) img0) ∘ S) imgs)
      with (imap (fun k img0 => image_events w (S (tmp_count st) + k) img0) imgs).
    + unfold image_events at 2.
      rewrite Nat.add_0_r, <- !app_assoc. f_equal. lia.
    + apply imap_ext. intros k y _. cbn.
      replace (tmp_count st + S k) with (S (tmp_count st + k)) by lia. reflexivity.
Qed.

(** The state after the outer loop. *)
Lemma doc_images_state (w : World) (doc : list (list FitzImage)) :
  forall (p0 : nat) (acc : string) (st : St),
  snd (for_enumerate (fun page_num page md_images =>
                        for_enumerate (image_to_md w page_num) 0 page md_images)
         p0 doc acc st)
  = {| trace := trace st ++ images_events w (tmp_count st) (indexed_from p0 doc);
       tmp_count := tmp_count st + List.length (indexed_from p0 doc) |}.
Proof.
  induction doc as [|page doc IH]; intros p0 acc st.
  - cbn. rewrite app_nil_r, Nat.add_0_r. symmetry. apply St_eta.
  - cbn [for_enumerate]. unfold mbind at 1, M_bind at 1.
    pose proof (page_images_state w p0 page 0 acc st) as Hst.
    destruct (page_images_run w p0 page 0 acc st) as (st1 & Hrun1 & _).
    rewrite Hrun1 in Hst |- *. cbn [snd] in Hst. subst st1.
    rewrite IH. cbn [trace tmp_count].
    assert (Hshape : indexed_from p0 (page :: doc)
                     = imap (fun img_index img => (p0 + 1, img_index + 1, img)) page
                       ++ indexed_from (S p0) doc).
    { unfold indexed_from. rewrite imap_cons. cbn [concat]. rewrite Nat.add_0_r.
      f_equal. f_equal. apply imap_ext. intros k y _. cbn.
      replace (p0 + S k) with (S (p0 + k)) by lia. reflexivity. }
    rewrite Hshape. unfold images_events.
    rewrite imap_app, concat_app, imap_imap, length_imap, length_app, length_imap.
    replace (imap (fun n '(_, _, img) =>
                     image_events w (tmp_count st + (List.length page + n)) img)
               (indexed_from (S p0) doc))
      with (imap (fun k '(_, _, img) =>
                    image_events w (tmp_count st + List.length page + k) img)
              (indexed_from (S p0) doc)).
    + rewrite <- app_assoc. f_equal. lia.
    + apply imap_ext. intros k [[p i] img] _.
      replace (tmp_count st + List.length page + k)
        with (tmp_count st + (List.length page + k)) by lia.
      reflexivity.
Qed.

Lemma extract_images_to_md_state (w : World) (pdf_path : string) (st : St) :
  snd (extract_images_to_md w pdf_path st)
  = {| trace := trace st
                ++ images_events w (tmp_count st)
                     (indexed_images (fitz_pages (open_pdf w pdf_path)));
       tmp_count := tmp_count st
                    + List.length (indexed_images (fitz_pages (open_pdf w pdf_path))) |}.
Proof. unfold extract_images_to_md, indexed_images. apply doc_images_state. Qed.

Lemma written_app (l1 l2 : list Event) : written (l1 ++ l2) = written l1 ++ written l2.
Proof. unfold written. apply omap_app. Qed.

Lemma removed_app (l1 l2 : list Event) : removed (l1 ++ l2) = removed l1 ++ removed l2.
Proof. unfold removed. apply omap_app. Qed.

Lemma upload_events_no_file (w : World) (file_path : string) :
  written (upload_events w file_path) = [] /\ removed (upload_events w file_path) = [].
Proof.
  unfold upload_events. destruct (s3_configured w); [| split; reflexivity].
  destruct (s3_upload_file w _ file_path _ _) as [e|]; [| split; reflexivity].
  destruct (exn_class e); split; reflexivity.
Qed.

Lemma images_events_files (w : World) (items : list (nat * nat * FitzImage)) :
  forall n0,
  written (images_events w n0 items)
  = imap (fun k '(_, _, img) => tmp_path_of w (n0 + k) img) items
  /\ removed (images_events w n0 items)
     = imap (fun k '(_, _, img) => tmp_path_of w (n0 + k) img) items.
Proof.
  unfold images_events.
  induction items as [|[[p i] img] items IH]; intros n0; [split; reflexivity |].
  rewrite !imap_cons. cbn [concat]. rewrite written_app, removed_app.
  unfold image_events at 1 3. rewrite !written_app, !removed_app.
  destruct (upload_events_no_file w (tmp_path_of w (n0 + 0) img)) as [-> ->].
  destruct (IH (S n0)) as [IHw IHr].
  assert (Hshift : forall (A : Type) (f : nat -> FitzImage -> A),
             imap ((fun k '(_, _, img0) => f (n0 + k) img0) ∘ S) items
             = imap (fun k '(_, _, img0) => f (S n0 + k) img0) items).
  { intros A f. apply imap_ext. intros k [[p' i'] img'] _. cbn.
    replace (n0 + S k) with (S (n0 + k)) by lia. reflexivity. }
  rewrite (Hshift _ (image_events w)), (Hshift _ (tmp_path_of w)), IHw, IHr.
  split; reflexivity.
Qed.

(** X7.  [extract_images_to_md] writes one temp file per image and
    removes every one of them, in the same order, whether the upload
    succeeded, failed or was skipped. *)
Theorem image_temp_files_are_removed (w : World) (pdf_path : string) (st : St) :
  written (events (extract_images_to_md w pdf_path) st)
  = written (trace st)
    ++ imap (fun k '(_, _, img) => tmp_prefix w (tmp_count st + k) +:+ "." +:+ ext img)
         (indexed_images (fitz_pages (open_pdf w pdf_path)))
  /\ removed (events (extract_images_to_md w pdf_path) st)
     = removed (trace st)
       ++ imap (fun k '(_, _, img) => tmp_prefix w (tmp_count st + k) +:+ "." +:+ ext img)
            (indexed_images (fitz_pages (open_pdf w pdf_path)))
  /\ tmp_count (snd (extract_images_to_md w pdf_path st))
     = tmp_count st + List.length (indexed_images (fitz_pages (open_pdf w pdf_path))).
Proof.
  unfold events. rewrite extract_images_to_md_state. cbn [trace tmp_count].
  rewrite written_app, removed_app.
  destruct (images_events_files w (indexed_images (fitz_pages (open_pdf w pdf_path)))
              (tmp_count st)) as [-> ->].
  repeat split.
Qed.

Lemma images_events_uploads (w : World) (items : list (nat * nat * FitzImage)) :
  forall n0,
  uploads (images_events w n0 items)
  = if s3_configured w
    then imap (fun k '(_, _, img) =>
                 S3UploadFile (tmp_path_of w (n0 + k) img)
                   (secrets_get w "S3_BUCKET_NAME" "")
                   (basename (tmp_path_of w (n0 + k) img))) items
    else [].
Proof.
  unfold images_events.
  induction items as [|[[p i] img] items IH]; intros n0.
  - destruct (s3_configured w); reflexivity.
  - rewrite !imap_cons. cbn [concat]. rewrite uploads_app.
    unfold image_events at 1. rewrite !uploads_app, upload_events_uploads.
    replace (imap ((fun k '(_, _, img0) => image_events w (n0 + k) img0) ∘ S) items)
      with (imap (fun k '(_, _, img0) => image_events w (S n0 + k) img0) items).
    + rewrite (IH (S n0)). destruct (s3_configured w); [| reflexivity].
      cbn [uploads filter app is_upload]. rewrite Nat.add_0_r. f_equal.
      apply imap_ext. intros k [[p' i'] img'] _. cbn.
      replace (n0 + S k) with (S (n0 + k)) by lia. reflexivity.
    + apply imap_ext. intros k [[p' i'] img'] _. cbn.
      replace (n0 + S k) with (S (n0 + k)) by lia. reflexivity.
Qed.

(** X8.  With object storage configured, [extract_images_to_md] calls
    [upload_file] exactly once per image, in page order then in-page
    order, each time with the temp file of the image, the configured
    bucket, and the base name of the temp file as object key. *)
Theorem one_upload_per_image (w : World) (pdf_path : string) (st : St) :
  s3_configured w = true ->
  uploads (events (extract_images_to_md w pdf_path) st)
  = uploads (trace st)
    ++ imap (fun k '(_, _, img) =>
               S3UploadFile (tmp_prefix w (tmp_count st + k) +:+ "." +:+ ext img)
                 (secrets_get w "S3_BUCKET_NAME" "")
                 (basename (tmp_prefix w (tmp_count st + k) +:+ "." +:+ ext img)))
         (indexed_images (fitz_pages (open_pdf w pdf_path))).
Proof.
  intros Hcfg. unfold events. rewrite extract_images_to_md_state. cbn [trace].
  rewrite uploads_app, images_events_uploads, Hcfg. reflexivity.
Qed.

Lemma one_upload_per_image_witness :
  uploads (events (extract_images_to_md sample_world_configured "/data/doc.pdf") st0)
  = [S3UploadFile "/tmp/tmp0.png" "bucket" "tmp0.png"].
Proof.
  rewrite (one_upload_per_image sample_world_configured "/data/doc.pdf" st0)
    by reflexivity.
  vm_compute. reflexivity.
Defined.

(** X9.  On a PDF that PyMuPDF and pdfplumber open,
    [open_source_extract_pdf] returns, whatever tabula and the uploads do.
    Its effects are those of the images, image after image (write the temp
    file, try to upload it, remove it), followed by one call of tabula's
    [read_pdf] on the path it was given. *)
Theorem open_source_extract_pdf_effects (w : World) (pdf_path : string) (st : St) :
  (exists md, result (open_source_extract_pdf w pdf_path) st = Ok md)
  /\ events (open_source_extract_pdf w pdf_path) st
     = trace st
       ++ concat (imap (fun k '(_, _, img) =>
                          [TempFileWritten (tmp_path_of w (tmp_count st + k) img)]
                          ++ upload_events w (tmp_path_of w (tmp_count st + k) img)
                          ++ [OsRemove (tmp_path_of w (tmp_count st + k) img)])
                    (indexed_images (fitz_pages (open_pdf w pdf_path))))
       ++ [ReadPdf pdf_path].
Proof.
  split.
  - destruct (open_source_extract_pdf_run w pdf_path st) as (st' & Hrun & _).
    eexists. unfold result. rewrite Hrun. reflexivity.
  - unfold events, open_source_extract_pdf.
    pose proof (extract_images_to_md_state w pdf_path st) as Hst.
    destruct (extract_images_to_md_run w pdf_path st) as (st1 & Hrun1 & _).
    unfold mbind at 1, M_bind at 1. rewrite Hrun1 in Hst |- *.
    cbn [snd] in Hst. subst st1.
    unfold mbind, M_bind. rewrite extract_tables_to_md_run.
    cbn [snd trace]. rewrite <- app_assoc. reflexivity.
Qed.

(** ** Asset re-hosting, further *)

(** X10.  The object key is the base name of the file alone: two files
    with the same base name, wherever they lie, are given the same URL
    when their uploads succeed, the second upload taking the key of the
    first. *)
Theorem same_basename_same_url (w : World) (path1 path2 u1 u2 : string) (st1 st2 : St) :
  basename path1 = basename path2 ->
  result (upload_file_to_s3 w path1) st1 = Ok (Some u1) ->
  result (upload_file_to_s3 w path2) st2 = Ok (Some u2) ->
  u1 = u2
  /\ uploads (upload_events w path1)
     = [S3UploadFile path1 (secrets_get w "S3_BUCKET_NAME" "") (basename path1)]
  /\ uploads (upload_events w path2)
     = [S3UploadFile path2 (secrets_get w "S3_BUCKET_NAME" "") (basename path1)].
Proof.
  unfold result. rewrite !upload_file_to_s3_run. cbn [fst].
  rewrite !upload_events_uploads. unfold upload_value, s3_url_of.
  intros Hbase. rewrite <- Hbase.
  destruct (s3_configured w); [| discriminate].
  destruct (s3_upload_file w _ path1 _ _); [discriminate |].
  destruct (s3_upload_file w _ path2 _ _); [discriminate |].
  intros [= <-] [= <-]. repeat split.
Qed.

Lemma same_basename_same_url_witness :
  result (upload_file_to_s3 sample_world_configured "/tmp/a/fig.png") st0
  = Ok (Some "https://bucket.s3.amazonaws.com/fig.png")
  /\ result (upload_file_to_s3 sample_world_configured "/tmp/b/fig.png") st0
     = Ok (Some "https://bucket.s3.amazonaws.com/fig.png")
  /\ "https://bucket.s3.amazonaws.com/fig.png" = "https://bucket.s3.amazonaws.com/fig.png".
Proof.
  assert (H1 : result (upload_file_to_s3 sample_world_configured "/tmp/a/fig.png") st0
               = Ok (Some "https://bucket.s3.amazonaws.com/fig.png"))
    by (vm_compute; reflexivity).
  assert (H2 : result (upload_file_to_s3 sample_world_configured "/tmp/b/fig.png") st0
               = Ok (Some "https://bucket.s3.amazonaws.com/fig.png"))
    by (vm_compute; reflexivity).
  split; [exact H1 |]. split; [exact H2 |].
  apply (same_basename_same_url sample_world_configured
           "/tmp/a/fig.png" "/tmp/b/fig.png" _ _ st0 st0 eq_refl H1 H2).
Defined.

(** X11.  [upload_file_to_s3] logs nothing when it returns a URL, and
    exactly one line when it returns none: the skip, the missing file,
    the missing credentials or the failure. *)
Theorem upload_logs_iff_no_url (w : World) (file_path : string) (st : St) :
  exists (r : option string) (new : list Event),
    upload_file_to_s3 w file_path st
    = (Ok r, {| trace := trace st ++ new; tmp_count := tmp_count st |})
    /\ (r = None <-> List.length (filter (fun ev => is_log ev = true) new) = 1)
    /\ (r <> None <-> filter (fun ev => is_log ev = true) new = []).
Proof.
  exists (upload_value w file_path), (upload_events w file_path).
  split; [apply upload_file_to_s3_run |].
  unfold upload_value, upload_events.
  destruct (s3_configured w).
  - destruct (s3_upload_file w _ file_path _ _) as [e|].
    + destruct (exn_class e); split; split; intros H;
        try reflexivity; try congruence; try discriminate H.
    + split; split; intros H; try reflexivity; try congruence; try discriminate H.
  - split; split; intros H; try reflexivity; try congruence; try discriminate H.
Qed.

(** ** The Adobe pipeline, further *)

(** The loop over the rows of a table, for any rendering [g] of a row. *)
Lemma rows_loop_after_header {A : Type} (g : A -> list string) (rest : list A) :
  forall (i0 : nat) (md : string),
  fold_enumerate (fun i row md_content =>
                    let row_data := g row in
                    let md_content := md_content +:+ pipe_row row_data in
                    if (i =? 0)%nat then md_content +:+ pipe_dashes row_data
                    else md_content)
    (S i0) rest md
  = md +:+ cat (map (fun row => pipe_row (g row)) rest).
Proof.
  induction rest as [|row rest IH]; intros i0 md; cbn [fold_enumerate map cat foldr].
  - rewrite append_empty_r. reflexivity.
  - cbn [Nat.eqb]. rewrite IH, append_assoc. reflexivity.
Qed.

Lemma rows_loop {A : Type} (g : A -> list string) (table_rows : list A) (md : string) :
  fold_enumerate (fun i row md_content =>
                    let row_data := g row in
                    let md_content := md_content +:+ pipe_row row_data in
                    if (i =? 0)%nat then md_content +:+ pipe_dashes row_data
                    else md_content)
    0 table_rows md
  = md +:+ match table_rows with
           | [] => EmptyString
           | header :: rest =>
               pipe_row (g header) +:+ pipe_dashes (g header)
                 +:+ cat (map (fun row => pipe_row (g row)) rest)
           end.
Proof.
  destruct table_rows as [|header rest]; cbn [fold_enumerate].
  - rewrite append_empty_r. reflexivity.
  - cbn [Nat.eqb]. rewrite rows_loop_after_header, !append_assoc. reflexivity.
Qed.

(** One element of the manifest appends its block. *)
Lemma manifest_element_app (element : Element) (md : string) :
  manifest_to_md {| manifest_elements := Some [element] |} md
  = md +:+ element_block element.
Proof.
  unfold element_block, manifest_to_md. cbn [manifest_elements get fold_left].
  destruct (Text element) as [t|]; destruct (Table element) as [tbl|].
  - rewrite !(rows_loop (fun row : list string => row)), ?append_assoc. reflexivity.
  - rewrite ?append_assoc. reflexivity.
  - rewrite !(rows_loop (fun row : list string => row)), ?append_assoc. reflexivity.
  - rewrite append_empty_r. reflexivity.
Qed.

Lemma manifest_to_md_blocks (data : Manifest) (md : string) :
  manifest_to_md data md
  = md +:+ cat (map element_block (get (manifest_elements data) [])).
Proof.
  unfold manifest_to_md at 1.
  generalize (get (manifest_elements data) []). intros els. revert md.
  induction els as [|element els IH]; intros md; cbn [fold_left map cat foldr].
  - rewrite append_empty_r. reflexivity.
  - rewrite IH.
    change (fold_left _ [] ?m) with m.
    pose proof (manifest_element_app element md) as Hel.
    unfold manifest_to_md in Hel. cbn [manifest_elements get fold_left] in Hel.
    rewrite Hel, append_assoc. reflexivity.
Qed.

(** One entry of the [tables] folder appends its block. *)
Lemma sheet_entry_app (w : World) (entry : string * list (list Cell)) (md : string) :
  (let '(tbl_file, sheet) := entry in
   if endswith tbl_file ".xlsx" then
     let md_content := md +:+ "## Table from " +:+ tbl_file +:+ nl in
     let md_content :=
       fold_enumerate (fun i row md_content =>
                         let row_data := xlsx_row_data w row in
                         let md_content := md_content +:+ pipe_row row_data in
                         if (i =? 0)%nat then md_content +:+ pipe_dashes row_data
                         else md_content) 0 sheet md_content in
     md_content +:+ nl
   else md)
  = md +:+ sheet_block w entry.
Proof.
  destruct entry as [tbl_file sheet]. unfold sheet_block, xlsx_tables_to_md.
  cbn [sorted_by_name fold_right insert_by_name fold_left].
  destruct (endswith tbl_file ".xlsx").
  - rewrite !(rows_loop (xlsx_row_data w)), ?append_assoc. reflexivity.
  - rewrite append_empty_r. reflexivity.
Qed.

Lemma xlsx_tables_to_md_blocks (w : World)
  (folder : option (list (string * list (list Cell)))) (md : string) :
  xlsx_tables_to_md w folder md
  = md +:+ cat (map (sheet_block w) (sorted_by_name (get folder []))).
Proof.
  unfold xlsx_tables_to_md at 1. destruct folder as [entries|]; cbn [get].
  2: { cbn. rewrite append_empty_r. reflexivity. }
  generalize (sorted_by_name entries). intros sorted. revert md.
  induction sorted as [|entry sorted IH]; intros md; cbn [fold_left map cat foldr].
  - rewrite append_empty_r. reflexivity.
  - rewrite IH. pose proof (sheet_entry_app w entry md) as Hentry.
    destruct entry as [tbl_file sheet]. cbv beta iota zeta in Hentry |- *.
    rewrite Hentry, append_assoc. reflexivity.
Qed.

Lemma figures_to_md_result (w : World) (out_dir : string)
  (folder : option (list (string * bool))) (md : string) (st : St) :
  result (figures_to_md w out_dir folder md) st
  = Ok (md +:+ figures_part w out_dir folder).
Proof.
  unfold figures_to_md, figures_part, result. destruct folder as [entries|].
  - destruct (figures_loop_run w (path_join out_dir "figures") (sorted_by_name entries)
                0 (md +:+ "## Images" +:+ nl +:+ nl) st) as (st' & ->).
    cbn [fst]. rewrite !append_assoc. reflexivity.
  - munfold. cbn [fst]. rewrite append_empty_r. reflexivity.
Qed.

(** X12.  When the archive holds its manifest, the Markdown of
    [adobe_zip_to_markdown] is the title, then what each element of the
    manifest gives on its own, in manifest order, then what each entry of
    the [tables] folder gives on its own, in name order, then what the
    [figures] folder gives: the three parts never interleave, and no
    block depends on the blocks before it. *)
Theorem adobe_markdown_is_three_parts (w : World) (zip_file_path : string)
  (zip : Bundle) (data : Manifest) (st : St) :
  structuredData zip = Some data ->
  exists figures : string,
    result (figures_to_md w (replace zip_file_path ".zip" "") (figures_folder zip)
              EmptyString) st = Ok figures
    /\ result (adobe_zip_to_markdown w zip_file_path zip) st
       = Ok ("# Extracted PDF Data (Enterprise)" +:+ nl +:+ nl
               +:+ cat (map (fun element =>
                               manifest_to_md {| manifest_elements := Some [element] |}
                                 EmptyString)
                          (get (manifest_elements data) []))
               +:+ cat (map (fun entry => xlsx_tables_to_md w (Some [entry]) EmptyString)
                          (sorted_by_name (get (tables_folder zip) [])))
               +:+ figures).
Proof.
  intros Hdata. exists (figures_part w (replace zip_file_path ".zip" "") (figures_folder zip)).
  split; [apply figures_to_md_result |].
  rewrite adobe_zip_to_markdown_result. unfold adobe_markdown_of. rewrite Hdata.
  rewrite xlsx_tables_to_md_blocks, manifest_to_md_blocks, !append_assoc. reflexivity.
Qed.

Lemma adobe_markdown_is_three_parts_witness :
  exists figures : string,
    result (figures_to_md sample_world_configured
              (replace "out/extraction_1.zip" ".zip" "")
              (figures_folder sample_bundle) EmptyString) st0 = Ok figures
    /\ result (adobe_zip_to_markdown sample_world_configured "out/extraction_1.zip"
                 sample_bundle) st0
       = Ok ("# Extracted PDF Data (Enterprise)" +:+ nl +:+ nl
               +:+ cat (map (fun element =>
                               manifest_to_md {| manifest_elements := Some [element] |}
                                 EmptyString)
                          (get (manifest_elements (manifest_of_table sample_rows)) []))
               +:+ cat (map (fun entry =>
                               xlsx_tables_to_md sample_world_configured (Some [entry])
                                 EmptyString)
                          (sorted_by_name (get (tables_folder sample_bundle) [])))
               +:+ figures).
Proof.
  apply (adobe_markdown_is_three_parts sample_world_configured "out/extraction_1.zip"
           sample_bundle (manifest_of_table sample_rows) st0).
  reflexivity.
Defined.

(** X13.  [enterprise_extract_pdf] submits no Adobe job when the
    credentials are not in the secrets, or cannot be read, or when the PDF
    path does not exist: it returns [None], having only logged one line. *)
Theorem no_adobe_job_without_credentials_and_file (w : World) (pdf_path : string)
  (st : St) :
  secrets w !! "ADOBE_CREDENTIALS_JSON" = None
  \/ (exists adobe_json e,
        secrets w !! "ADOBE_CREDENTIALS_JSON" = Some adobe_json
        /\ adobe_credentials w adobe_json = Raise e)
  \/ path_exists w pdf_path = false ->
  result (enterprise_extract_pdf w pdf_path) st = Ok None
  /\ (exists msg, events (enterprise_extract_pdf w pdf_path) st
                  = trace st ++ [Log LException msg])
  /\ filter (fun ev => is_adobe_job ev = true) (events (enterprise_extract_pdf w pdf_path) st)
     = filter (fun ev => is_adobe_job ev = true) (trace st).
Proof.
  intros Hcase.
  assert (Hrun : exists msg,
             enterprise_extract_pdf w pdf_path st
             = (Ok None, {| trace := trace st ++ [Log LException msg];
                            tmp_count := tmp_count st |})).
  { unfold enterprise_extract_pdf.
    unfold mbind at 1, M_bind at 1, try_ at 1.
    destruct (secrets w !! "ADOBE_CREDENTIALS_JSON") as [adobe_json|] eqn:Hsec.
    2: { eexists. munfold. reflexivity. }
    unfold mbind at 1, M_bind at 1, of_res at 1.
    destruct (adobe_credentials w adobe_json) as [[client_id client_secret]|e] eqn:Hcred.
    2: { munfold. destruct (is_adobe_exception (exn_class e)); eexists; reflexivity. }
    destruct (path_exists w pdf_path) eqn:Hexists; cbn [negb].
    2: { eexists. munfold. reflexivity. }
    destruct Hcase as [Hnone | [(js & e & Hjs & He) | Hno]]; [discriminate | | discriminate].
    assert (js = adobe_json) by congruence. subst js. congruence. }
  destruct Hrun as (msg & Hrun). unfold result, events. rewrite Hrun. cbn [fst snd trace].
  split; [reflexivity |]. split; [exists msg; reflexivity |].
  rewrite filter_app. cbn. apply app_nil_r.
Qed.

Lemma no_adobe_job_without_credentials_and_file_witness :
  result (enterprise_extract_pdf sample_world "/data/doc.pdf") st0 = Ok None.
Proof.
  apply (no_adobe_job_without_credentials_and_file sample_world "/data/doc.pdf" st0).
  left. reflexivity.
Defined.

(** X14.  When the Adobe service raises, [enterprise_extract_pdf] returns
    [None] and logs the cause once: under [Adobe PDF Services error] for
    the three exceptions of the SDK, under [Unexpected error in
    enterprise_extract_pdf] for any other.  No archive path is made and no
    directory created. *)
Theorem adobe_failure_is_logged_once (w : World) (pdf_path adobe_json : string)
  (client_id client_secret : string) (e : Exn) (st : St) :
  secrets w !! "ADOBE_CREDENTIALS_JSON" = Some adobe_json ->
  adobe_credentials w adobe_json = Ok (client_id, client_secret) ->
  path_exists w pdf_path = true ->
  adobe_extract w client_id client_secret pdf_path = Raise e ->
  enterprise_extract_pdf w pdf_path st
  = (Ok None,
     {| trace := trace st
                 ++ [AdobeJob pdf_path;
                     Log LException
                       ((match exn_class e with
                         | ServiceApiException | ServiceUsageException | SdkException =>
                             "Adobe PDF Services error: "
                         | _ => "Unexpected error in enterprise_extract_pdf: "
                         end) +:+ exn_msg e)];
        tmp_count := tmp_count st |}).
Proof.
  intros Hsec Hcred Hexists Hraise. unfold enterprise_extract_pdf.
  unfold mbind at 1, M_bind at 1, try_ at 1. rewrite Hsec.
  unfold mbind at 1, M_bind at 1, of_res at 1. rewrite Hcred, Hexists. cbn [negb].
  unfold mbind at 1, M_bind at 1, emit at 1.
  unfold mbind at 1, M_bind at 1, of_res at 1. rewrite Hraise.
  destruct (exn_class e); cbn [is_adobe_exception]; munfold; unfold emit;
    cbn [trace tmp_count]; rewrite <- ?app_assoc; reflexivity.
Qed.

Lemma adobe_failure_is_logged_once_witness :
  enterprise_extract_pdf sample_world_adobe_fails "/data/doc.pdf" st0
  = (Ok None,
     {| trace := [AdobeJob "/data/doc.pdf";
                  Log LException
                    "Adobe PDF Services error: DISQUALIFIED: file is encrypted"];
        tmp_count := 0 |}).
Proof.
  apply (adobe_failure_is_logged_once sample_world_adobe_fails "/data/doc.pdf" "{}"
           "id" "secret" (mkExn ServiceApiException "DISQUALIFIED: file is encrypted") st0);
    reflexivity.
Defined.

(** X15.  When the archive of the Adobe job holds no
    [structuredData.json], [enterprise_extract_pdf] returns [None], but
    only after the archive directory and the extraction directory were
    created and the archive extracted: these are left behind. *)
Theorem missing_manifest_fails_after_extraction (w : World)
  (pdf_path adobe_json client_id client_secret : string) (zip : Bundle) (st : St) :
  secrets w !! "ADOBE_CREDENTIALS_JSON" = Some adobe_json ->
  adobe_credentials w adobe_json = Ok (client_id, client_secret) ->
  path_exists w pdf_path = true ->
  adobe_extract w client_id client_secret pdf_path = Ok zip ->
  structuredData zip = None ->
  enterprise_extract_pdf w pdf_path st
  = (Ok None,
     {| trace := trace st
                 ++ [AdobeJob pdf_path;
                     OsMakedirs "temp_adobe_extractions";
                     OsMakedirs (replace (zip_path_at (datetime_now w)) ".zip" "");
                     ZipExtractAll (zip_path_at (datetime_now w))
                       (replace (zip_path_at (datetime_now w)) ".zip" "");
                     Log LException
                       "Unexpected error in enterprise_extract_pdf: structuredData.json not found in ZIP extract."];
        tmp_count := tmp_count st |}).
Proof.
  intros Hsec Hcred Hexists Hzip Hdata. unfold enterprise_extract_pdf.
  unfold mbind at 1, M_bind at 1, try_ at 1. rewrite Hsec.
  unfold mbind at 1, M_bind at 1, of_res at 1. rewrite Hcred, Hexists. cbn [negb].
  unfold mbind at 1, M_bind at 1, emit at 1.
  unfold mbind at 1, M_bind at 1, of_res at 1. rewrite Hzip.
  unfold create_adobe_zip_path, adobe_zip_to_markdown. rewrite Hdata.
  fold (zip_path_at (datetime_now w)).
  munfold. unfold emit. cbn [trace tmp_count is_adobe_exception exn_class exn_msg].
  rewrite <- !app_assoc. reflexivity.
Qed.

Lemma missing_manifest_fails_after_extraction_witness :
  enterprise_extract_pdf sample_world_no_manifest "/data/doc.pdf" st0
  = (Ok None,
     {| trace := [AdobeJob "/data/doc.pdf";
                  OsMakedirs "temp_adobe_extractions";
                  OsMakedirs "temp_adobe_extractions/extraction_2025-02-03T10-20-30";
                  ZipExtractAll "temp_adobe_extractions/extraction_2025-02-03T10-20-30.zip"
                    "temp_adobe_extractions/extraction_2025-02-03T10-20-30";
                  Log LException
                    "Unexpected error in enterprise_extract_pdf: structuredData.json not found in ZIP extract."];
        tmp_count := 0 |}).
Proof.
  exact (missing_manifest_fails_after_extraction sample_world_no_manifest
           "/data/doc.pdf" "{}" "id" "secret"
           {| structuredData := None; tables_folder := None; figures_folder := None |}
           st0 eq_refl eq_refl eq_refl eq_refl eq_refl).
Defined.

(** X16.  [enterprise_extract_pdf] never raises, and any Markdown it
    returns begins with the title line [# Extracted PDF Data
    (Enterprise)]: a successful extraction is never empty. *)
Theorem enterprise_extract_pdf_never_empty (w : World) (pdf_path : string) (st : St) :
  (exists r, result (enterprise_extract_pdf w pdf_path) st = Ok r)
  /\ (forall md, result (enterprise_extract_pdf w pdf_path) st = Ok (Some md) ->
        exists tail, md = "# Extracted PDF Data (Enterprise)" +:+ nl +:+ nl +:+ tail).
Proof.
  rewrite enterprise_extract_pdf_result. split; [eexists; reflexivity |].
  intros md [= Hmd]. unfold enterprise_pdf_value in Hmd.
  destruct (secrets w !! "ADOBE_CREDENTIALS_JSON") as [adobe_json|]; [| discriminate].
  destruct (adobe_credentials w adobe_json) as [[client_id client_secret]|e];
    [| discriminate].
  destruct (negb (path_exists w pdf_path)); [discriminate |].
  destruct (adobe_extract w client_id client_secret pdf_path) as [zip|e]; [| discriminate].
  unfold adobe_markdown_of in Hmd.
  destruct (structuredData zip) as [data|]; [| discriminate].
  injection Hmd as <-.
  rewrite xlsx_tables_to_md_blocks, manifest_to_md_blocks, !append_assoc.
  eexists. reflexivity.
Qed.

(** *** [sorted(os.listdir(...))] does not depend on the listing order *)

Lemma insert_by_name_perm {A : Type} (x : string * A) (l : list (string * A)) :
  insert_by_name x l ≡ₚ x :: l.
Proof.
  induction l as [|y l IH]; cbn [insert_by_name]; [reflexivity |].
  destruct (String.leb (fst x) (fst y)); [reflexivity |].
  rewrite IH. apply Permutation_swap.
Qed.

Lemma sorted_by_name_perm {A : Type} (l : list (string * A)) : sorted_by_name l ≡ₚ l.
Proof.
  induction l as [|x l IH]; [reflexivity |].
  cbn. rewrite insert_by_name_perm, IH. reflexivity.
Qed.

Lemma name_le_trans {A : Type} (x y z : string * A) :
  name_le x y -> name_le y z -> name_le x z.
Proof. unfold name_le. intros Hxy Hyz. etrans; eassumption. Qed.

Lemma insert_by_name_sorted {A : Type} (x : string * A) (l : list (string * A)) :
  StronglySorted name_le l -> StronglySorted name_le (insert_by_name x l).
Proof.
  induction 1 as [|y l Hl IH Hy]; cbn [insert_by_name].
  - repeat constructor.
  - destruct (String.leb (fst x) (fst y)) eqn:Hle.
    + constructor; [constructor; assumption |].
      assert (Hxy : name_le x y) by (unfold name_le, String.le; rewrite Hle; exact I).
      constructor; [exact Hxy |].
      eapply Forall_impl; [exact Hy |]. intros z Hz. eapply name_le_trans; eassumption.
    + constructor; [exact IH |].
      assert (Hyx : name_le y x).
      { unfold name_le. destruct (total String.le (fst y) (fst x)) as [H | H]; [exact H |].
        unfold String.le in H. rewrite Hle in H. destruct H. }
      rewrite insert_by_name_perm. constructor; assumption.
Qed.

Lemma sorted_by_name_sorted {A : Type} (l : list (string * A)) :
  StronglySorted name_le (sorted_by_name l).
Proof.
  induction l as [|x l IH]; [constructor |].
  cbn. apply insert_by_name_sorted, IH.
Qed.

Lemma distinct_names_inj {A : Type} (l : list (string * A)) (x y : string * A) :
  distinct_names l -> x ∈ l -> y ∈ l -> fst x = fst y -> x = y.
Proof.
  unfold distinct_names. induction l as [|z l IH]; [intros _ Hx; inv Hx |].
  cbn [map]. intros Hnd Hx Hy Hxy. apply NoDup_cons in Hnd as [Hz Hnd].
  apply elem_of_cons in Hx as [-> | Hx]; apply elem_of_cons in Hy as [-> | Hy].
  - reflexivity.
  - exfalso. apply Hz. rewrite Hxy. apply list_elem_of_In, in_map, list_elem_of_In, Hy.
  - exfalso. apply Hz. rewrite <- Hxy. apply list_elem_of_In, in_map, list_elem_of_In, Hx.
  - apply IH; assumption.
Qed.

Lemma sorted_by_name_unique {A : Type} (l l' : list (string * A)) :
  l ≡ₚ l' -> distinct_names l -> sorted_by_name l = sorted_by_name l'.
Proof.
  intros Hperm Hnd.
  apply (StronglySorted_unique_strong name_le).
  - intros x y Hx Hy Hxy Hyx.
    rewrite sorted_by_name_perm in Hx. rewrite sorted_by_name_perm, <- Hperm in Hy.
    apply (distinct_names_inj l); [assumption .. |].
    unfold name_le in *. apply (anti_symm String.le); assumption.
  - apply sorted_by_name_sorted.
  - apply sorted_by_name_sorted.
  - rewrite !sorted_by_name_perm. exact Hperm.
Qed.

(** X17.  The Markdown of [adobe_zip_to_markdown] does not depend on the
    order in which [os.listdir] lists the [tables] and [figures] folders:
    two archives with the same manifest and the same entries in these
    folders, under distinct names, give the same result. *)
Theorem listing_order_is_irrelevant (w : World) (zip_file_path : string)
  (zip zip' : Bundle) (st : St) :
  structuredData zip = structuredData zip' ->
  same_folder (tables_folder zip) (tables_folder zip') ->
  same_folder (figures_folder zip) (figures_folder zip') ->
  result (adobe_zip_to_markdown w zip_file_path zip) st
  = result (adobe_zip_to_markdown w zip_file_path zip') st.
Proof.
  intros Hdata Htables Hfigures.
  rewrite !adobe_zip_to_markdown_result. unfold adobe_markdown_of. rewrite <- Hdata.
  destruct (structuredData zip) as [data|]; [| reflexivity].
  assert (Ht : forall md, xlsx_tables_to_md w (tables_folder zip) md
                          = xlsx_tables_to_md w (tables_folder zip') md).
  { intros md. rewrite !xlsx_tables_to_md_blocks.
    destruct (tables_folder zip) as [entries|], (tables_folder zip') as [entries'|];
      cbn in Htables; try contradiction; [| reflexivity].
    destruct Htables as [Hperm Hnd]. cbn [get].
    rewrite (sorted_by_name_unique _ _ Hperm Hnd). reflexivity. }
  assert (Hf : forall dir, figures_part w dir (figures_folder zip)
                           = figures_part w dir (figures_folder zip')).
  { intros dir. unfold figures_part.
    destruct (figures_folder zip) as [entries|], (figures_folder zip') as [entries'|];
      cbn in Hfigures; try contradiction; [| reflexivity].
    destruct Hfigures as [Hperm Hnd].
    rewrite (sorted_by_name_unique _ _ Hperm Hnd). reflexivity. }
  rewrite Ht, Hf. reflexivity.
Qed.

Lemma listing_order_is_irrelevant_witness :
  result (adobe_zip_to_markdown sample_world_configured "out/e.zip"
            {| structuredData := Some (manifest_of_table sample_rows);
               tables_folder := Some [("b.xlsx", [[CStr "x"]]); ("a.xlsx", [[CInt 1]])];
               figures_folder := Some [("g.png", true); ("f.png", true)] |}) st0
  = result (adobe_zip_to_markdown sample_world_configured "out/e.zip"
              {| structuredData := Some (manifest_of_table sample_rows);
                 tables_folder := Some [("a.xlsx", [[CInt 1]]); ("b.xlsx", [[CStr "x"]])];
                 figures_folder := Some [("f.png", true); ("g.png", true)] |}) st0.
Proof.
  apply listing_order_is_irrelevant.
  - reflexivity.
  - split; [apply Permutation_swap |].
    unfold distinct_names. cbn. apply NoDup_cons. split.
    + intros H. apply list_elem_of_singleton in H. discriminate H.
    + apply NoDup_singleton.
  - split; [apply Permutation_swap |].
    unfold distinct_names. cbn. apply NoDup_cons. split.
    + intros H. apply list_elem_of_singleton in H. discriminate H.
    + apply NoDup_singleton.
Defined.

(** *** Entries that are skipped *)

Lemma filter_insert_by_name_out {A : Type} (P : string * A -> Prop)
  `{!forall x, Decision (P x)} (x : string * A) (l : list (string * A)) :
  ~ P x -> filter P (insert_by_name x l) = filter P l.
Proof.
  intros Hx. induction l as [|y l IH]; cbn [insert_by_name].
  - rewrite filter_cons, decide_False by exact Hx. reflexivity.
  - destruct (String.leb (fst x) (fst y)).
    + rewrite filter_cons, decide_False by exact Hx. reflexivity.
    + rewrite !(filter_cons _ y), IH. reflexivity.
Qed.

Lemma insert_by_name_least {A : Type} (x : string * A) (l : list (string * A)) :
  Forall (name_le x) l -> insert_by_name x l = x :: l.
Proof.
  intros Hl. destruct Hl as [|y l Hy _]; [reflexivity |].
  cbn [insert_by_name]. unfold name_le, String.le in Hy.
  destruct (String.leb (fst x) (fst y)); [reflexivity | destruct Hy].
Qed.

Lemma filter_insert_by_name_in {A : Type} (P : string * A -> Prop)
  `{!forall x, Decision (P x)} (x : string * A) (l : list (string * A)) :
  StronglySorted name_le l -> P x ->
  filter P (insert_by_name x l) = insert_by_name x (filter P l).
Proof.
  intros Hl Hx. induction Hl as [|y l Hl IH Hy]; cbn [insert_by_name].
  - rewrite filter_cons, decide_True by exact Hx. reflexivity.
  - destruct (String.leb (fst x) (fst y)) eqn:Hle.
    + rewrite filter_cons, decide_True by exact Hx.
      symmetry. apply insert_by_name_least.
      assert (Hxy : name_le x y) by (unfold name_le, String.le; rewrite Hle; exact I).
      apply Forall_forall. intros z Hz. apply list_elem_of_filter in Hz as [_ Hz].
      apply elem_of_cons in Hz as [-> | Hz]; [exact Hxy |].
      eapply name_le_trans; [exact Hxy |]. rewrite Forall_forall in Hy. apply Hy, Hz.
    + rewrite !(filter_cons _ y), IH.
      destruct (decide (P y)); [| reflexivity].
      cbn [insert_by_name]. rewrite Hle. reflexivity.
Qed.

Lemma sorted_by_name_filter {A : Type} (P : string * A -> Prop)
  `{!forall x, Decision (P x)} (l : list (string * A)) :
  sorted_by_name (filter P l) = filter P (sorted_by_name l).
Proof.
  induction l as [|x l IH]; [reflexivity |].
  rewrite filter_cons. cbn [sorted_by_name fold_right].
  fold (sorted_by_name l). fold (sorted_by_name (filter P l)).
  destruct (decide (P x)) as [Hx | Hx].
  - cbn [sorted_by_name fold_right]. fold (sorted_by_name (filter P l)).
    rewrite IH. symmetry.
    apply filter_insert_by_name_in; [apply sorted_by_name_sorted | exact Hx].
  - rewrite IH. symmetry. apply filter_insert_by_name_out, Hx.
Qed.

Lemma cat_cons (x : string) (l : list string) : cat (x :: l) = x +:+ cat l.
Proof. reflexivity. Qed.

Lemma cat_map_filter {A : Type} (P : A -> Prop) `{!forall x, Decision (P x)}
  (f : A -> string) (l : list A) :
  (forall x, ~ P x -> f x = EmptyString) ->
  cat (map f l) = cat (map f (filter P l)).
Proof.
  intros Hf. induction l as [|x l IH]; [reflexivity |].
  rewrite filter_cons. destruct (decide (P x)) as [Hx | Hx]; cbn [map];
    rewrite ?cat_cons.
  - rewrite IH. reflexivity.
  - rewrite (Hf x Hx), IH. reflexivity.
Qed.

Lemma sheet_block_not_xlsx (w : World) (entry : string * list (list Cell)) :
  ~ is_xlsx entry -> sheet_block w entry = EmptyString.
Proof.
  destruct entry as [tbl_file sheet]. unfold is_xlsx, sheet_block, xlsx_tables_to_md.
  cbn [fst sorted_by_name fold_right insert_by_name fold_left].
  destruct (endswith tbl_file ".xlsx"); [intros H; exfalso; apply H; reflexivity |].
  reflexivity.
Qed.

Lemma figure_line_not_file (w : World) (dir : string) (entry : string * bool) :
  ~ is_regular_file entry -> figure_line w dir entry = EmptyString.
Proof.
  unfold is_regular_file, figure_line.
  destruct (snd entry); [intros H; exfalso; apply H; reflexivity |].
  reflexivity.
Qed.

(** X18.  Entries of the [tables] folder whose name does not end with
    [.xlsx] and entries of the [figures] folder that are not regular files
    leave no mark: the Markdown is what it would be were they not there. *)
Theorem other_entries_are_ignored (w : World) (zip_file_path : string) (zip : Bundle)
  (st : St) :
  result (adobe_zip_to_markdown w zip_file_path zip) st
  = result (adobe_zip_to_markdown w zip_file_path
              {| structuredData := structuredData zip;
                 tables_folder :=
                   option_map (filter (fun entry => endswith (fst entry) ".xlsx" = true))
                     (tables_folder zip);
                 figures_folder :=
                   option_map (filter (fun entry => snd entry = true))
                     (figures_folder zip) |}) st.
Proof.
  rewrite !adobe_zip_to_markdown_result. unfold adobe_markdown_of.
  cbn [structuredData tables_folder figures_folder].
  destruct (structuredData zip) as [data|]; [| reflexivity].
  rewrite !xlsx_tables_to_md_blocks. unfold figures_part.
  assert (Ht : cat (map (sheet_block w) (sorted_by_name (get (tables_folder zip) [])))
               = cat (map (sheet_block w)
                        (sorted_by_name
                           (get (option_map
                                   (filter (fun entry => endswith (fst entry) ".xlsx" = true))
                                   (tables_folder zip)) [])))).
  { destruct (tables_folder zip) as [entries|]; [| reflexivity]. cbn [option_map get].
    rewrite (sorted_by_name_filter
               (fun entry : string * list (list Cell) => endswith (fst entry) ".xlsx" = true)).
    apply (cat_map_filter
             (fun entry : string * list (list Cell) => endswith (fst entry) ".xlsx" = true)).
    apply sheet_block_not_xlsx. }
  rewrite Ht. f_equal. f_equal.
  destruct (figures_folder zip) as [entries|]; [| reflexivity]. cbn [option_map].
  rewrite (sorted_by_name_filter (fun entry : string * bool => snd entry = true)).
  do 3 f_equal.
  apply (cat_map_filter (fun entry : string * bool => snd entry = true)).
  apply figure_line_not_file.
Qed.

Lemma figure_to_md_uploads (w : World) (dir : string) (entry : string * bool)
  (md : string) (st : St) :
  s3_configured w = false ->
  uploads (trace (snd (figure_to_md w dir entry md st))) = uploads (trace st).
Proof.
  intros Hcfg. destruct entry as [fig_file isfile]. unfold figure_to_md.
  destruct isfile; [| reflexivity].
  munfold. rewrite upload_file_to_s3_run.
  destruct (url_truthy (upload_value w (path_join dir fig_file))); cbn [snd trace];
    rewrite uploads_app, upload_events_uploads, Hcfg; apply app_nil_r.
Qed.

Lemma figures_loop_uploads (w : World) (dir : string) (entries : list (string * bool)) :
  s3_configured w = false ->
  forall (i0 : nat) (acc : string) (st : St),
  uploads (trace (snd (for_enumerate (fun _ => figure_to_md w dir) i0 entries acc st)))
  = uploads (trace st).
Proof.
  intros Hcfg. induction entries as [|entry entries IH]; intros i0 acc st; [reflexivity |].
  cbn [for_enumerate]. unfold mbind at 1, M_bind at 1.
  pose proof (figure_to_md_uploads w dir entry acc st Hcfg) as Hup.
  destruct (figure_to_md_run w dir entry acc st) as (st1 & Hrun).
  rewrite Hrun in Hup |- *. cbn [snd] in Hup. rewrite IH. exact Hup.
Qed.

(** X19.  Without object storage, the [figures] folder gives its heading
    and, for each regular file in name order, a reference to the file on
    the local disk under the extraction directory; no upload is
    attempted. *)
Theorem figures_fall_back_to_local_paths (w : World) (out_dir : string)
  (entries : list (string * bool)) (md : string) (st : St) :
  s3_configured w = false ->
  result (figures_to_md w out_dir (Some entries) md) st
  = Ok (md +:+ "## Images" +:+ nl +:+ nl
          +:+ cat (map (fun entry =>
                          "![Figure](" +:+ path_join (path_join out_dir "figures") (fst entry)
                            +:+ ")" +:+ nl +:+ nl)
                     (filter (fun entry => snd entry = true) (sorted_by_name entries))))
  /\ uploads (events (figures_to_md w out_dir (Some entries) md) st) = uploads (trace st).
Proof.
  intros Hcfg. split.
  - rewrite figures_to_md_result. unfold figures_part. do 5 f_equal.
    rewrite (cat_map_filter (fun entry : string * bool => snd entry = true)
               (figure_line w (path_join out_dir "figures")))
      by apply figure_line_not_file.
    f_equal. apply map_ext_in. intros entry Hentry.
    apply list_elem_of_In, list_elem_of_filter in Hentry as [Hfile _].
    unfold figure_line. rewrite Hfile, (rehost_not_configured _ _ Hcfg). reflexivity.
  - unfold events, figures_to_md. apply figures_loop_uploads, Hcfg.
Qed.

Lemma figures_fall_back_to_local_paths_witness :
  result (figures_to_md sample_world "out/extraction_1"
            (Some [("b.png", true); ("sub", false); ("a.png", true)]) EmptyString) st0
  = Ok ("## Images" +:+ nl +:+ nl
          +:+ "![Figure](out/extraction_1/figures/a.png)" +:+ nl +:+ nl
          +:+ "![Figure](out/extraction_1/figures/b.png)" +:+ nl +:+ nl).
Proof.
  pose proof (figures_fall_back_to_local_paths sample_world "out/extraction_1"
                [("b.png", true); ("sub", false); ("a.png", true)] EmptyString st0
                eq_refl) as [Hvalue _].
  rewrite Hvalue. vm_compute. reflexivity.
Defined.

(** *** The extraction directory *)

Lemma lacks_app (c : ascii) (a b : string) :
  lacks c a = true -> lacks c b = true -> lacks c (a +:+ b) = true.
Proof.
  intros Ha Hb. induction a as [|x a IH]; [exact Hb |].
  rewrite append_cons. cbn [lacks] in *.
  apply andb_true_iff in Ha as [Hx Ha]. rewrite Hx, (IH Ha). reflexivity.
Qed.

Lemma lacks_uint (c : ascii) (d : Decimal.uint) :
  lacks c "0123456789" = true -> lacks c (NilEmpty.string_of_uint d) = true.
Proof.
  intros Hc. cbn [lacks] in Hc. repeat (apply andb_true_iff in Hc as [? Hc]).
  induction d; cbn [NilEmpty.string_of_uint lacks]; [reflexivity | ..];
    apply andb_true_iff; split; assumption.
Qed.

Lemma lacks_str_nat (c : ascii) (n : nat) :
  lacks c "0123456789" = true -> lacks c (str_nat n) = true.
Proof.
  intros Hc. unfold str_nat, NilZero.string_of_uint.
  destruct (Nat.to_uint n) eqn:Hn; try (apply lacks_uint; exact Hc).
  cbn [lacks] in Hc |- *. apply andb_true_iff in Hc as [H0 _]. rewrite H0. reflexivity.
Qed.

Lemma lacks_zeros (c : ascii) (k : nat) :
  lacks c "0123456789" = true -> lacks c (repeat_str "0" k) = true.
Proof.
  intros Hc. cbn [lacks] in Hc. apply andb_true_iff in Hc as [H0 _].
  induction k as [|k IH]; [reflexivity |].
  change (repeat_str "0" (S k)) with (String "0" (repeat_str "0" k)).
  cbn [lacks]. rewrite H0, IH. reflexivity.
Qed.

Lemma lacks_zfill (c : ascii) (width n : nat) :
  lacks c "0123456789" = true -> lacks c (zfill width n) = true.
Proof.
  intros Hc. unfold zfill.
  apply lacks_app; [apply lacks_zeros | apply lacks_str_nat]; exact Hc.
Qed.

Lemma lacks_strftime (c : ascii) (now : DateTime) :
  lacks c "0123456789-T" = true -> lacks c (strftime now) = true.
Proof.
  intros Hc.
  assert (Hd : lacks c "0123456789" = true).
  { cbn [lacks] in Hc |- *. repeat (apply andb_true_iff in Hc as [? Hc]).
    repeat (apply andb_true_iff; split; [assumption |]). reflexivity. }
  assert (Hdash : lacks c "-" = true).
  { cbn [lacks] in Hc |- *. repeat (apply andb_true_iff in Hc as [? Hc]).
    apply andb_true_iff; split; [assumption | reflexivity]. }
  assert (HT : lacks c "T" = true).
  { cbn [lacks] in Hc |- *. repeat (apply andb_true_iff in Hc as [? Hc]).
    apply andb_true_iff; split; [assumption | reflexivity]. }
  unfold strftime.
  repeat (apply lacks_app; [first [apply lacks_zfill; exact Hd | exact Hdash | exact HT] |]).
  apply lacks_zfill, Hd.
Qed.

Lemma replace_zip_suffix (a : string) :
  lacks "." a = true -> replace (a +:+ ".zip") ".zip" "" = a.
Proof.
  unfold replace. induction a as [|c a IH]; intros Ha; [reflexivity |].
  cbn [lacks] in Ha. apply andb_true_iff in Ha as [Hc Ha].
  rewrite append_cons. cbn [replace_from String.prefix].
  destruct (ascii_dec "." c) as [<- | _]; [discriminate Hc |].
  rewrite (IH Ha). reflexivity.
Qed.

Lemma lacks_slash_ends (s : string) : lacks "/" s = true -> ends_slash s = false.
Proof.
  induction s as [|c s IH]; [reflexivity |].
  cbn [lacks]. intros H. apply andb_true_iff in H as [Hc Hs].
  cbn [ends_slash]. destruct s; [apply negb_true_iff, Hc | apply IH, Hs].
Qed.

Lemma strftime_nonempty (now : DateTime) : strftime now <> EmptyString.
Proof.
  unfold strftime, zfill.
  destruct (repeat_str "0" (4 - String.length (str_nat (year now)))) eqn:Hz.
  - unfold str_nat, NilZero.string_of_uint.
    destruct (Nat.to_uint (year now)); discriminate.
  - discriminate.
Qed.

Lemma endswith_ends_slash (s : string) : endswith s "/" = ends_slash s.
Proof.
  induction s as [|c s IH]; [reflexivity |].
  destruct s as [|d s].
  - unfold endswith. cbn. destruct (Ascii.eqb c "/"); reflexivity.
  - change (ends_slash (String c (String d s))) with (ends_slash (String d s)).
    rewrite <- IH. unfold endswith. cbn [String.length Nat.leb Nat.sub].
    rewrite !Nat.sub_0_r. cbn [String.substring]. reflexivity.
Qed.

Lemma ends_slash_app (a b : string) :
  b <> EmptyString -> ends_slash (a +:+ b) = ends_slash b.
Proof.
  intros Hb. induction a as [|c a IH]; [reflexivity |].
  rewrite append_cons. cbn [ends_slash]. rewrite IH.
  destruct (a +:+ b) eqn:Hab; [| reflexivity].
  destruct a; [cbn in Hab; contradiction | discriminate Hab].
Qed.

Lemma path_join_relative (a b : string) :
  a <> EmptyString -> ends_slash a = false -> startswith b "/" = false ->
  path_join a b = a +:+ "/" +:+ b.
Proof.
  intros Ha Hslash Hb. unfold path_join. rewrite Hb, endswith_ends_slash, Hslash.
  destruct a; [contradiction | reflexivity].
Qed.

(** X20.  The archive of a run is
    [temp_adobe_extractions/extraction_<timestamp>.zip]; the directory it
    is extracted to is this path without [.zip], nothing else of the path
    being touched by the replacement; and a figure [name] of the archive
    lies at [temp_adobe_extractions/extraction_<timestamp>/figures/<name>],
    which is the reference written when the figure is not re-hosted. *)
Theorem extraction_paths (w : World) (fig_file : string) (st : St) :
  result (create_adobe_zip_path w) st
  = Ok ("temp_adobe_extractions/extraction_" +:+ strftime (datetime_now w) +:+ ".zip")
  /\ replace ("temp_adobe_extractions/extraction_" +:+ strftime (datetime_now w) +:+ ".zip")
       ".zip" ""
     = "temp_adobe_extractions/extraction_" +:+ strftime (datetime_now w)
  /\ (startswith fig_file "/" = false ->
      path_join
        (path_join ("temp_adobe_extractions/extraction_" +:+ strftime (datetime_now w))
           "figures") fig_file
      = "temp_adobe_extractions/extraction_" +:+ strftime (datetime_now w)
          +:+ "/figures/" +:+ fig_file).
Proof.
  split; [reflexivity |].
  split.
  - rewrite <- append_assoc. apply replace_zip_suffix.
    apply lacks_app; [reflexivity | apply lacks_strftime; reflexivity].
  - intros Hfig.
    assert (Hdir : ends_slash ("temp_adobe_extractions/extraction_"
                                 +:+ strftime (datetime_now w)) = false).
    { rewrite ends_slash_app by apply strftime_nonempty.
      apply lacks_slash_ends, lacks_strftime. reflexivity. }
    rewrite (path_join_relative _ "figures"); [| discriminate | exact Hdir | reflexivity].
    rewrite path_join_relative; [| discriminate | | exact Hfig].
    + rewrite !append_assoc. reflexivity.
    + rewrite <- append_assoc. rewrite ends_slash_app by discriminate. reflexivity.
Qed.

Lemma extraction_paths_witness :
  path_join
    (path_join ("temp_adobe_extractions/extraction_"
                  +:+ strftime (datetime_now sample_world)) "figures") "fig0.png"
  = "temp_adobe_extractions/extraction_2025-02-03T10-20-30/figures/fig0.png".
Proof.
  rewrite (proj2 (proj2 (extraction_paths sample_world "fig0.png" st0))) by reflexivity.
  vm_compute. reflexivity.
Defined.

(** ** The Streamlit page *)



(** X22.  With the PDF opened and the requests answered, [main] returns,
    and what it shows is the title alone, or the title and one warning, or
    the title and one error, or the title with the preview and the
    download button, both carrying the same Markdown, the file being named
    [extracted_markdown.md] for a PDF and [extracted_website.md] for a
    URL.  An error is never shown together with a result. *)
Theorem main_shows_one_outcome (w : World) (ui : Ui) (st : St) :
  exists shown,
    result (main w ui) st = Ok shown
    /\ (shown = [UiTitle "Markdown Generator"]
        \/ (exists body, shown = [UiTitle "Markdown Generator"; UiWarning body])
        \/ (exists body, shown = [UiTitle "Markdown Generator"; UiError body])
        \/ (exists md,
              shown = [UiTitle "Markdown Generator"; UiMarkdown md;
                       UiDownloadButton "Download Markdown" md
                         (if String.eqb (choice ui) "PDF to Markdown"
                          then "extracted_markdown.md" else "extracted_website.md")
                         "text/markdown"])).
Proof.
  unfold main, result.
  destruct (String.eqb (choice ui) "PDF to Markdown"); destruct (button ui);
    try (eexists; split; [reflexivity | left; reflexivity]).
  - destruct (uploaded_pdf ui) as [pdf_bytes|].
    2: { eexists. split; [reflexivity |]. right. left. eexists. reflexivity. }
    unfold mbind at 1, M_bind at 1, named_temporary_file at 1.
    destruct (String.eqb (extraction_method ui) "Extract Using Open-Source Tool").
    + unfold mbind, M_bind.
      match goal with |- context [open_source_extract_pdf w ?p ?s] =>
        destruct (open_source_extract_pdf_run w p s) as (st' & -> & _) end.
      eexists. split; [reflexivity |]. right. right. right. eexists. reflexivity.
    + unfold mbind, M_bind.
      match goal with |- context [enterprise_extract_pdf w ?p ?s] =>
        pose proof (enterprise_extract_pdf_result w p s) as Hres;
        unfold result in Hres;
        destruct (enterprise_extract_pdf w p s) as [r st'] end.
      cbn [fst] in Hres. subst r.
      destruct (url_truthy (enterprise_pdf_value w _)); cbn [negb].
      * eexists. split; [reflexivity |]. right. right. right. eexists. reflexivity.
      * eexists. split; [reflexivity |]. right. right. left. eexists. reflexivity.
  - destruct (truthy (strip (url_input ui))); cbn [negb].
    2: { eexists. split; [reflexivity |]. right. left. eexists. reflexivity. }
    destruct (String.eqb (extraction_method ui) "Extract Using Open-Source Tool").
    + unfold mbind, M_bind, try_.
      destruct (open_source_extract_website w (url_input ui) st) as [[md|e] st'].
      * eexists. split; [reflexivity |]. right. right. right. eexists. reflexivity.
      * eexists. split; [reflexivity |]. right. right. left. eexists. reflexivity.
    + unfold mbind, M_bind. rewrite enterprise_extract_website_run.
      destruct (negb (truthy (secrets_get w "DIFFBOT_API_TOKEN" ""))).
      { eexists. split; [reflexivity |]. right. right. left. eexists. reflexivity. }
      destruct (negb (api_status_code (diffbot_get w (diffbot_endpoint w (url_input ui)))
                      =? 200)%nat).
      { eexists. split; [reflexivity |]. right. right. left. eexists. reflexivity. }
      destruct (diffbot_objects w (url_input ui)) as [|obj objs].
      { eexists. split; [reflexivity |]. right. right. left. eexists. reflexivity. }
      destruct (url_truthy (Some (cat (map object_block (obj :: objs))))); cbn [negb].
      * eexists. split; [reflexivity |]. right. right. right. eexists. reflexivity.
      * eexists. split; [reflexivity |]. right. right. left. eexists. reflexivity.
Qed.

(** X23.  On a URL with the open-source method, [main] shows exactly what
    [open_source_extract_website] did: its Markdown, as preview and as
    download, when it returned; one error line ending with the message of
    the exception when it raised, the exception going no further. *)
Theorem main_website_open_source (w : World) (ui : Ui) (st : St) :
  choice ui <> "PDF to Markdown" ->
  button ui = true ->
  strip (url_input ui) <> EmptyString ->
  extraction_method ui = "Extract Using Open-Source Tool" ->
  (forall md,
     result (open_source_extract_website w (url_input ui)) st = Ok md ->
     result (main w ui) st
     = Ok [UiTitle "Markdown Generator"; UiMarkdown md;
           UiDownloadButton "Download Markdown" md "extracted_website.md" "text/markdown"])
  /\ (forall e,
        result (open_source_extract_website w (url_input ui)) st = Raise e ->
        result (main w ui) st
        = Ok [UiTitle "Markdown Generator";
              UiError ("Open-source website extraction failed: " +:+ exn_msg e)]).
Proof.
  intros Hweb Hbutton Hurl Hmethod. unfold main, result.
  apply String.eqb_neq in Hweb. rewrite Hweb, Hbutton, Hmethod.
  apply truthy_true_iff in Hurl. rewrite Hurl. cbn [negb].
  rewrite ?String.eqb_refl.
  unfold mbind, M_bind, try_.
  destruct (open_source_extract_website w (url_input ui) st) as [[md|e] st'];
    cbn [fst]; split; intros x [= <-]; reflexivity.
Qed.

Lemma main_website_open_source_witness :
  result (main sample_world_not_found sample_ui_website) st0
  = Ok [UiTitle "Markdown Generator";
        UiError ("Open-source website extraction failed: "
                   +:+ "404 Client Error: Not Found for url: https://x.com/blog")].
Proof.
  apply (proj2 (main_website_open_source sample_world_not_found sample_ui_website st0
                  ltac:(discriminate) eq_refl ltac:(discriminate) eq_refl)
           (mkExn HTTPError "404 Client Error: Not Found for url: https://x.com/blog")).
  vm_compute. reflexivity.
Defined.

Lemma open_source_extract_pdf_state (w : World) (pdf_path : string) (st : St) :
  snd (open_source_extract_pdf w pdf_path st)
  = {| trace := trace st
                ++ images_events w (tmp_count st)
                     (indexed_images (fitz_pages (open_pdf w pdf_path)))
                ++ [ReadPdf pdf_path];
       tmp_count := tmp_count st
                    + List.length (indexed_images (fitz_pages (open_pdf w pdf_path))) |}.
Proof.
  unfold open_source_extract_pdf.
  pose proof (extract_images_to_md_state w pdf_path st) as Hst.
  destruct (extract_images_to_md_run w pdf_path st) as (st1 & Hrun1 & _).
  unfold mbind at 1, M_bind at 1. rewrite Hrun1 in Hst |- *.
  cbn [snd] in Hst. subst st1.
  unfold mbind, M_bind. rewrite extract_tables_to_md_run.
  cbn [snd trace tmp_count]. rewrite <- app_assoc. reflexivity.
Qed.

(** X24.  For an uploaded PDF with the open-source method, the title line
    of the Markdown names the temp file the upload was copied to, and of
    the temp files of the run this one alone is left on disk: the temp
    file of each image is removed, that of the PDF never is. *)
Theorem main_pdf_open_source (w : World) (ui : Ui) (pdf_bytes : string) (st : St) :
  choice ui = "PDF to Markdown" ->
  button ui = true ->
  uploaded_pdf ui = Some pdf_bytes ->
  extraction_method ui = "Extract Using Open-Source Tool" ->
  (exists tail,
     result (main w ui) st
     = Ok [UiTitle "Markdown Generator";
           UiMarkdown ("# Extracted Content from "
                         +:+ basename (tmp_prefix w (tmp_count st) +:+ ".pdf") +:+ nl +:+ tail);
           UiDownloadButton "Download Markdown"
             ("# Extracted Content from "
                +:+ basename (tmp_prefix w (tmp_count st) +:+ ".pdf") +:+ nl +:+ tail)
             "extracted_markdown.md" "text/markdown"])
  /\ written (events (main w ui) st)
     = written (trace st)
       ++ (tmp_prefix w (tmp_count st) +:+ ".pdf")
          :: imap (fun k '(_, _, img) =>
                     tmp_prefix w (S (tmp_count st) + k) +:+ "." +:+ ext img)
               (indexed_images
                  (fitz_pages (open_pdf w (tmp_prefix w (tmp_count st) +:+ ".pdf"))))
  /\ removed (events (main w ui) st)
     = removed (trace st)
       ++ imap (fun k '(_, _, img) =>
                  tmp_prefix w (S (tmp_count st) + k) +:+ "." +:+ ext img)
            (indexed_images
               (fitz_pages (open_pdf w (tmp_prefix w (tmp_count st) +:+ ".pdf")))).
Proof.
  intros Hpdf Hbutton Hup Hmethod.
  pose proof (open_source_extract_pdf_state w (tmp_prefix w (tmp_count st) +:+ ".pdf")
                {| trace := trace st
                            ++ [TempFileWritten (tmp_prefix w (tmp_count st) +:+ ".pdf")];
                   tmp_count := S (tmp_count st) |}) as Hst.
  destruct (open_source_extract_pdf_run w (tmp_prefix w (tmp_count st) +:+ ".pdf")
              {| trace := trace st
                          ++ [TempFileWritten (tmp_prefix w (tmp_count st) +:+ ".pdf")];
                 tmp_count := S (tmp_count st) |}) as (st' & Hrun & _).
  rewrite Hrun in Hst. cbn [snd] in Hst. subst st'. cbn [trace tmp_count] in Hrun.
  assert (Hmain : exists tail,
             main w ui st
             = (Ok [UiTitle "Markdown Generator";
                    UiMarkdown ("# Extracted Content from "
                                  +:+ basename (tmp_prefix w (tmp_count st) +:+ ".pdf")
                                  +:+ nl +:+ tail);
                    UiDownloadButton "Download Markdown"
                      ("# Extracted Content from "
                         +:+ basename (tmp_prefix w (tmp_count st) +:+ ".pdf")
                         +:+ nl +:+ tail)
                      "extracted_markdown.md" "text/markdown"],
                {| trace := (trace st
                             ++ [TempFileWritten (tmp_prefix w (tmp_count st) +:+ ".pdf")])
                            ++ images_events w (S (tmp_count st))
                                 (indexed_images
                                    (fitz_pages
                                       (open_pdf w (tmp_prefix w (tmp_count st) +:+ ".pdf"))))
                            ++ [ReadPdf (tmp_prefix w (tmp_count st) +:+ ".pdf")];
                   tmp_count := S (tmp_count st)
                                + List.length
                                    (indexed_images
                                       (fitz_pages
                                          (open_pdf w
                                             (tmp_prefix w (tmp_count st) +:+ ".pdf")))) |})).
  { eexists. unfold main. rewrite Hpdf, Hbutton, Hup, Hmethod, !String.eqb_refl.
    unfold mbind, M_bind, named_temporary_file. rewrite Hrun. reflexivity. }
  destruct Hmain as (tail & Hmain). unfold result, events. rewrite Hmain.
  cbn [fst snd trace].
  split; [exists tail; reflexivity |].
  rewrite !written_app, !removed_app.
  destruct (images_events_files w
              (indexed_images
                 (fitz_pages (open_pdf w (tmp_prefix w (tmp_count st) +:+ ".pdf"))))
              (S (tmp_count st))) as [-> ->].
  cbn. rewrite !app_nil_r, <- ?app_assoc. split; reflexivity.
Qed.

Lemma main_pdf_open_source_witness :
  written (events (main sample_world sample_ui_pdf) st0)
  = ["/tmp/tmp0.pdf"; "/tmp/tmp1.png"]
  /\ removed (events (main sample_world sample_ui_pdf) st0) = ["/tmp/tmp1.png"].
Proof.
  destruct (main_pdf_open_source sample_world sample_ui_pdf "%PDF-1.7" st0
              eq_refl eq_refl eq_refl eq_refl) as (_ & Hw & Hr).
  rewrite Hw, Hr. split; vm_compute; reflexivity.
Defined.

Lemma enterprise_pdf_value_truthy (w : World) (pdf_path md : string) :
  enterprise_pdf_value w pdf_path = Some md -> truthy md = true.
Proof.
  unfold enterprise_pdf_value.
  destruct (secrets w !! "ADOBE_CREDENTIALS_JSON") as [adobe_json|]; [| discriminate].
  destruct (adobe_credentials w adobe_json) as [[client_id client_secret]|e];
    [| discriminate].
  destruct (negb (path_exists w pdf_path)); [discriminate |].
  destruct (adobe_extract w client_id client_secret pdf_path) as [zip|e]; [| discriminate].
  unfold adobe_markdown_of.
  destruct (structuredData zip) as [data|]; [| discriminate].
  intros [= <-].
  rewrite xlsx_tables_to_md_blocks, manifest_to_md_blocks, !append_assoc. reflexivity.
Qed.

(** X25.  For an uploaded PDF with any method other than the open-source
    one, [main] shows the Markdown of [enterprise_extract_pdf] whenever it
    returned one, and the fixed error line exactly when it returned
    [None]; the extraction runs on the temp copy of the upload. *)
Theorem main_pdf_enterprise (w : World) (ui : Ui) (pdf_bytes : string) (st st' : St) :
  choice ui = "PDF to Markdown" ->
  button ui = true ->
  uploaded_pdf ui = Some pdf_bytes ->
  extraction_method ui <> "Extract Using Open-Source Tool" ->
  (forall md,
     result (enterprise_extract_pdf w (tmp_prefix w (tmp_count st) +:+ ".pdf")) st'
     = Ok (Some md) ->
     result (main w ui) st
     = Ok [UiTitle "Markdown Generator"; UiMarkdown md;
           UiDownloadButton "Download Markdown" md "extracted_markdown.md" "text/markdown"])
  /\ (result (enterprise_extract_pdf w (tmp_prefix w (tmp_count st) +:+ ".pdf")) st'
      = Ok None ->
      result (main w ui) st
      = Ok [UiTitle "Markdown Generator";
            UiError "Enterprise PDF extraction failed. Check logs or secrets."]).
Proof.
  intros Hpdf Hbutton Hup Hmethod. apply String.eqb_neq in Hmethod.
  rewrite enterprise_extract_pdf_result.
  assert (Hmain :
            result (main w ui) st
            = Ok (match enterprise_pdf_value w (tmp_prefix w (tmp_count st) +:+ ".pdf") with
                  | Some md =>
                      [UiTitle "Markdown Generator"; UiMarkdown md;
                       UiDownloadButton "Download Markdown" md
                         "extracted_markdown.md" "text/markdown"]
                  | None =>
                      [UiTitle "Markdown Generator";
                       UiError "Enterprise PDF extraction failed. Check logs or secrets."]
                  end)).
  { unfold result, main. rewrite Hpdf, Hbutton, Hup, Hmethod, String.eqb_refl.
    unfold mbind, M_bind, named_temporary_file.
    match goal with |- context [enterprise_extract_pdf w ?p ?s] =>
      pose proof (enterprise_extract_pdf_result w p s) as Hres;
      unfold result in Hres;
      destruct (enterprise_extract_pdf w p s) as [r st1] end.
    cbn [fst] in Hres. subst r.
    destruct (enterprise_pdf_value w (tmp_prefix w (tmp_count st) +:+ ".pdf"))
      as [md0|] eqn:Hvalue.
    - cbn [url_truthy]. rewrite (enterprise_pdf_value_truthy _ _ _ Hvalue). reflexivity.
    - reflexivity. }
  rewrite Hmain.
  split; [intros md [= ->] | intros [= ->]]; reflexivity.
Qed.

Lemma main_pdf_enterprise_witness :
  result (main sample_world_adobe_fails sample_ui_pdf_enterprise) st0
  = Ok [UiTitle "Markdown Generator";
        UiError "Enterprise PDF extraction failed. Check logs or secrets."].
Proof.
  apply (proj2 (main_pdf_enterprise sample_world_adobe_fails sample_ui_pdf_enterprise
                  "%PDF-1.7" st0 st0 eq_refl eq_refl eq_refl ltac:(discriminate))).
  vm_compute. reflexivity.
Defined.
